(** * aws-eb: build orchestration, fleet launch and idle monitor

    A shallow embedding of the parts of [aws-eb.py] that decide what is
    built, skipped or retried ([Builder.build_all_eb]), how easyconfig
    versions are ordered ([ConfigManager.sversion],
    [Builder._get_latest_easyconfig]), how a rejected spot request is retried
    ([AWSBoto._ec2_launch_instance]) and when a worker declares itself idle
    ([AWSBoto._monitor_is_idle], [AWSBoto._monitor_save_idle_state],
    [AWSBoto.monitor_ec2]); and of the functions around them: the reading
    of easyconfigs and of the list of missing modules
    ([Builder._read_easyconfig], [Builder._eb_missing_modules]), the walk
    over the folders ([ConfigManager._walker]), the installation of OS
    packages ([ConfigManager.install_os_packages]), the tables of CPU and
    GPU types and the choice of an instance ([subcmd_launch],
    [AWSBoto._ec2_get_cheapest_spot_instance],
    [AWSBoto._ec2_current_spot_price]) and the name shown for an image
    ([ConfigManager.parse_version_string]).

    Conventions.
    - Python [str] values are [string]s over ASCII; [\d] and [\w] are read
      on ASCII, as EasyBuild file names are.
    - Python [int]s are [Z]; Python [float]s (prices, rates) are exact
      rationals [Q]: rounding is not modelled.
    - A Python call that may raise returns [py A]: [Ret a] or [Raise e].
    - Dictionaries whose order is irrelevant are [gmap]s; dictionaries that
      are iterated are association lists in insertion order.
    - Objects that are mutated through several references (the status
      records held by [statdict]) live in an explicit heap. *)

From Stdlib Require Import ZArith QArith String Ascii List Bool Sorted Lia.
From stdpp Require Import base option list gmap strings.

Local Open Scope string_scope.
Local Open Scope Z_scope.

(** ** Python results *)

Inductive exn : Type :=
  | TypeError
  | KeyError
  | InvalidVersion
  | UnboundLocalError
  | ValueError
  | FileNotFoundError
  | SystemExit (code : Z).

Inductive py (A : Type) : Type :=
  | Ret (a : A)
  | Raise (e : exn).
Arguments Ret {A} a.
Arguments Raise {A} e.

Definition py_bind {A B : Type} (m : py A) (k : A -> py B) : py B :=
  match m with
  | Ret a => k a
  | Raise e => Raise e
  end.

Notation "'try!' x := m 'in' k" := (py_bind m (fun x => k))
  (at level 10, x name, m at level 100, k at level 200).

(** ** Strings *)

Module Str.

Definition is_digit (c : ascii) : bool :=
  ((48 <=? N_of_ascii c) && (N_of_ascii c <=? 57))%N.

Definition is_alpha (c : ascii) : bool :=
  (((65 <=? N_of_ascii c) && (N_of_ascii c <=? 90))
   || ((97 <=? N_of_ascii c) && (N_of_ascii c <=? 122)))%N.

(** [\w] on ASCII: letters, digits and the underscore. *)
Definition is_word (c : ascii) : bool :=
  is_alpha c || is_digit c || Ascii.eqb c "_".

(** [str.isspace()] on ASCII: the space, tab to carriage return, and the
    four separators 28 to 31. *)
Definition is_space (c : ascii) : bool :=
  ((N_of_ascii c =? 32) || ((9 <=? N_of_ascii c) && (N_of_ascii c <=? 13))
   || ((28 <=? N_of_ascii c) && (N_of_ascii c <=? 31)))%N.

Fixpoint forallb (p : ascii -> bool) (s : string) : bool :=
  match s with
  | EmptyString => true
  | String c s' => p c && forallb p s'
  end.

(** [str.isdigit()]: non-empty and digits only. *)
Definition isdigit (s : string) : bool :=
  match s with
  | EmptyString => false
  | _ => forallb is_digit s
  end.

Definition digit_val (c : ascii) : Z := Z.of_N (N_of_ascii c) - 48.

Fixpoint int_acc (acc : Z) (s : string) : Z :=
  match s with
  | EmptyString => acc
  | String c s' => int_acc (10 * acc + digit_val c) s'
  end.

(** [int(s)] for a string of digits. *)
Definition int (s : string) : Z := int_acc 0 s.

(** [s.split(sep)] for a one-character separator. *)
Fixpoint split (sep : ascii) (s : string) : list string :=
  match s with
  | EmptyString => [EmptyString]
  | String c s' =>
      if Ascii.eqb c sep then EmptyString :: split sep s'
      else match split sep s' with
           | [] => [String c EmptyString]
           | p :: ps => String c p :: ps
           end
  end.

(** [s.startswith(p)] *)
Fixpoint startswith (p s : string) : bool :=
  match p, s with
  | EmptyString, _ => true
  | String a p', String b s' => Ascii.eqb a b && startswith p' s'
  | String _ _, EmptyString => false
  end.

(** [p in s] for strings. *)
Fixpoint contains (p s : string) : bool :=
  startswith p s ||
  match s with
  | EmptyString => false
  | String _ s' => contains p s'
  end.

Fixpoint rev_acc (acc s : string) : string :=
  match s with
  | EmptyString => acc
  | String c s' => rev_acc (String c acc) s'
  end.

Definition rev (s : string) : string := rev_acc EmptyString s.

(** [s.endswith(p)] *)
Definition endswith (p s : string) : bool := startswith (rev p) (rev s).

Fixpoint lstrip (s : string) : string :=
  match s with
  | String c s' => if is_space c then lstrip s' else s
  | EmptyString => EmptyString
  end.

(** [s.strip()] *)
Definition strip (s : string) : string := rev (lstrip (rev (lstrip s))).

(** [x in l] for a list of strings. *)
Definition mem (x : string) (l : list string) : bool :=
  existsb (String.eqb x) l.

(** Numbers separated by dots: [N(.N)*]. *)
Definition dotted_digits (s : string) : bool :=
  List.forallb isdigit (split "." s).

End Str.

(** ** [ConfigManager.sversion] and the comparison of its results *)

Module Version.

(** An element of the tuple [sversion] returns: an [int] or a [str]. *)
Inductive part : Type :=
  | PInt (n : Z)
  | PStr (s : string).

Definition sversion (version_str : string) : list part :=
  map (fun p => if Str.isdigit p then PInt (Str.int p) else PStr p)
      (Str.split "." version_str).

(** [x == y]: an [int] and a [str] are never equal. *)
Definition part_eq (x y : part) : bool :=
  match x, y with
  | PInt a, PInt b => a =? b
  | PStr a, PStr b => String.eqb a b
  | _, _ => false
  end.

(** [x < y]: Python 3 refuses to order an [int] and a [str]. *)
Definition part_lt (x y : part) : py bool :=
  match x, y with
  | PInt a, PInt b => Ret (a <? b)
  | PStr a, PStr b => Ret (String.ltb a b)
  | _, _ => Raise TypeError
  end.

(** [a < b] on tuples: the first position where the elements are not
    equal decides, by [<] on these elements; without one the shorter
    tuple is the smaller. *)
Fixpoint tuple_lt (a b : list part) : py bool :=
  match a, b with
  | [], [] => Ret false
  | [], _ :: _ => Ret true
  | _ :: _, [] => Ret false
  | x :: a', y :: b' => if part_eq x y then tuple_lt a' b' else part_lt x y
  end.

(** The order the docstring of [sversion] has in mind, on tuples of
    integers: field by field, a proper prefix first. *)
Fixpoint ints_lt (a b : list Z) : bool :=
  match a, b with
  | [], [] => false
  | [], _ :: _ => true
  | _ :: _, [] => false
  | x :: a', y :: b' => if x =? y then ints_lt a' b' else x <? y
  end.

(** [self.cfg.sversion(v) < self.cfg.sversion(m)] *)
Definition older (v m : string) : py bool := tuple_lt (sversion v) (sversion m).

(** The table written by [Builder.__init__] when none is configured. *)
Definition default_min_toolchains : gmap string string :=
  list_to_map [("system", "system"); ("GCC", "11.0"); ("GCCcore", "11.0");
               ("LLVM", "12.0"); ("foss", "2022a"); ("gfbf", "2022a")].

Inductive verdict : Type :=
  | Skip (reason : string)
  | Eligible.

(** The toolchain checks of [build_all_eb], in the order of the code. *)
Definition toolchain_policy (min_toolchains : gmap string string)
    (name version tc_name tc_version : string) : py verdict :=
  try! own := match min_toolchains !! name with
              | Some m => older version m
              | None => Ret false
              end in
  if (own : bool) then Ret (Skip ("toolchain version too old: " ++ version))
  else
    match min_toolchains !! tc_name with
    | None => Ret (Skip ("toolchain not supported: " ++ tc_name))
    | Some m =>
        try! old := older tc_version m in
        if (old : bool)
        then Ret (Skip ("toolchain version too old: " ++ tc_name ++ "-" ++ tc_version))
        else Ret Eligible
    end.

End Version.

(** ** Regular expressions

    The fragment of Python's [re] the program uses: character classes,
    concatenation, greedy [?], [*] and [+], and capturing groups, matched by
    backtracking with the priorities of [re]: the leftmost start, and at
    each choice the greedy alternative first. *)

Module Regex.

Inductive re : Type :=
  | Chr (p : ascii -> bool)
  | Seq (r1 r2 : re)
  | Opt (r : re)
  | Star (r : re)
  | Grp (n : nat) (r : re).

Definition Plus (r : re) : re := Seq r (Star r).

(** Groups that took part in the match, the latest binding first. *)
Definition captures : Type := list (nat * string).

Fixpoint group (n : nat) (c : captures) : option string :=
  match c with
  | [] => None
  | (m, s) :: c' => if Nat.eqb n m then Some s else group n c'
  end.

(** The text consumed between [s] and its suffix [s']. *)
Definition consumed (s s' : string) : string :=
  substring 0 (String.length s - String.length s') s.

(** [exec r s caps k]: match [r] at the start of [s], then continue with
    [k] on the rest; [None] makes the matcher backtrack. The body of a
    [Star] must consume a character to be iterated. *)
Fixpoint exec {R : Type} (r : re) (s : string) (caps : captures)
    (k : string -> captures -> option R) {struct r} : option R :=
  match r with
  | Chr p =>
      match s with
      | String c s' => if p c then k s' caps else None
      | EmptyString => None
      end
  | Seq r1 r2 => exec r1 s caps (fun s1 c1 => exec r2 s1 c1 k)
  | Opt r1 =>
      match exec r1 s caps k with
      | Some x => Some x
      | None => k s caps
      end
  | Star r1 =>
      (fix loop (fuel : nat) (s : string) (caps : captures) {struct fuel} : option R :=
         match fuel with
         | O => k s caps
         | S fuel' =>
             match exec r1 s caps
                     (fun s1 c1 =>
                        if (String.length s1 <? String.length s)%nat
                        then loop fuel' s1 c1 else None) with
             | Some x => Some x
             | None => k s caps
             end
         end) (String.length s) s caps
  | Grp n r1 => exec r1 s caps (fun s1 c1 => k s1 ((n, consumed s s1) :: c1))
  end.

(** [pattern.match(s)]: the groups and the rest of [s]. *)
Definition match_at (r : re) (s : string) : option (captures * string) :=
  exec r s [] (fun s' c => Some (c, s')).

(** [pattern.search(s)] *)
Fixpoint search (r : re) (s : string) : option (captures * string) :=
  match match_at r s with
  | Some m => Some m
  | None =>
      match s with
      | String _ s' => search r s'
      | EmptyString => None
      end
  end.

(** [re.findall(r, s)] for a pattern without groups that cannot match
    the empty string: the matches, left to right, without overlap. *)
Fixpoint findall_fuel (fuel : nat) (r : re) (s : string) : list string :=
  match fuel with
  | O => []
  | S fuel' =>
      match search (Grp 0 r) s with
      | Some (c, s') =>
          match group 0 c with
          | Some m => m :: findall_fuel fuel' r s'
          | None => []
          end
      | None => []
      end
  end.

Definition findall (r : re) (s : string) : list string :=
  findall_fuel (S (String.length s)) r s.

Definition lit (c : ascii) : re := Chr (Ascii.eqb c).
Definition digits : re := Plus (Chr Str.is_digit).

(** The strings a pattern matches, groups aside. *)
Inductive matches : re -> string -> Prop :=
  | MChr p c : p c = true -> matches (Chr p) (String c EmptyString)
  | MSeq r1 r2 s1 s2 : matches r1 s1 -> matches r2 s2 -> matches (Seq r1 r2) (s1 ++ s2)
  | MOptNone r : matches (Opt r) EmptyString
  | MOptSome r s : matches r s -> matches (Opt r) s
  | MStarNil r : matches (Star r) EmptyString
  | MStarCons r s1 s2 : matches r s1 -> matches (Star r) s2 -> matches (Star r) (s1 ++ s2)
  | MGrp n r s : matches r s -> matches (Grp n r) s.

(** The groups of a pattern, each with the pattern it encloses. *)
Fixpoint groups (r : re) : list (nat * re) :=
  match r with
  | Chr _ => []
  | Seq r1 r2 => groups r1 ++ groups r2
  | Opt r1 => groups r1
  | Star r1 => groups r1
  | Grp n r1 => (n, r1) :: groups r1
  end.

(** A captured text is matched by the pattern of its group. *)
Definition capture_of (r : re) (c : nat * string) : Prop :=
  exists r', In (fst c, r') (groups r) /\ matches r' (snd c).

End Regex.

(** ** [Builder._get_latest_easyconfig] *)

(** [packaging.version]: [parse] and the order of [Version] objects, the
    interface the program uses. [vparse s = None] when [parse(s)] raises
    [InvalidVersion]; [vcmp a b] is [Eq] when [a == b] and [Lt] when
    [a < b]. *)
Class VersionOps (V : Type) : Type := {
  vparse : string -> option V;
  vcmp : V -> V -> comparison
}.

(** A three-way comparison that is a total preorder. *)
Record Order {A : Type} (cmp : A -> A -> comparison) : Prop := {
  ord_refl : forall a, cmp a a = Eq;
  ord_antisym : forall a b, cmp b a = CompOpp (cmp a b);
  ord_trans : forall a b c, cmp a b = Lt -> cmp b c = Lt -> cmp a c = Lt;
  ord_eq_l : forall a b c, cmp a b = Eq -> cmp a c = cmp b c
}.

(** [Version] objects are totally ordered by their comparison key, and
    every string of the form [N(.N)*] is a version. *)
Class VersionLaws (V : Type) `{VersionOps V} : Prop := {
  vcmp_order : Order vcmp;
  vparse_release : forall s, Str.dotted_digits s = true -> is_Some (vparse s)
}.

Module Catalog.
Import Regex.

(** [version_pattern], written with the spacing of [re.VERBOSE]:
    [- ( \d+ (?: \. \d+ )* ) (?: - ( \w+ (?: - \d+ (?: \. \d+ )* (?: [ab] \d+ )? )? ) )? \.] *)
Definition version_pattern : re :=
  Seq (lit "-")
 (Seq (Grp 1 (Seq digits (Star (Seq (lit ".") digits))))
 (Seq (Opt (Seq (lit "-")
                (Grp 2 (Seq (Plus (Chr Str.is_word))
                            (Opt (Seq (lit "-")
                                 (Seq digits
                                 (Seq (Star (Seq (lit ".") digits))
                                      (Opt (Seq (Chr (fun c => Ascii.eqb c "a" || Ascii.eqb c "b"))
                                                digits))))))))))
      (lit "."))).

(** The two version strings read off a file name:
    [software_version] and [toolchain_version] (['0'] without group 2). *)
Definition extract (filename : string) : option (string * string) :=
  match search version_pattern filename with
  | Some (c, _) =>
      match group 1 c with
      | Some software_version =>
          Some (software_version,
                match group 2 c with
                | Some (String a t) => String a t
                | _ => "0"
                end)
      | None => None
      end
  | None => None
  end.

Section Latest.
Context {V : Type} `{VersionOps V}.

(** [toolchain_version_parsed]: a [Version], or the string itself. *)
Inductive toolchain_parsed : Type :=
  | TcVersion (v : V)
  | TcString (s : string).

Definition version_tuple : Type := (V * toolchain_parsed)%type.

Definition veq (a b : V) : bool :=
  match vcmp a b with Eq => true | _ => false end.

(** [==] on the dictionary keys: a [Version] never equals a [str]. *)
Definition tuple_eq (a b : version_tuple) : bool :=
  veq (fst a) (fst b) &&
  match snd a, snd b with
  | TcVersion x, TcVersion y => veq x y
  | TcString x, TcString y => String.eqb x y
  | _, _ => false
  end.

(** [d[k] = v]: an existing key keeps its place. *)
Fixpoint dict_set (d : list (version_tuple * string)) (k : version_tuple)
    (v : string) : list (version_tuple * string) :=
  match d with
  | [] => [(k, v)]
  | (k', v') :: d' =>
      if tuple_eq k' k then (k', v) :: d' else (k', v') :: dict_set d' k v
  end.

Fixpoint dict_get (d : list (version_tuple * string)) (k : version_tuple)
    : option string :=
  match d with
  | [] => None
  | (k', v') :: d' => if tuple_eq k' k then Some v' else dict_get d' k
  end.

(** A file the loop looks at, with its two version strings. *)
Definition candidate (filename : string) : option (string * string) :=
  if negb (Str.endswith ".eb" filename) then None else extract filename.

(** [version_tuple]: [parse(software_version)] raises [InvalidVersion]
    outside the [try]; a toolchain version that does not parse stays a
    string. *)
Definition parse_tuple (software_version toolchain_version : string)
    : py version_tuple :=
  let toolchain_version_parsed :=
    match vparse toolchain_version with
    | Some v => TcVersion v
    | None => TcString toolchain_version
    end in
  match vparse software_version with
  | None => Raise InvalidVersion
  | Some software => Ret (software, toolchain_version_parsed)
  end.

(** The loop over [os.listdir(directory)]. *)
Fixpoint scan (d : list (version_tuple * string)) (listing : list string)
    : py (list (version_tuple * string)) :=
  match listing with
  | [] => Ret d
  | filename :: rest =>
      match candidate filename with
      | None => scan d rest
      | Some (software_version, toolchain_version) =>
          try! t := parse_tuple software_version toolchain_version in
          scan (dict_set d t filename) rest
      end
  end.

Definition sort_key (t : version_tuple) : py (V * V) :=
  match snd t with
  | TcString _ =>
      match vparse "0" with
      | Some z => Ret (fst t, z)
      | None => Raise InvalidVersion
      end
  | TcVersion toolchain => Ret (fst t, toolchain)
  end.

(** The order of the sort keys, pairs of [Version]s: the first component
    decides unless equal. *)
Definition key_cmp (a b : V * V) : comparison :=
  match vcmp (fst a) (fst b) with
  | Eq => vcmp (snd a) (snd b)
  | c => c
  end.

(** [<] on the sort keys. *)
Definition key_lt (a b : V * V) : bool :=
  match key_cmp a b with Lt => true | _ => false end.

Fixpoint keyed (l : list version_tuple) : py (list ((V * V) * version_tuple)) :=
  match l with
  | [] => Ret []
  | t :: l' =>
      try! k := sort_key t in
      try! ks := keyed l' in
      Ret ((k, t) :: ks)
  end.

(** A stable sort by increasing key: an element goes in front of the
    first one that is not smaller than it. *)
Fixpoint insert_sorted (x : (V * V) * version_tuple)
    (l : list ((V * V) * version_tuple)) : list ((V * V) * version_tuple) :=
  match l with
  | [] => [x]
  | y :: l' =>
      if key_lt (fst y) (fst x) then y :: insert_sorted x l' else x :: y :: l'
  end.

Fixpoint sort_asc (l : list ((V * V) * version_tuple))
    : list ((V * V) * version_tuple) :=
  match l with
  | [] => []
  | x :: l' => insert_sorted x (sort_asc l')
  end.

(** [sorted(keys, key=sort_key, reverse=True)]: the list is reversed,
    sorted stably, and reversed again, so that elements with equal keys
    keep their order. *)
Definition sorted_reverse (l : list version_tuple) : py (list version_tuple) :=
  try! ks := keyed l in
  Ret (map snd (List.rev (sort_asc (List.rev ks)))).

(** The sort key of a file of the directory, when the loop takes it. *)
Definition file_key (filename : string) : option (V * V) :=
  match candidate filename with
  | Some (software_version, toolchain_version) =>
      match parse_tuple software_version toolchain_version with
      | Ret t => match sort_key t with
                 | Ret k => Some k
                 | Raise _ => None
                 end
      | Raise _ => None
      end
  | None => None
  end.

(** [x] is not after [y] in increasing order of the keys. *)
Definition key_le (x y : (V * V) * version_tuple) : Prop :=
  key_cmp (fst x) (fst y) <> Gt.

Definition _get_latest_easyconfig (listing : list string) : py (option string) :=
  try! version_file_dict := scan [] listing in
  match version_file_dict with
  | [] => Ret None
  | _ =>
      try! s := sorted_reverse (map fst version_file_dict) in
      match s with
      | latest_version :: _ => Ret (dict_get version_file_dict latest_version)
      | [] => Ret None
      end
  end.

End Latest.

End Catalog.

(** The final releases of [packaging.version]: [N(.N)*], compared
    component by component with trailing zeros dropped. These are the
    versions the examples below use; pre-, post- and development releases
    are left out of this instance. *)
Module Release.

Definition parse (s : string) : option (list Z) :=
  if Str.dotted_digits s then Some (map Str.int (Str.split "." s)) else None.

Fixpoint drop_zeros (l : list Z) : list Z :=
  match l with
  | 0 :: l' => drop_zeros l'
  | _ => l
  end.

(** The [release] part of [Version._key]. *)
Definition key (l : list Z) : list Z := List.rev (drop_zeros (List.rev l)).

Fixpoint lex (a b : list Z) : comparison :=
  match a, b with
  | [], [] => Eq
  | [], _ :: _ => Lt
  | _ :: _, [] => Gt
  | x :: a', y :: b' =>
      match x ?= y with
      | Eq => lex a' b'
      | c => c
      end
  end.

Definition compare (a b : list Z) : comparison := lex (key a) (key b).

#[global] Instance ops : VersionOps (list Z) :=
  {| vparse := parse; vcmp := compare |}.

End Release.

(** ** [AWSBoto._extract_last_float] and the launch loop of
       [AWSBoto._ec2_launch_instance] *)

Module Fleet.
Import Regex.

(** [\d+\.\d+] *)
Definition float_pattern : re := Seq digits (Seq (lit ".") digits).

(** [float(m)] for a match [m] of [float_pattern], as an exact rational. *)
Definition float_of (m : string) : Q :=
  match Str.split "." m with
  | [i; f] => Qmake (Str.int (i ++ f)) (Z.to_pos (10 ^ Z.of_nat (String.length f)))
  | _ => 0%Q
  end.

Definition _extract_last_float (input_string : string) : option Q :=
  match List.rev (findall float_pattern input_string) with
  | m :: _ => Some (float_of m)
  | [] => None
  end.

(** [InstanceMarketOptions] and [Placement] of one [create_instances]
    call: [None] stands for the empty dictionary [{}]; [MaxPrice] is kept
    as the number whose [str] is sent. *)
Record request : Type := {
  MaxPrice : option Q;
  AvailabilityZone : option string
}.

Inductive response : Type :=
  | Created (instance_id : string)
  | ClientError (error_code message : string)
  | OtherException.

Definition Qlt_bool (a b : Q) : bool := negb (Qle_bool b a).

(** The body of the [try] up to the call: on-demand when the on-demand
    price is below 105% of the spot price or [--on-demand] is given, else
    a one-time spot request capped at 105% of [price_spot]. *)
Definition market (price_ondemand price_spot : Q) (ondemand : bool) (az : string)
    : request :=
  if Qlt_bool price_ondemand (price_spot * (105 # 100)) then
    {| MaxPrice := None; AvailabilityZone := None |}
  else if ondemand then
    {| MaxPrice := None; AvailabilityZone := None |}
  else
    {| MaxPrice := Some (price_spot * (105 # 100))%Q; AvailabilityZone := Some az |}.

Section Launch.
(** The provisioning API: the answer to the [i]-th call. *)
Variable create_instances : nat -> request -> response.
Variables (price_ondemand : Q) (ondemand : bool) (az : string).

(** [for i in range(2)], from iteration [i] with [n] iterations left.
    Returns the requests made so far (latest first) and the instance,
    if one was bound. *)
Fixpoint launch_loop (n i : nat) (price_spot : Q) (sent : list request)
    : list request * py (option string) :=
  match n with
  | O => (sent, Ret None)
  | S n' =>
      let rq := market price_ondemand price_spot ondemand az in
      match create_instances i rq with
      | Created instance => (rq :: sent, Ret (Some instance))
      | OtherException => (rq :: sent, Raise (SystemExit 1))
      | ClientError error_code errmsg =>
          if String.eqb error_code "AccessDenied" then
            (rq :: sent, Raise (SystemExit 1))
          else if String.eqb error_code "SpotMaxPriceTooLow" then
            match _extract_last_float errmsg with
            | Some price_spot' => launch_loop n' (S i) price_spot' (rq :: sent)
            | None => (rq :: sent, Raise TypeError)
            end
          else if String.eqb error_code "OptInRequired" then
            (rq :: sent, Raise (SystemExit 1))
          else if String.eqb error_code "InsufficientInstanceCapacity" then
            (rq :: sent, Raise (SystemExit 3))
          else (rq :: sent, Raise (SystemExit 1))
      end
  end.

(** The loop and the first use of [instance] after it: the requests in
    the order they were made, and the instance id. *)
Definition _ec2_launch_instance (price_spot : Q) : list request * py string :=
  let '(sent, r) := launch_loop 2 0 price_spot [] in
  (List.rev sent,
   try! inst := r in
   match inst with
   | Some instance_id => Ret instance_id
   | None => Raise UnboundLocalError
   end).
End Launch.

End Fleet.

(** ** The idle monitor: [_monitor_is_idle], [_monitor_save_idle_state]
       and [monitor_ec2] *)

Module Monitor.

(** One entry of [psutil.process_iter]. [write_bytes] is [None] when
    [proc.io_counters()] raises [NoSuchProcess] or [AccessDenied]. *)
Record proc : Type := {
  name : string;
  write_bytes : option Z;
  proc_cpu_percent : Q
}.

(** What one run of [_monitor_is_idle] observes during its window. *)
Record sample : Type := {
  users_logged_in : bool;
  cpu_percent : Q;
  io_start_write_bytes : Z;
  io_end_write_bytes : Z;
  net_start_bytes_sent : Z;
  net_end_bytes_sent : Z;
  net_start_bytes_recv : Z;
  net_end_bytes_recv : Z;
  procs_io : list proc;
  procs_cpu : list proc
}.

Definition CPU_THRESHOLD : Q := 20 # 1.
Definition NET_READ_THRESHOLD : Q := 1000 # 1.
Definition NET_WRITE_THRESHOLD : Q := 1000 # 1.
Definition DISK_WRITE_THRESHOLD : Q := 100000 # 1.
Definition PROCESS_CPU_THRESHOLD : Q := 10 # 1.
Definition DISK_WRITE_EXCLUSIONS : list string :=
  ["systemd"; "systemd-journald"; "chronyd"; "sshd"; "auditd"; "agetty"].

Definition Qgt_bool (a b : Q) : bool := negb (Qle_bool a b).

(** [file.readlines()]: the lines, each with its newline. *)
Fixpoint readlines (s : string) : list string :=
  match s with
  | EmptyString => []
  | String c s' =>
      if Ascii.eqb c "010" then String c EmptyString :: readlines s'
      else match readlines s' with
           | [] => [String c EmptyString]
           | l :: ls => String c l :: ls
           end
  end.

(** The loop over [reversed(states)]. *)
Fixpoint count_idle (states_reversed : list string) : Z :=
  match states_reversed with
  | [] => 0
  | state :: rest =>
      if String.eqb (Str.strip state) "1" then 1 + count_idle rest else 0
  end.

Definition idle_line (is_system_idle : bool) : string :=
  if is_system_idle then String "1" (String "010" EmptyString)
  else String "0" (String "010" EmptyString).

(** The state file after the append, and the trailing idle count. *)
Definition save_count (is_system_idle : bool) (file : string) : string * Z :=
  let file' := file ++ idle_line is_system_idle in
  (file', count_idle (List.rev (readlines file'))).

Definition _monitor_save_idle_state (is_system_idle : bool) (min_idle_cnt : Z)
    (file : string) : string * bool :=
  let '(file', count) := save_count is_system_idle file in
  (file', min_idle_cnt <=? count).

(** The inner loop of the disk check: does a process outside the
    exclusion list report written bytes? *)
Fixpoint writer_found (ps : list proc) : bool :=
  match ps with
  | [] => false
  | p :: ps' =>
      if Str.mem (name p) DISK_WRITE_EXCLUSIONS then writer_found ps'
      else match write_bytes p with
           | Some w => if 0 <? w then true else writer_found ps'
           | None => writer_found ps'
           end
  end.

Definition per_second (diff : Z) (interval : positive) : Q :=
  ((diff # 1) / (Zpos interval # 1))%Q.

(** The two checks of [_monitor_is_idle] that end in
    [_monitor_save_idle_state(False, ...)]. The checks of logged-in users,
    of the total CPU load and of the CPU load of single processes only
    print: their [return] statements are commented out. *)
Definition disk_active (interval : positive) (s : sample) : bool :=
  Qgt_bool (per_second (io_end_write_bytes s - io_start_write_bytes s) interval)
           DISK_WRITE_THRESHOLD
  && writer_found (procs_io s).

Definition net_active (interval : positive) (s : sample) : bool :=
  Qgt_bool (per_second (net_end_bytes_sent s - net_start_bytes_sent s) interval)
           NET_WRITE_THRESHOLD
  || Qgt_bool (per_second (net_end_bytes_recv s - net_start_bytes_recv s) interval)
              NET_READ_THRESHOLD.

Definition _monitor_is_idle (interval : positive) (min_idle_cnt : Z)
    (s : sample) (file : string) : string * bool :=
  if disk_active interval s then _monitor_save_idle_state false min_idle_cnt file
  else if net_active interval s then _monitor_save_idle_state false min_idle_cnt file
  else _monitor_save_idle_state true min_idle_cnt file.

(** The thresholds the specification lists, each as the code reads it. *)
Definition proc_cpu_exceeded (s : sample) : bool :=
  existsb (fun p => negb (Str.mem (name p) DISK_WRITE_EXCLUSIONS)
                    && Qgt_bool (proc_cpu_percent p) PROCESS_CPU_THRESHOLD)
          (procs_cpu s).

Definition any_threshold_exceeded (interval : positive) (s : sample) : bool :=
  users_logged_in s
  || Qgt_bool (cpu_percent s) CPU_THRESHOLD
  || disk_active interval s
  || net_active interval s
  || proc_cpu_exceeded s.

(** What [monitor_ec2] did: the state file, the addresses handed to
    [ec2_terminate_instance], the subjects of the mails sent, and the
    value returned ([None] when the function falls off its end). *)
Record effects : Type := {
  file_after : string;
  terminated : list string;
  mails : list string;
  returned : option bool
}.

(** [monitor_ec2] with the default window and count. [has_failed] is the
    answer of [monitor_has_instance_failed], asked only when the machine
    is not idle; [report_window] tells whether the clock is within
    23:00:00 to 23:59:59. *)
Definition monitor_ec2 (public_ip instance_id : string) (s : sample)
    (has_failed report_window : bool) (file : string) : effects :=
  let '(file', idle) := _monitor_is_idle 60 72 s file in
  if idle || has_failed then
    match public_ip with
    | String _ _ =>
        {| file_after := file';
           terminated := [public_ip];
           mails := ["Terminating idle instance " ++ public_ip ++ " (" ++ instance_id ++ ")"];
           returned := Some true |}
    | EmptyString =>
        {| file_after := file'; terminated := []; mails := []; returned := Some false |}
    end
  else if negb report_window then
    {| file_after := file'; terminated := []; mails := []; returned := Some true |}
  else
    {| file_after := file';
       terminated := [];
       mails := ["AWS-EB AWS cost report (" ++ instance_id ++ ")"];
       returned := None |}.

(** The log a sequence of samples leaves in the state file. *)
Definition log_of (samples : list bool) : string :=
  fold_right (fun b acc => idle_line b ++ acc) EmptyString samples.



End Monitor.

(** ** The status store and one pass of [Builder.build_all_eb] *)

Module Planner.

(** The answer of [_eb_missing_modules]: [{'error': 1}] when the query
    fails, else the missing modules with their easyconfigs, in the order
    of the output, the easyconfig asked for last. *)
Inductive missing : Type :=
  | MissingError
  | Missing (modules : list (string * string)).

Definition missing_keys (m : missing) : list string :=
  match m with
  | MissingError => ["error"]
  | Missing l => map fst l
  end.

(** The values that are easyconfig names (the [1] of [{'error': 1}] is
    none, and is also what [[:-1]] drops there). *)
Definition missing_values (m : missing) : list string :=
  match m with
  | MissingError => []
  | Missing l => map snd l
  end.

(** [not themissing] *)
Definition missing_empty (m : missing) : bool :=
  match m with
  | Missing [] => true
  | _ => false
  end.

(** One value of the status dictionary. *)
Record build_status : Type := {
  status : string;
  reason : string;
  returncode : Z;
  errorcount : Z;
  trydate : string;
  buildtime : Z;
  modules : option missing
}.

Definition statdict_template (trydate : string) : build_status :=
  {| status := "unknown"; reason := "n/a"; returncode := -1; errorcount := 0;
     trydate := trydate; buildtime := 0; modules := None |}.

Definition set_status (v : string) (r : build_status) : build_status :=
  {| status := v; reason := reason r; returncode := returncode r;
     errorcount := errorcount r; trydate := trydate r; buildtime := buildtime r;
     modules := modules r |}.

Definition set_reason (v : string) (r : build_status) : build_status :=
  {| status := status r; reason := v; returncode := returncode r;
     errorcount := errorcount r; trydate := trydate r; buildtime := buildtime r;
     modules := modules r |}.

Definition set_returncode (v : Z) (r : build_status) : build_status :=
  {| status := status r; reason := reason r; returncode := v;
     errorcount := errorcount r; trydate := trydate r; buildtime := buildtime r;
     modules := modules r |}.

Definition incr_errorcount (r : build_status) : build_status :=
  {| status := status r; reason := reason r; returncode := returncode r;
     errorcount := errorcount r + 1; trydate := trydate r; buildtime := buildtime r;
     modules := modules r |}.

Definition set_trydate (v : string) (r : build_status) : build_status :=
  {| status := status r; reason := reason r; returncode := returncode r;
     errorcount := errorcount r; trydate := v; buildtime := buildtime r;
     modules := modules r |}.

Definition set_buildtime (v : Z) (r : build_status) : build_status :=
  {| status := status r; reason := reason r; returncode := returncode r;
     errorcount := errorcount r; trydate := trydate r; buildtime := v;
     modules := modules r |}.

Definition set_modules (v : option missing) (r : build_status) : build_status :=
  {| status := status r; reason := reason r; returncode := returncode r;
     errorcount := errorcount r; trydate := trydate r; buildtime := buildtime r;
     modules := v |}.

(** One call of [eb]: [--robot] or not, [--ignore-test-failure] or not,
    and the easyconfig. *)
Record command : Type := {
  robot : bool;
  ignore_test_failure : bool;
  easyconfig : string
}.

(** What [_read_easyconfig] returns, as far as the loop uses it. *)
Record package : Type := {
  pkg_name : string;
  pkg_version : string;
  tc_name : string;
  tc_version : string;
  moduleclass : string
}.

(** The options and configuration the loop reads. *)
Record config : Type := {
  min_toolchains : gmap string string;
  checkskipped : bool;
  include : string;
  exclude : string
}.

(** What the outside world answers during one pass: the newest
    easyconfig of the folder, the parsed easyconfig, the two
    missing-modules queries, the return code and duration of each [eb]
    call, the clock, whether the log of a failed [eb] call could be copied
    ([_eb_last_log] and [shutil.copy], which raises when there is no log),
    and whether new tarballs were made. Calls to the object store
    succeed. *)
Record world : Type := {
  ebfile : string;
  ebpath : string;
  now : string;
  read_easyconfig : py package;
  themissing : missing;
  themissing2 : missing;
  eb_run : command -> Z;
  eb_time : command -> Z;
  now_after : command -> string;
  copy_last_log : command -> py unit;
  new_tars : bool
}.

(** The variables of the loop. Status records are objects: [statdict]
    maps a file name to the address of its record in [heap], so that two
    keys can hold the same object. [s3] is the content of
    [eb-build-status.json]; [invoked] lists the [eb] calls, latest first. *)
Record state : Type := {
  statdict : gmap string nat;
  heap : list build_status;
  s3 : gmap string build_status;
  ebcnt : Z;
  ebskipped : Z;
  bldcnt : Z;
  errcnt : Z;
  errpkg : list string;
  invoked : list command
}.

Definition with_store (sd : gmap string nat) (h : list build_status)
    (o : gmap string build_status) (st : state) : state :=
  {| statdict := sd; heap := h; s3 := o;
     ebcnt := ebcnt st; ebskipped := ebskipped st; bldcnt := bldcnt st;
     errcnt := errcnt st; errpkg := errpkg st; invoked := invoked st |}.

Definition with_counts (c s b e : Z) (p : list string) (st : state) : state :=
  {| statdict := statdict st; heap := heap st; s3 := s3 st;
     ebcnt := c; ebskipped := s; bldcnt := b; errcnt := e; errpkg := p;
     invoked := invoked st |}.

Definition with_invoked (i : list command) (st : state) : state :=
  {| statdict := statdict st; heap := heap st; s3 := s3 st;
     ebcnt := ebcnt st; ebskipped := ebskipped st; bldcnt := bldcnt st;
     errcnt := errcnt st; errpkg := errpkg st; invoked := i |}.

(** [statdict[key]], the record behind the reference. *)
Definition deref (st : state) (key : string) : option build_status :=
  match statdict st !! key with
  | Some l => heap st !! l
  | None => None
  end.

(** The dictionary as [json.dumps] sees it. *)
Definition view (sd : gmap string nat) (h : list build_status)
    : gmap string build_status :=
  omap (fun l => h !! l) sd.

(** [statdict[key][field] = value] *)
Definition update (key : string) (f : build_status -> build_status)
    (st : state) : state :=
  match statdict st !! key with
  | Some l => with_store (statdict st) (alter f l (heap st)) (s3 st) st
  | None => st
  end.

(** [s3_put_json(..., statdict)] *)
Definition s3_put_json (st : state) : state :=
  with_store (statdict st) (heap st) (view (statdict st) (heap st)) st.

(** [statdict = s3_get_json(...)]: every record is a new object. *)
Definition s3_get_json (st : state) : state :=
  let kvs := map_to_list (s3 st) in
  with_store
    (list_to_map (zip (kvs.*1) (seq (length (heap st)) (length kvs))))
    (heap st ++ kvs.*2) (s3 st) st.

(** [if key not in statdict: statdict[key] = statdict_template], with the
    template object at address [tmpl]. *)
Definition setdefault (key : string) (tmpl : nat) (st : state) : state :=
  match statdict st !! key with
  | Some _ => st
  | None => with_store (<[key := tmpl]> (statdict st)) (heap st) (s3 st) st
  end.

(** Every name of [statdict] holds a record, and the address [tmpl] holds
    the template. *)
Definition holds (tmpl : nat) (st : state) : Prop :=
  is_Some (heap st !! tmpl)
  /\ forall k l, statdict st !! k = Some l -> is_Some (heap st !! l).

(** Where a pass leaves the loop body. *)
Inductive exit : Type :=
  | Ignored
  | Abandoned (e : exn)
  | Skipped
  | AlreadyInstalled
  | DependencyFailed
  | TargetFailed
  | TargetBuilt.

(** The [continue] after a decision to skip: record it and store it. *)
Definition skip (w : world) (why : string) (st : state) : exit * state :=
  (Skipped,
   s3_put_json (update (ebfile w) (set_reason why)
                  (update (ebfile w) (set_status "skipped") st))).

Definition split_list (s : string) : list string :=
  match s with
  | EmptyString => []
  | _ => Str.split "," s
  end.

(** The module class checks: [--include] is looked at first, [--exclude]
    only without it. *)
Definition class_filter (c : config) (cls : string) : option string :=
  let includes := split_list (include c) in
  let excludes := split_list (exclude c) in
  match includes with
  | _ :: _ =>
      if Str.mem cls includes then None
      else Some "module class not included via --include option"
  | [] =>
      match excludes with
      | _ :: _ =>
          if Str.mem cls excludes
          then Some "module class excluded via --exclude option" else None
      | [] => None
      end
  end.

(** [_errors_in_missing] *)
Definition _errors_in_missing (m : missing) (st : state) : list string :=
  List.filter (fun ebf => match deref st ebf with
                          | Some r => String.eqb (status r) "error"
                          | None => false
                          end)
              (missing_values m).

(** One step of the loop over [themissing.keys()] that looks for
    toolchains below their minimum. *)
Definition too_old (c : config) (miss : string) : py bool :=
  try! nv := (if Str.contains "/" miss then
                match Str.split "/" miss with
                | [nam; ver] => Ret (nam, ver)
                | _ => Raise ValueError
                end
              else Ret (miss, "0.0")) in
  match min_toolchains c !! fst nv with
  | Some m => Version.older (snd nv) m
  | None => Ret false
  end.

Fixpoint doskip (c : config) (keys : list string) (acc : bool) : py bool :=
  match keys with
  | [] => Ret acc
  | miss :: rest =>
      try! old := too_old c miss in
      doskip c rest (acc || old)
  end.

Definition dependency_command (ebf : string) : command :=
  {| robot := false; ignore_test_failure := Str.contains "CUDA" ebf;
     easyconfig := ebf |}.

Definition target_command (w : world) : command :=
  {| robot := true; ignore_test_failure := Str.contains "CUDA" (ebfile w);
     easyconfig := ebpath w |}.

(** The body of the loop over the dependencies for one [ebf]; the
    boolean is [depterr]. The copy of the log of a failed build comes
    after the counters and before the record is marked and stored. *)
Definition build_dependency (w : world) (tmpl : nat) (ebf : string) (st : state)
    : py bool * state :=
  let cmd := dependency_command ebf in
  let retcode := eb_run w cmd in
  let st := with_invoked (cmd :: invoked st) st in
  let st := setdefault ebf tmpl st in
  let st := update ebf (set_returncode retcode) st in
  let st := update ebf (set_trydate (now_after w cmd)) st in
  let st := update ebf (set_buildtime (eb_time w cmd)) st in
  if negb (retcode =? 0) then
    let st := with_counts (ebcnt st) (ebskipped st) (bldcnt st) (errcnt st + 1)
                (errpkg st ++ [ebf]) st in
    match copy_last_log w cmd with
    | Raise e => (Raise e, st)
    | Ret _ =>
        let st := update ebf (set_status "error") st in
        let st := update ebf (set_reason "n/a") st in
        let st := update ebf incr_errorcount st in
        (Ret true, s3_put_json st)
    end
  else
    let st := update ebf (set_status "success") st in
    let st := update ebf (set_reason "easyconfig built successfully") st in
    let st := update ebf (set_modules None) st in
    let st := with_counts (ebcnt st) (ebskipped st) (bldcnt st + 1) (errcnt st)
                (errpkg st) st in
    (Ret false, s3_put_json st).

(** [for ebf in list(themissing.values())[:-1]: ... if depterr: break] *)
Fixpoint build_dependencies (w : world) (tmpl : nat) (deps : list string)
    (st : state) : py bool * state :=
  match deps with
  | [] => (Ret false, st)
  | ebf :: rest =>
      let '(depterr, st') := build_dependency w tmpl ebf st in
      match depterr with
      | Raise e => (Raise e, st')
      | Ret true => (Ret true, st')
      | Ret false => build_dependencies w tmpl rest st'
      end
  end.

(** The installation of the easyconfig itself; a log copy that raises
    leaves the pass through [except Exception], before the record is
    marked and stored. *)
Definition build_target (w : world) (st : state) : exit * state :=
  let cmd := target_command w in
  let retcode := eb_run w cmd in
  let st := with_invoked (cmd :: invoked st) st in
  let st := update (ebfile w) (set_returncode retcode) st in
  let st := update (ebfile w) (set_buildtime (eb_time w cmd)) st in
  if negb (retcode =? 0) then
    let st := with_counts (ebcnt st) (ebskipped st) (bldcnt st) (errcnt st + 1)
                (errpkg st ++ [ebfile w]) st in
    match copy_last_log w cmd with
    | Raise e => (Abandoned e, st)
    | Ret _ =>
        let st := update (ebfile w) (set_status "error") st in
        let st := update (ebfile w) (set_reason "n/a") st in
        let st := update (ebfile w) (set_modules (Some (themissing2 w))) st in
        (TargetFailed, s3_get_json (s3_put_json st))
    end
  else
    let st := update (ebfile w) (set_status "success") st in
    let st := update (ebfile w) (set_reason "easyconfig built successfully") st in
    let st := update (ebfile w) (set_modules None) st in
    let st := if new_tars w
              then with_counts (ebcnt st) (ebskipped st) (bldcnt st + 1) (errcnt st)
                     (errpkg st) st
              else st in
    (TargetBuilt, s3_get_json (s3_put_json st)).

(** The pass from the reload of the store on: policy, class filter,
    missing modules, dependencies, target. The sweep of failed instances,
    the installation of OS packages and the download and upload of
    packages are left out: they read and write none of the variables kept
    here, and are taken to return. *)
Definition plan_and_build (c : config) (w : world) (tmpl : nat) (st : state)
    : exit * state :=
  let st := setdefault (ebfile w) tmpl (s3_get_json st) in
  match read_easyconfig w with
  | Raise e => (Abandoned e, st)
  | Ret p =>
      match Version.toolchain_policy (min_toolchains c) (pkg_name p) (pkg_version p)
              (tc_name p) (tc_version p) with
      | Raise e => (Abandoned e, st)
      | Ret (Version.Skip why) => skip w why st
      | Ret Version.Eligible =>
          match class_filter c (moduleclass p) with
          | Some why => skip w why st
          | None =>
              if missing_empty (themissing w) then
                (AlreadyInstalled,
                 s3_put_json
                   (update (ebfile w) (set_reason "easyconfig built successfully")
                      (update (ebfile w) (set_status "success") st)))
              else
                match _errors_in_missing (themissing w) st with
                | _ :: _ => skip w "dependencies have errors" st
                | [] =>
                    match doskip c (missing_keys (themissing w)) false with
                    | Raise e => (Abandoned e, st)
                    | Ret true => skip w "dependency requires too old toolchain" st
                    | Ret false =>
                        let st := with_counts (ebcnt st) (ebskipped st - 1) (bldcnt st)
                                    (errcnt st) (errpkg st) st in
                        let '(depterr, st) :=
                          build_dependencies w tmpl
                            (removelast (missing_values (themissing w))) st in
                        match depterr with
                        | Raise e => (Abandoned e, st)
                        | Ret true => (DependencyFailed, st)
                        | Ret false => build_target w st
                        end
                    end
                end
          end
      end
  end.

(** One pass of the loop body for the folder whose newest easyconfig is
    [ebfile w]. *)
Definition build_one (c : config) (w : world) (st : state) : exit * state :=
  let tmpl := length (heap st) in
  let st := with_store (statdict st) (heap st ++ [statdict_template (now w)]) (s3 st) st in
  let st := with_counts (ebcnt st + 1) (ebskipped st + 1) (bldcnt st) (errcnt st)
              (errpkg st) st in
  match deref st (ebfile w) with
  | Some r =>
      if negb (String.eqb (status r) "skipped") || negb (checkskipped c)
      then (Ignored, st)
      else plan_and_build c w tmpl st
  | None => plan_and_build c w tmpl st
  end.

(** The state at the start of [build_all_eb]: the counters at zero and
    [statdict] read from the store. *)
Definition initial (store : gmap string build_status) : state :=
  s3_get_json
    {| statdict := ∅; heap := []; s3 := store; ebcnt := 0; ebskipped := 0;
       bldcnt := 0; errcnt := 0; errpkg := []; invoked := [] |}.

(** [build_all_eb] up to its final report: one pass for each folder that
    has an easyconfig, in the order of the walk. *)
Definition build_all_eb (c : config) (folders : list world)
    (store : gmap string build_status) : state :=
  fold_left (fun st w => snd (build_one c w st)) folders (initial store).

End Planner.

(** ** What every pass keeps *)

(** The names a pass may write to: its easyconfig and the dependencies
    listed for it. *)
Definition written (w : Planner.world) : list string :=
  Planner.ebfile w :: removelast (Planner.missing_values (Planner.themissing w)).

(** The first statements of a pass: a new template object, and the pass
    counted as tried and, until a build starts, as skipped. *)
Definition counted (w : Planner.world) (st : Planner.state) : Planner.state :=
  Planner.with_counts (Planner.ebcnt st + 1) (Planner.ebskipped st + 1)
    (Planner.bldcnt st) (Planner.errcnt st) (Planner.errpkg st)
    (Planner.with_store (Planner.statdict st)
       (Planner.heap st ++ [Planner.statdict_template (Planner.now w)])
       (Planner.s3 st) st).

(** The pass goes on after the first check: the easyconfig has no record
    in [statdict], or a skipped one while [--check-skipped] is set. *)
Definition attempted (c : Planner.config) (w : Planner.world) (st : Planner.state) : Prop :=
  Planner.statdict st !! Planner.ebfile w = None
  \/ exists r, Planner.deref st (Planner.ebfile w) = Some r
               /\ Planner.status r = "skipped" /\ Planner.checkskipped c = true.

Definition live (k : string) (st : Planner.state) : Prop :=
  is_Some (Planner.deref st k).

Definition kept (k : string) (st : Planner.state) : Prop :=
  is_Some (Planner.deref st k) /\ is_Some (Planner.s3 st !! k).

(** The record of [k] is the one the store had, and no other name of
    [statdict] holds the same object, nor is it the template. *)
Definition apart (tmpl : nat) (k : string) (orig : option Planner.build_status)
    (st : Planner.state) : Prop :=
  (tmpl < length (Planner.heap st))%nat
  /\ Planner.s3 st !! k = orig
  /\ Planner.deref st k = orig
  /\ forall l, Planner.statdict st !! k = Some l ->
       l <> tmpl /\ forall k', Planner.statdict st !! k' = Some l -> k' = k.

(** The dependencies of a pass: all the easyconfigs listed as missing but
    the last, which is the easyconfig of the pass. *)
Definition dependencies (w : Planner.world) : list string :=
  removelast (Planner.missing_values (Planner.themissing w)).

(** The record a pass starts from: the stored one, or the template. *)
Definition record_before (w : Planner.world) (st : Planner.state) : Planner.build_status :=
  default (Planner.statdict_template (Planner.now w)) (Planner.s3 st !! Planner.ebfile w).

(** The state after the reload of the store and the default record. *)
Definition reloaded (w : Planner.world) (st : Planner.state) : Planner.state :=
  Planner.setdefault (Planner.ebfile w) (length (Planner.heap st))
    (Planner.s3_get_json (counted w st)).

(** A record of a successful build. *)
Definition built (r : Planner.build_status) : Prop :=
  Planner.status r = "success"
  /\ Planner.reason r = "easyconfig built successfully"
  /\ Planner.returncode r = 0
  /\ Planner.modules r = None.

(** The name holds the record of a successful build. *)
Definition has_built (k : string) (st : Planner.state) : Prop :=
  exists r, Planner.deref st k = Some r /\ built r.

(** The counters and the list of calls. *)
Definition tally (st : Planner.state)
    : Z * Z * Z * Z * list string * list Planner.command :=
  (Planner.ebcnt st, Planner.ebskipped st, Planner.bldcnt st, Planner.errcnt st,
   Planner.errpkg st, Planner.invoked st).

(** The record of [ebf] after the call of [eb] for it, before the return
    code is looked at. *)
Definition tried (w : Planner.world) (tmpl : nat) (ebf : string) (st : Planner.state)
    : Planner.state :=
  let cmd := Planner.dependency_command ebf in
  Planner.update ebf (Planner.set_buildtime (Planner.eb_time w cmd))
    (Planner.update ebf (Planner.set_trydate (Planner.now_after w cmd))
       (Planner.update ebf (Planner.set_returncode (Planner.eb_run w cmd))
          (Planner.setdefault ebf tmpl
             (Planner.with_invoked (cmd :: Planner.invoked st) st)))).

(** The record of the easyconfig after the call of [eb] for it. *)
Definition tried_target (w : Planner.world) (st : Planner.state) : Planner.state :=
  let cmd := Planner.target_command w in
  Planner.update (Planner.ebfile w) (Planner.set_buildtime (Planner.eb_time w cmd))
    (Planner.update (Planner.ebfile w) (Planner.set_returncode (Planner.eb_run w cmd))
       (Planner.with_invoked (cmd :: Planner.invoked st) st)).

(** The record of the easyconfig after a build that returned zero. *)
Definition succeeded (w : Planner.world) (st : Planner.state) : Planner.state :=
  Planner.update (Planner.ebfile w) (Planner.set_modules None)
    (Planner.update (Planner.ebfile w) (Planner.set_reason "easyconfig built successfully")
       (Planner.update (Planner.ebfile w) (Planner.set_status "success")
          (tried_target w st))).

(** The numbers of the report agree with each other after [n] passes. *)
Definition consistent (n : nat) (st : Planner.state) : Prop :=
  Planner.ebcnt st = Z.of_nat n
  /\ 0 <= Planner.ebskipped st <= Planner.ebcnt st
  /\ Planner.errcnt st = Z.of_nat (length (Planner.errpkg st))
  /\ 0 <= Planner.bldcnt st
  /\ Planner.bldcnt st + Planner.errcnt st <= Z.of_nat (length (Planner.invoked st))
  /\ Planner.errcnt st <= Planner.ebcnt st - Planner.ebskipped st.

(** What the builds of a pass add to the counters: [nb] builds, [nf]
    failures, [nc] calls. *)
Definition adds (nb nf nc : nat) (st st' : Planner.state) : Prop :=
  Planner.ebcnt st' = Planner.ebcnt st
  /\ Planner.ebskipped st' = Planner.ebskipped st
  /\ Planner.bldcnt st' = Planner.bldcnt st + Z.of_nat nb
  /\ Planner.errcnt st' = Planner.errcnt st + Z.of_nat nf
  /\ length (Planner.errpkg st') = (length (Planner.errpkg st) + nf)%nat
  /\ length (Planner.invoked st') = (length (Planner.invoked st) + nc)%nat.

(** ** Sample passes *)

Definition sample_config (checkskipped : bool) (include : string) : Planner.config :=
  {| Planner.min_toolchains := Version.default_min_toolchains;
     Planner.checkskipped := checkskipped;
     Planner.include := include; Planner.exclude := "" |}.

(** A pass for SAMtools, for which ncurses is missing too. *)
Definition sample_world (tc_name tc_version : string) (themissing : Planner.missing)
    (eb_run : Planner.command -> Z) (copy_last_log : Planner.command -> py unit)
    : Planner.world :=
  {| Planner.ebfile := "SAMtools-1.17-GCC-12.2.0.eb";
     Planner.ebpath := "/opt/eb/easyconfigs/s/SAMtools/SAMtools-1.17-GCC-12.2.0.eb";
     Planner.now := "2024-05-02T10:00:00+00:00";
     Planner.read_easyconfig :=
       Ret {| Planner.pkg_name := "SAMtools"; Planner.pkg_version := "1.17";
              Planner.tc_name := tc_name; Planner.tc_version := tc_version;
              Planner.moduleclass := "bio" |};
     Planner.themissing := themissing;
     Planner.themissing2 := themissing;
     Planner.eb_run := eb_run;
     Planner.eb_time := fun _ => 60;
     Planner.now_after := fun _ => "2024-05-02T10:01:00+00:00";
     Planner.copy_last_log := copy_last_log;
     Planner.new_tars := true |}.

Definition sample_missing : Planner.missing :=
  Planner.Missing [("ncurses/6.3-GCCcore-12.2.0", "ncurses-6.3-GCCcore-12.2.0.eb");
                   ("SAMtools/1.17-GCC-12.2.0", "SAMtools-1.17-GCC-12.2.0.eb")].

Definition sample_record (status : string) : Planner.build_status :=
  {| Planner.status := status; Planner.reason := "n/a";
     Planner.returncode := 1; Planner.errorcount := 1;
     Planner.trydate := "2024-05-01T09:00:00+00:00";
     Planner.buildtime := 75; Planner.modules := None |}.

(** The numbers of a version string [N(.N)*]. *)
Definition numbers (version_str : string) : list Z :=
  map Str.int (Str.split "." version_str).

(** A request the launch may make: on-demand with no placement, or, only
    without [--on-demand], a spot request in the zone [az] capped at or
    below the on-demand price. *)
Definition sound_request (price_ondemand : Q) (ondemand : bool) (az : string)
    (rq : Fleet.request) : Prop :=
  match Fleet.MaxPrice rq with
  | Some cap =>
      ondemand = false /\ (cap <= price_ondemand)%Q
      /\ Fleet.AvailabilityZone rq = Some az
  | None => Fleet.AvailabilityZone rq = None
  end.

(** The characters of a line that [strip] leaves a single [1] of. *)
Definition blank_or_one (c : ascii) : bool := Str.is_space c || Ascii.eqb c "1".

(** ** [Builder._eb_missing_modules] *)

Module MissingModules.
Import Regex.

(** [\S] on ASCII *)
Definition non_space (c : ascii) : bool := negb (Str.is_space c).

(** The line boundaries of [str.splitlines] on ASCII: line feed, vertical
    tab, form feed, carriage return and the separators 28 to 30. *)
Definition is_linebreak (c : ascii) : bool :=
  (((10 <=? N_of_ascii c) && (N_of_ascii c <=? 13))
   || ((28 <=? N_of_ascii c) && (N_of_ascii c <=? 30)))%N.

(** [output.splitlines()]: the lines without their boundaries; a carriage
    return followed by a line feed is one boundary, and a boundary at the
    end of the text opens no further line. *)
Fixpoint splitlines (s : string) : list string :=
  match s with
  | EmptyString => []
  | String c s' =>
      if is_linebreak c then
        EmptyString ::
        match s' with
        | String c' s'' =>
            if Ascii.eqb c "013" && Ascii.eqb c' "010" then splitlines s''
            else splitlines s'
        | EmptyString => []
        end
      else
        match splitlines s' with
        | [] => [String c EmptyString]
        | l :: ls => String c l :: ls
        end
  end.

(** [pattern], written with the spacing of [re.VERBOSE]:
    [\* \  ( \S+ ) \  \( ( \S+ \. e b ) \)] *)
Definition pattern : re :=
  Seq (lit "*")
 (Seq (lit " ")
 (Seq (Grp 1 (Plus (Chr non_space)))
 (Seq (lit " ")
 (Seq (lit "(")
 (Seq (Grp 2 (Seq (Plus (Chr non_space)) (Seq (lit ".") (Seq (lit "e") (lit "b")))))
      (lit ")")))))).

(** [pattern.match(line)] and [match.groups()] *)
Definition parse_line (line : string) : option (string * string) :=
  match match_at pattern line with
  | Some (c, _) =>
      match group 1 c, group 2 c with
      | Some module, Some easyconfig => Some (module, easyconfig)
      | _, _ => None
      end
  | None => None
  end.

(** [modules[module] = easyconfig]: a module seen before keeps its place. *)
Fixpoint dict_set (d : list (string * string)) (k v : string) : list (string * string) :=
  match d with
  | [] => [(k, v)]
  | (k', v') :: d' =>
      if String.eqb k' k then (k', v) :: d' else (k', v') :: dict_set d' k v
  end.

(** The loop over the lines. *)
Definition collect (lines : list string) : list (string * string) :=
  fold_left (fun modules line =>
               match parse_line line with
               | Some (module, easyconfig) => dict_set modules module easyconfig
               | None => modules
               end) lines [].

(** [output] is what [eb --missing-modules] printed, or [None] when
    [check_output] raised [CalledProcessError]. *)
Definition _eb_missing_modules (output : option string) : Planner.missing :=
  match output with
  | None => Planner.MissingError
  | Some text => Planner.Missing (collect (splitlines text))
  end.

End MissingModules.

(** What the matcher does for [p*]: the longest run first, then one
    character less at a time. *)
Fixpoint longest_first {R : Type} (p : ascii -> bool) (k : string -> option R)
    (s : string) : option R :=
  match s with
  | String c s' =>
      if p c then
        match longest_first p k s' with
        | Some x => Some x
        | None => k s
        end
      else k s
  | EmptyString => k s
  end.

(** A module name and an easyconfig name as [eb --missing-modules] prints
    them. *)
Definition line_of (module stem : string) : string :=
  "* " ++ module ++ " (" ++ stem ++ ".eb)".

(** The entries of the result are names without blanks, the easyconfig
    name ending in [.eb]. *)
Definition well_formed (entry : string * string) : Prop :=
  (fst entry <> EmptyString /\ Str.forallb MissingModules.non_space (fst entry) = true)
  /\ exists stem, snd entry = stem ++ ".eb" /\ stem <> EmptyString
                  /\ Str.forallb MissingModules.non_space (snd entry) = true.

(** Lines put together, each followed by a line feed. *)
Definition unlines (lines : list string) : string :=
  fold_right (fun line text => line ++ String "010" text) EmptyString lines.

(** What [eb --missing-modules] prints: some lines of its own, then one
    line for each missing module, with the stem of its easyconfig. *)
Definition print_missing (preamble : list string) (entries : list (string * string))
    : string :=
  unlines (preamble ++ map (fun e => line_of (fst e) (snd e)) entries).

(** A line of the preamble: no line boundary in it, and not the start of
    an entry. *)
Definition plain_line (line : string) : Prop :=
  Str.forallb (fun c => negb (MissingModules.is_linebreak c)) line = true
  /\ Str.startswith "* " line = false.

(** A module name and the stem of an easyconfig name: not empty, no blank. *)
Definition plain_names (e : string * string) : Prop :=
  (fst e <> EmptyString /\ Str.forallb MissingModules.non_space (fst e) = true)
  /\ (snd e <> EmptyString /\ Str.forallb MissingModules.non_space (snd e) = true).

(** ** The tables of CPU and GPU types, and the choice of [subcmd_launch] *)

Module Instances.

(** [self.cpu_types], in the order of the source. *)
Definition cpu_types : list (string * list string) :=
  [("graviton-2", ["c6g"; "c6gd"; "c6gn"; "m6g"; "m6gd"; "r6g"; "r6gd"; "t4g"; "g5g"]);
   ("graviton-3", ["c7g"; "c7gd"; "c7gn"; "m7g"; "m7gd"; "r7g"; "r7gd"]);
   ("graviton-4", ["c8g"; "c8gd"; "c8gn"; "m8g"; "m8gd"; "r8g"; "r8gd"]);
   ("epyc-gen-1", ["t3a"]);
   ("epyc-gen-2", ["c5a"; "m5a"; "r5a"; "g4ad"; "p4"; "inf2"; "g5"]);
   ("epyc-gen-3", ["m6a"; "c6a"; "r6a"; "p5"]);
   ("epyc-gen-4", ["c7a"; "m7a"; "r7a"]);
   ("xeon-gen-1", ["c4"; "m4"; "t2"; "r4"; "p3"; "p2"; "f1"; "g3"; "i3en"]);
   ("xeon-gen-2", ["c5"; "c5n"; "m5"; "m5n"; "m5zn"; "r5"; "t3"; "t3n"; "dl1"; "inf1";
                   "g4dn"; "vt1"]);
   ("xeon-gen-3", ["c6i"; "c6in"; "m6i"; "m6in"; "r6i"; "r6id"; "r6idn"; "r6in"; "trn1"]);
   ("xeon-gen-4", ["c7i"; "m7i"; "m7i-flex"; "r7i"; "r7iz"]);
   ("core-i7-mac", ["mac1"])].

(** [self.gpu_types] *)
Definition gpu_types : list (string * string) :=
  [("h100", "p5"); ("a100", "p4"); ("v100", "p3"); ("k80", "p2"); ("gaudi", "dl1");
   ("trainium", "trn1"); ("inferentia2", "inf2"); ("inferentia1", "inf1");
   ("t4g", "g5g"); ("a10g", "g5"); ("t4", "g4dn"); ("v520", "g4ad"); ("m60", "g3");
   ("fpga", "f1"); ("u30", "vt1")].

(** [d.get(k, default)] *)
Fixpoint get {A : Type} (d : list (string * A)) (k : string) (default : A) : A :=
  match d with
  | [] => default
  | (k', v) :: d' => if String.eqb k' k then v else get d' k default
  end.

Definition get_ec2_instance_families_from_cputype (cpu_type : string) : list string :=
  get cpu_types cpu_type [].

Definition get_ec2_instance_families_from_gputype (gpu_type : string) : string :=
  get gpu_types gpu_type "".

(** The loop over [self.cpu_types.items()]. *)
Fixpoint cputype_of (items : list (string * list string)) (ifamily : string) : string :=
  match items with
  | [] => ""
  | (cputype, families) :: rest =>
      if Str.mem ifamily families then cputype else cputype_of rest ifamily
  end.

Definition get_ec2_cputype_from_instance_family (ifamily : string) : string :=
  cputype_of cpu_types ifamily.

(** The choice of [subcmd_launch] (GPU types trump CPU types): the value
    of [args.cputype] the launch goes on with and the family [fam], or
    [None] where the function returns [False]. An option not given is the
    empty string. *)
Definition launch_types (cputype gputype : string) : option (string * string) :=
  match
    (match cputype with
     | EmptyString => Some EmptyString
     | _ => match get_ec2_instance_families_from_cputype cputype with
            | [] => None
            | fam :: _ => Some fam
            end
     end)
  with
  | None => None
  | Some fam =>
      match
        (match gputype with
         | EmptyString => Some (cputype, fam)
         | _ => match get_ec2_instance_families_from_gputype gputype with
                | EmptyString => None
                | fam' => Some (get_ec2_cputype_from_instance_family fam', fam')
                end
         end)
      with
      | None => None
      | Some (EmptyString, _) => None
      | Some (cputype', fam') => Some (cputype', fam')
      end
  end.

End Instances.

(** ** [ConfigManager.install_os_packages] *)

Module OsPackages.

(** The package manager for the detected OS type; [None] where the
    function prints that the operating system is unsupported. *)
Definition package_manager (os_type : option string) : option string :=
  match os_type with
  | Some t =>
      if Str.mem t ["debian"; "ubuntu"] then Some "apt"
      else if Str.mem t ["fedora"; "centos"; "redhat"; "rhel"] then Some "dnf"
      else None
  | None => None
  end.

(** The package has the OS-specific suffix of this OS type. *)
Definition has_os_suffix (os_type package_name : string) : bool :=
  (Str.endswith "-dev" package_name && Str.mem os_type ["debian"; "ubuntu"])
  || (Str.endswith "-devel" package_name && Str.mem os_type ["fedora"; "centos"; "redhat"]).

(** One call [sudo <manager> install -y <package>] and whether it
    returned zero. *)
Record attempt : Type := {
  manager : string;
  package : string;
  succeeded : bool
}.

Section Install.
(** The outcome of the [i]-th call of [subprocess.run]. *)
Variable run : nat -> string -> string -> bool.
Variables (os_type package_manager : string) (package_skip_set : list string).

(** The first loop over a tuple: the packages with the suffix of the OS,
    until one installs. Returns the calls and [installed]. *)
Fixpoint suffixed (n : nat) (package_tuple : list string) : list attempt * bool :=
  match package_tuple with
  | [] => ([], false)
  | package_name :: rest =>
      if Str.mem package_name package_skip_set then suffixed n rest
      else if has_os_suffix os_type package_name then
        if run n package_manager package_name then
          ([{| manager := package_manager; package := package_name; succeeded := true |}],
           true)
        else
          let '(calls, installed) := suffixed (S n) rest in
          ({| manager := package_manager; package := package_name; succeeded := false |}
           :: calls, installed)
      else suffixed n rest
  end.

(** The second loop: every package of the tuple, until one installs. *)
Fixpoint any_of (n : nat) (package_tuple : list string) : list attempt :=
  match package_tuple with
  | [] => []
  | package_name :: rest =>
      if Str.mem package_name package_skip_set then any_of n rest
      else if run n package_manager package_name then
        [{| manager := package_manager; package := package_name; succeeded := true |}]
      else
        {| manager := package_manager; package := package_name; succeeded := false |}
        :: any_of (S n) rest
  end.

Definition install_tuple (n : nat) (package_tuple : list string) : list attempt :=
  let '(calls, installed) := suffixed n package_tuple in
  if installed then calls
  else (calls ++ any_of (n + length calls) package_tuple)%list.

(** The loop over [pkg_list], a string counting as the tuple of itself. *)
Fixpoint install_all (n : nat) (pkg_list : list (list string)) : list attempt :=
  match pkg_list with
  | [] => []
  | package_tuple :: rest =>
      let calls := install_tuple n package_tuple in
      (calls ++ install_all (n + length calls) rest)%list
  end.

End Install.

(** The install commands the function runs, in order. *)
Definition install_os_packages (run : nat -> string -> string -> bool)
    (os_type : option string) (pkg_list : list (list string))
    (package_skip_set : list string) : list attempt :=
  match os_type, package_manager os_type with
  | Some t, Some pm => install_all run t pm package_skip_set 0 pkg_list
  | _, _ => []
  end.

(** The number of packages installed. *)
Definition installed (calls : list attempt) : nat :=
  length (List.filter succeeded calls).

(** A call the function may make for one entry: with the one package
    manager, for an alternative of the entry that is not to be skipped. *)
Definition allowed_for (pm : string) (package_skip_set package_tuple : list string)
    (a : attempt) : Prop :=
  manager a = pm
  /\ ~ In (package a) package_skip_set
  /\ In (package a) package_tuple.

(** A call the function may make for [pkg_list]. *)
Definition allowed (pm : string) (pkg_list : list (list string))
    (package_skip_set : list string) (a : attempt) : Prop :=
  manager a = pm
  /\ ~ In (package a) package_skip_set
  /\ exists package_tuple, In package_tuple pkg_list /\ In (package a) package_tuple.

End OsPackages.

(** ** [Builder._read_easyconfig] *)

Module Easyconfig.

(** The dictionary of a parsed easyconfig, as far as the function reads
    it. A key that is absent is [None]. *)
Record ec_dict : Type := {
  ec_toolchain : option (gmap string string);
  ec_name : option string;
  ec_version : option string;
  ec_versionsuffix : option string;
  ec_osdependencies : option (list (list string));
  ec_moduleclass : option string
}.

(** [ec_dict = {}], what is left when the parser raises [EasyBuildError]. *)
Definition empty : ec_dict :=
  {| ec_toolchain := None; ec_name := None; ec_version := None;
     ec_versionsuffix := None; ec_osdependencies := None; ec_moduleclass := None |}.

(** [d[k]] *)
Definition item (d : gmap string string) (k : string) : py string :=
  match d !! k with
  | Some v => Ret v
  | None => Raise KeyError
  end.

(** What the function returns. Without the key, [osdependencies] is the
    empty string of the source, here the empty sequence. *)
Record result : Type := {
  name : string;
  version : string;
  toolchain : gmap string string;
  osdependencies : list (list string);
  moduleclass : string;
  install_dir : string
}.

(** [parsed] is the dictionary of the parser, or [None] when it raised
    [EasyBuildError]. *)
Definition _read_easyconfig (parsed : option ec_dict) : py result :=
  let ec_dict := default empty parsed in
  let toolchain := default ∅ (ec_toolchain ec_dict) in
  let name := default "" (ec_name ec_dict) in
  let version := default "" (ec_version ec_dict) in
  let versionsuffix := default "" (ec_versionsuffix ec_dict) in
  try! tc_name := item toolchain "name" in
  try! toolchain_str :=
    (if negb (String.eqb tc_name "system") then
       try! n := item toolchain "name" in
       try! v := item toolchain "version" in
       Ret ("-" ++ n ++ "-" ++ v)
     else Ret "") in
  let version_suffix_str :=
    match versionsuffix with
    | EmptyString => version
    | _ => version ++ versionsuffix
    end in
  Ret {| name := name; version := version; toolchain := toolchain;
         osdependencies := default [] (ec_osdependencies ec_dict);
         moduleclass := default "" (ec_moduleclass ec_dict);
         install_dir := name ++ "/" ++ version_suffix_str ++ toolchain_str |}.

(** The pass reads its easyconfig with [_read_easyconfig]: what the pass
    gets is what the function gives for [parsed], the toolchain with its
    name and version. *)
Definition read_by (w : Planner.world) (parsed : option ec_dict) : Prop :=
  match _read_easyconfig parsed with
  | Raise e => Planner.read_easyconfig w = Raise e
  | Ret r =>
      exists tc_name tc_version,
        toolchain r !! "name" = Some tc_name
        /\ toolchain r !! "version" = Some tc_version
        /\ Planner.read_easyconfig w
           = Ret {| Planner.pkg_name := name r; Planner.pkg_version := version r;
                    Planner.tc_name := tc_name; Planner.tc_version := tc_version;
                    Planner.moduleclass := moduleclass r |}
  end.

End Easyconfig.

(** ** [ConfigManager._walker] *)

Module Walker.

(** A directory: its name, its subdirectories and its files. All
    directories can be read and none is a symbolic link. *)
#[local] Unset Elimination Schemes.
Inductive tree : Type :=
  | Dir (name : string) (subdirs : list tree) (files : list string).
#[local] Set Elimination Schemes.

Definition dirname (t : tree) : string :=
  match t with Dir name _ _ => name end.

(** [dirs.remove(x)]: the first [x] goes. *)
Fixpoint remove (x : string) (dirs : list string) : list string :=
  match dirs with
  | [] => []
  | y :: dirs' => if String.eqb y x then dirs' else y :: remove x dirs'
  end.

(** The loop over [skipdirs]. *)
Definition prune (skipdirs dirs : list string) : list string :=
  fold_left (fun dirs skipdir => if Str.mem skipdir dirs then remove skipdir dirs else dirs)
            skipdirs dirs.

(** What the generator yields, in order: [os.walk] top down, going into
    the directories that are left in [dirs]. A path is [top] and the names
    below it, which [os.path.join] puts together. *)
Fixpoint _walker (skipdirs top : list string) (t : tree)
    : list (list string * list string * list string) :=
  match t with
  | Dir _ subdirs files =>
      let dirs := prune skipdirs (map dirname subdirs) in
      (top, dirs, files) ::
      (fix visit (l : list tree) : list (list string * list string * list string) :=
         match l with
         | [] => []
         | sub :: l' =>
             ((if Str.mem (dirname sub) dirs
               then _walker skipdirs (top ++ [dirname sub]) sub else [])
              ++ visit l')%list
         end) subdirs
  end.

(** The walk that leaves out every directory named in [skipdirs], at any
    depth. *)
Fixpoint walk_without (skipdirs top : list string) (t : tree)
    : list (list string * list string * list string) :=
  match t with
  | Dir _ subdirs files =>
      (top, List.filter (fun d => negb (Str.mem d skipdirs)) (map dirname subdirs), files) ::
      (fix visit (l : list tree) : list (list string * list string * list string) :=
         match l with
         | [] => []
         | sub :: l' =>
             ((if negb (Str.mem (dirname sub) skipdirs)
               then walk_without skipdirs (top ++ [dirname sub]) sub else [])
              ++ visit l')%list
         end) subdirs
  end.

(** The names in a directory are distinct, as in a file system. *)
Fixpoint distinct_names (t : tree) : Prop :=
  match t with
  | Dir _ subdirs _ =>
      List.NoDup (map dirname subdirs)
      /\ (fix all (l : list tree) : Prop :=
            match l with
            | [] => True
            | sub :: l' => distinct_names sub /\ all l'
            end) subdirs
  end.

(** Induction on directories. *)
Fixpoint tree_induction (P : tree -> Prop)
    (step : forall name subdirs files,
        List.Forall P subdirs -> P (Dir name subdirs files))
    (t : tree) : P t :=
  match t with
  | Dir name subdirs files =>
      step name subdirs files
        ((fix go (l : list tree) : List.Forall P l :=
            match l with
            | [] => @List.Forall_nil _ P
            | sub :: l' => @List.Forall_cons _ P sub l' (tree_induction P step sub) (go l')
            end) subdirs)
  end.

End Walker.

(** ** [ConfigManager.parse_version_string] *)

Module VersionString.

(** [char.isdigit() or char == '.'], on ASCII. *)
Definition is_numeric (c : ascii) : bool := Str.is_digit c || Ascii.eqb c ".".

(** [s.replace(old, new)] for a non-empty [old]: the occurrences from the
    left that do not overlap; [skip] characters of an occurrence are still
    to be passed over. *)
Fixpoint replace_from (old new : string) (skip : nat) (s : string) : string :=
  match s with
  | EmptyString => EmptyString
  | String c s' =>
      match skip with
      | S k => replace_from old new k s'
      | O =>
          if Str.startswith old s
          then new ++ replace_from old new (String.length old - 1) s'
          else String c (replace_from old new 0 s')
      end
  end.

Definition replace (old new s : string) : string := replace_from old new 0 s.

Fixpoint rfind_from (c : ascii) (s : string) (j stop best : Z) : Z :=
  match s with
  | EmptyString => best
  | String x s' =>
      rfind_from c s' (j + 1) stop (if (j <? stop) && Ascii.eqb x c then j else best)
  end.

(** [s.rfind(c, 0, stop)]: the last index below [stop] that holds [c],
    or [-1]. *)
Definition rfind (c : ascii) (s : string) (stop : Z) : Z := rfind_from c s 0 stop (-1).

(** [s[start:stop]] for indices that are not negative. *)
Definition slice (s : string) (start stop : Z) : string :=
  String.substring (Z.to_nat start) (Z.to_nat (stop - start)) s.

(** The variables of the loop. *)
Record scan : Type := {
  numeric_found : bool;
  last_numeric_index : Z;
  last_slash_before_numeric : Z
}.

(** [for i, char in enumerate(thestring)], from index [i] on, where
    [rest] is left of the string. *)
Fixpoint loop (thestring : string) (i : Z) (rest : string) (st : scan) : scan :=
  match rest with
  | EmptyString => st
  | String char rest' =>
      if is_numeric char then
        loop thestring (i + 1) rest'
          {| numeric_found := true;
             last_numeric_index := i;
             last_slash_before_numeric :=
               if negb (numeric_found st) then rfind "/" thestring i
               else last_slash_before_numeric st |}
      else if numeric_found st then st
      else loop thestring (i + 1) rest' st
  end.

Definition parse_version_string (thestring : string) : string :=
  let thestring := replace "-9-EC2-Base-" "-" thestring in
  let st := loop thestring 0 thestring
              {| numeric_found := false; last_numeric_index := -1;
                 last_slash_before_numeric := -1 |} in
  let start_index :=
    if negb (last_slash_before_numeric st =? -1) then last_slash_before_numeric st + 1
    else 0 in
  if numeric_found st then slice thestring start_index (last_numeric_index st + 1)
  else "".

(** No character of [s] is a digit or a dot. *)
Definition plain (s : string) : bool := Str.forallb (fun c => negb (is_numeric c)) s.

(** No character of [s] is a slash. *)
Definition no_slash (s : string) : bool := Str.forallb (fun c => negb (Ascii.eqb c "/")) s.

(** [s] is empty or starts with a character that is no digit and no dot. *)
Definition stops (s : string) : bool :=
  match s with
  | EmptyString => true
  | String c _ => negb (is_numeric c)
  end.

End VersionString.

(** ** Spot prices: [_ec2_current_spot_price],
       [_ec2_describe_instance_families] and
       [_ec2_get_cheapest_spot_instance] *)

Module Spot.

(** An availability zone: its name and the price of the first entry of
    its spot price history, where the history is not empty. *)
Definition zone : Type := (string * option Q)%type.

(** [price < lowest_price], where [None] is [float('inf')]. *)
Definition below (price : Q) (lowest_price : option Q) : bool :=
  match lowest_price with
  | None => true
  | Some lowest => Fleet.Qlt_bool price lowest
  end.

(** The body of the loop over the zones of a region. *)
Definition zone_step (lowest : option Q * option string) (az : zone)
    : option Q * option string :=
  match snd az with
  | Some price => if below price (fst lowest) then (Some price, Some (fst az)) else lowest
  | None => lowest
  end.

(** [regions] holds the zones of each region, in the order of the
    answers. Returns [lowest_price] and [lowest_az]. *)
Definition _ec2_current_spot_price (regions : list (list zone)) : option Q * option string :=
  fold_left (fun lowest region => fold_left zone_step region lowest) regions (None, None).

(** An entry of [describe_instance_types]. *)
Record instance_type_info : Type := {
  InstanceType : string;
  DefaultVCpus : Z;
  SizeInMiB : Z
}.

(** An entry of [SpotPriceHistory]; the price is a string. *)
Record spot_price : Type := {
  spot_InstanceType : string;
  spot_AvailabilityZone : string;
  SpotPrice : string
}.

(** [s.startswith(prefixes)] for a tuple of prefixes. *)
Definition startswith_any (prefixes : list string) (s : string) : bool :=
  existsb (fun p => Str.startswith p s) prefixes.

(** [pages] holds the instance types of all pages, or [None] when the
    paginator raises. *)
Definition _ec2_describe_instance_families (pages : option (list instance_type_info))
    (cpu_type : string) (vcpus memory_gb : Z) : list instance_type_info :=
  let instance_families := Instances.get Instances.cpu_types cpu_type [] in
  match pages with
  | Some types =>
      List.filter
        (fun instance_type =>
           startswith_any instance_families (InstanceType instance_type)
           && (vcpus <=? DefaultVCpus instance_type)
           && (memory_gb * 1024 <=? SizeInMiB instance_type))
        types
  | None => []
  end.

(** [min(l, key=operator.itemgetter('SpotPrice'))] from the second entry
    on: an entry replaces the current one when its price is below as a
    string. *)
Fixpoint min_from (cur : spot_price) (l : list spot_price) : spot_price :=
  match l with
  | [] => cur
  | x :: l' => min_from (if String.ltb (SpotPrice x) (SpotPrice cur) then x else cur) l'
  end.

Definition min_by_price (l : list spot_price) : py spot_price :=
  match l with
  | [] => Raise ValueError
  | x :: l' => Ret (min_from x l')
  end.

Section Cheapest.
(** Python's [float] on strings. *)
Variable float : string -> py Q.
(** The answers of [describe_instance_types] and of
    [describe_spot_price_history] for the instance types asked for;
    [None] when the call raises. *)
Variable pages : option (list instance_type_info).
Variable describe_spot_price_history : list string -> option (list spot_price).

(** The three values returned; the first is an instance type, a message
    or [None]. *)
Definition _ec2_get_cheapest_spot_instance (cpu_type : string) (vcpus memory_gb : Z)
    : option string * option string * option Q :=
  if negb (Str.mem cpu_type (map fst Instances.cpu_types)) then
    (Some "Invalid CPU type.", None, None)
  else
    let filtered_instances := _ec2_describe_instance_families pages cpu_type vcpus memory_gb in
    match filtered_instances with
    | [] => (Some "No instances match the criteria.", None, None)
    | _ =>
        let instance_ids := map InstanceType filtered_instances in
        match describe_spot_price_history instance_ids with
        | None => (None, None, None)
        | Some history =>
            match
              (try! cheapest_instance := min_by_price history in
               try! price := float (SpotPrice cheapest_instance) in
               Ret (cheapest_instance, price))
            with
            | Ret (cheapest_instance, price) =>
                (Some (spot_InstanceType cheapest_instance),
                 Some (spot_AvailabilityZone cheapest_instance), Some price)
            | Raise _ => (None, None, None)
            end
        end
    end.
End Cheapest.

(** A price with [n] digits before the point and digits after it. *)
Definition decimal (n : nat) (s : string) : bool :=
  match Str.split "." s with
  | [i; f] => Str.isdigit i && Nat.eqb (String.length i) n && Str.isdigit f
  | _ => false
  end.

(** [10 ** len(s)] *)
Definition scale (s : string) : Z := 10 ^ Z.of_nat (String.length s).

(** The zones of all regions have no price. *)
Definition no_price (zones : list zone) : Prop :=
  List.Forall (fun az => snd az = None) zones.

(** [name] is the first zone of [zones] with the lowest price, [p]. *)
Definition first_lowest (zones : list zone) (p : Q) (name : string) : Prop :=
  exists before after,
    zones = (before ++ (name, Some p) :: after)%list
    /\ List.Forall (fun az => forall q, snd az = Some q -> (p < q)%Q) before
    /\ List.Forall (fun az => forall q, snd az = Some q -> (p <= q)%Q) after.

(** What [_ec2_current_spot_price] is to return for [zones]. *)
Definition lowest_of (zones : list zone) (r : option Q * option string) : Prop :=
  match r with
  | (Some p, Some name) => first_lowest zones p name
  | (None, None) => no_price zones
  | _ => False
  end.

End Spot.

(** * Properties *)

(** ** Version comparison and the toolchain policy *)

Example sversion_numeric :
  Version.sversion "8.2.45" = [Version.PInt 8; Version.PInt 2; Version.PInt 45].
Proof. reflexivity. Qed.

Example sversion_suffix : Version.sversion "2022a" = [Version.PStr "2022a"].
Proof. reflexivity. Qed.

Lemma part_eq_refl (x : Version.part) : Version.part_eq x x = true.
Proof.
  destruct x as [n|s]; simpl.
  - apply Z.eqb_refl.
  - apply String.eqb_refl.
Qed.

(** On versions made of numbers only the comparison never raises and is
    the field-by-field order on integers. *)
Lemma tuple_lt_ints (a b : list Z) :
  Version.tuple_lt (map Version.PInt a) (map Version.PInt b)
  = Ret (Version.ints_lt a b).
Proof.
  revert b. induction a as [|x a IH]; intros [|y b]; simpl; try reflexivity.
  destruct (x =? y); [apply IH | reflexivity].
Qed.

(** A number against a string at the first position where two versions
    differ raises [TypeError], whichever side the string is on. *)
Lemma tuple_lt_mixed (pre : list Version.part) (n : Z) (s : string)
    (a b : list Version.part) :
  Version.tuple_lt (pre ++ Version.PInt n :: a) (pre ++ Version.PStr s :: b)
  = Raise TypeError
  /\ Version.tuple_lt (pre ++ Version.PStr s :: a) (pre ++ Version.PInt n :: b)
     = Raise TypeError.
Proof.
  induction pre as [|x pre IH]; simpl.
  - split; reflexivity.
  - rewrite part_eq_refl. exact IH.
Qed.

(** C2. The comparison of [sversion] results is not total: where a numeric
    component meets a non-numeric one at the first differing position the
    comparison raises [TypeError] instead of ranking the non-numeric one
    lower, as for toolchain version 2022.05 against the default minimum
    2022a of foss, or 2022a against 11.0. *)
Theorem sversion_comparison_raises_on_mixed :
  Version.older "2022.05" "2022a" = Raise TypeError
  /\ Version.older "2022a" "11.0" = Raise TypeError
  /\ Version.older "11.0" "2022a" = Raise TypeError
  /\ forall pre n s a b,
       Version.tuple_lt (pre ++ Version.PInt n :: a) (pre ++ Version.PStr s :: b)
       = Raise TypeError.
Proof.
  repeat split; try reflexivity.
  intros pre n s a b. apply (tuple_lt_mixed pre n s a b).
Qed.

(** The three rules of the policy, in order, whenever the comparisons they
    need return. *)
Lemma toolchain_policy_rules (mt : gmap string string)
    (name version tc_name tc_version : string) :
  let own_old := match mt !! name with
                 | Some m => Version.older version m
                 | None => Ret false
                 end in
  (own_old = Ret true ->
   Version.toolchain_policy mt name version tc_name tc_version
   = Ret (Version.Skip ("toolchain version too old: " ++ version)))
  /\ (own_old = Ret false -> mt !! tc_name = None ->
      Version.toolchain_policy mt name version tc_name tc_version
      = Ret (Version.Skip ("toolchain not supported: " ++ tc_name)))
  /\ (forall m, own_old = Ret false -> mt !! tc_name = Some m ->
      Version.older tc_version m = Ret true ->
      Version.toolchain_policy mt name version tc_name tc_version
      = Ret (Version.Skip ("toolchain version too old: " ++ tc_name ++ "-" ++ tc_version)))
  /\ (forall m, own_old = Ret false -> mt !! tc_name = Some m ->
      Version.older tc_version m = Ret false ->
      Version.toolchain_policy mt name version tc_name tc_version = Ret Version.Eligible).
Proof.
  unfold Version.toolchain_policy. cbv zeta.
  repeat split.
  - intros ->. reflexivity.
  - intros -> ->. reflexivity.
  - intros m -> -> ->. reflexivity.
  - intros m -> -> ->. reflexivity.
Qed.

Example policy_gcc_10_3 :
  Version.toolchain_policy {[ "GCC" := "11.0" ]} "zlib" "1.2.11" "GCC" "10.3"
  = Ret (Version.Skip "toolchain version too old: GCC-10.3").
Proof. vm_compute. reflexivity. Qed.

(** C3. The policy has a fourth outcome: for a package built with
    foss-2022.05 under the default table (foss: 2022a) the third rule
    compares 2022 with the string 2022a and raises [TypeError]; the package
    is neither skipped with a reason nor eligible. The same happens in the
    first rule for the easyconfig of the toolchain foss-2022.05 itself. *)
Theorem toolchain_policy_raises_on_mixed :
  Version.toolchain_policy Version.default_min_toolchains
    "zlib" "1.2.12" "foss" "2022.05" = Raise TypeError
  /\ Version.toolchain_policy Version.default_min_toolchains
       "foss" "2022.05" "system" "system" = Raise TypeError.
Proof. split; vm_compute; reflexivity. Qed.

(** ** The idle monitor *)

Lemma per_second_above (d t : Z) (i : positive) :
  Monitor.Qgt_bool (Monitor.per_second d i) (t # 1) = (t * Z.pos i <? d).
Proof.
  unfold Monitor.Qgt_bool, Monitor.per_second, Qle_bool, Qdiv, Qmult, Qinv.
  simpl. rewrite Z.ltb_antisym. f_equal.
  apply Bool.eq_true_iff_eq. rewrite !Z.leb_le. lia.
Qed.

(** With the default window of 60 seconds the disk check needs more than
    6,000,000 bytes written, the network checks more than 60,000 bytes. *)
Lemma disk_active_default (s : Monitor.sample) :
  Monitor.disk_active 60 s
  = (6000000 <? Monitor.io_end_write_bytes s - Monitor.io_start_write_bytes s)
    && Monitor.writer_found (Monitor.procs_io s).
Proof.
  unfold Monitor.disk_active, Monitor.DISK_WRITE_THRESHOLD.
  rewrite per_second_above. reflexivity.
Qed.

Lemma net_active_default (s : Monitor.sample) :
  Monitor.net_active 60 s
  = (60000 <? Monitor.net_end_bytes_sent s - Monitor.net_start_bytes_sent s)
    || (60000 <? Monitor.net_end_bytes_recv s - Monitor.net_start_bytes_recv s).
Proof.
  unfold Monitor.net_active, Monitor.NET_WRITE_THRESHOLD, Monitor.NET_READ_THRESHOLD.
  rewrite !per_second_above. reflexivity.
Qed.

(** C8, as the code has it. The sample appended to the state file is
    active (0) exactly when the disk check or the network check fires: the
    write rate is above its threshold and a process outside the exclusion
    list reports written bytes, or the send or receive rate is above its
    threshold. Otherwise it is idle (1), whatever the logged-in users, the
    total CPU load and the CPU load of single processes are. *)
Theorem monitor_sample_recorded (interval : positive) (min_idle_cnt : Z)
    (s : Monitor.sample) (file : string) :
  fst (Monitor._monitor_is_idle interval min_idle_cnt s file)
  = file ++ Monitor.idle_line
              (negb (Monitor.disk_active interval s || Monitor.net_active interval s)).
Proof.
  unfold Monitor._monitor_is_idle, Monitor._monitor_save_idle_state, Monitor.save_count.
  destruct (Monitor.disk_active interval s); [reflexivity|].
  destruct (Monitor.net_active interval s); reflexivity.
Qed.

(** C8, as stated, fails: with a user logged in, a total CPU load of 95%
    and a process at 90%, but no disk or network traffic, thresholds are
    exceeded and the sample recorded is idle (1). *)
Lemma logged_in_user_recorded_idle :
  let s := {| Monitor.users_logged_in := true;
              Monitor.cpu_percent := 95 # 1;
              Monitor.io_start_write_bytes := 0; Monitor.io_end_write_bytes := 0;
              Monitor.net_start_bytes_sent := 0; Monitor.net_end_bytes_sent := 0;
              Monitor.net_start_bytes_recv := 0; Monitor.net_end_bytes_recv := 0;
              Monitor.procs_io := [];
              Monitor.procs_cpu := [{| Monitor.name := "python3";
                                       Monitor.write_bytes := Some 0;
                                       Monitor.proc_cpu_percent := 90 # 1 |}] |} in
  Monitor.users_logged_in s = true
  /\ Monitor.Qgt_bool (Monitor.cpu_percent s) Monitor.CPU_THRESHOLD = true
  /\ Monitor.proc_cpu_exceeded s = true
  /\ Monitor.any_threshold_exceeded 60 s = true
  /\ fst (Monitor._monitor_is_idle 60 72 s "") = Monitor.idle_line true.
Proof. vm_compute. repeat split. Qed.

Lemma append_cons (c : ascii) (a b : string) : String c a ++ b = String c (a ++ b).
Proof. reflexivity. Qed.

Lemma append_assoc (a b c : string) : (a ++ b) ++ c = a ++ (b ++ c).
Proof.
  induction a as [|x a IH]; [reflexivity|].
  rewrite !append_cons. now rewrite IH.
Qed.












Example idle_72_then_active :
  snd (Monitor.save_count false (Monitor.log_of (repeat true 72))) = 0.
Proof. vm_compute. reflexivity. Qed.

Example idle_72_terminates_once :
  let s := {| Monitor.users_logged_in := false;
              Monitor.cpu_percent := 0 # 1;
              Monitor.io_start_write_bytes := 0; Monitor.io_end_write_bytes := 0;
              Monitor.net_start_bytes_sent := 0; Monitor.net_end_bytes_sent := 0;
              Monitor.net_start_bytes_recv := 0; Monitor.net_end_bytes_recv := 0;
              Monitor.procs_io := []; Monitor.procs_cpu := [] |} in
  Monitor.terminated
    (Monitor.monitor_ec2 "34.1.2.3" "i-0abc" s false false (Monitor.log_of (repeat true 71)))
  = ["34.1.2.3"].
Proof. vm_compute. reflexivity. Qed.

(** ** The retry of a rejected spot request *)

Example extract_last_float_062 :
  Fleet._extract_last_float "... 0.62 is too low ..." = Some (62 # 100).
Proof. vm_compute. reflexivity. Qed.

Example extract_last_float_takes_last :
  Fleet._extract_last_float
    "Your Spot request price of 0.59 is lower than the minimum required Spot request fulfillment price of 0.62."
  = Some (62 # 100).
Proof. vm_compute. reflexivity. Qed.

Example extract_last_float_none : Fleet._extract_last_float "price too low" = None.
Proof. vm_compute. reflexivity. Qed.

Lemma launch_loop_sent (create_instances : nat -> Fleet.request -> Fleet.response)
    (price_ondemand : Q) (ondemand : bool) (az : string) (n i : nat) (price_spot : Q)
    (sent : list Fleet.request) :
  (length sent
   <= length (fst (Fleet.launch_loop create_instances price_ondemand ondemand az
                     n i price_spot sent))
   <= length sent + n)%nat.
Proof.
  revert i price_spot sent.
  induction n as [|n IH]; intros i price_spot sent; simpl; [lia|].
  destruct (create_instances i _) as [inst|code msg|]; simpl; try lia.
  repeat match goal with
         | |- context [if ?x then _ else _] => destruct x
         end; simpl; try lia.
  destruct (Fleet._extract_last_float msg) as [p|]; simpl; [|lia].
  specialize (IH (S i) p (Fleet.market price_ondemand price_spot ondemand az :: sent)).
  simpl in IH. lia.
Qed.

(** The loop makes at most two requests. *)
Lemma launch_at_most_two_requests (create_instances : nat -> Fleet.request -> Fleet.response)
    (price_ondemand : Q) (ondemand : bool) (az : string) (price_spot : Q) :
  (length (fst (Fleet._ec2_launch_instance create_instances price_ondemand
                  ondemand az price_spot)) <= 2)%nat.
Proof.
  unfold Fleet._ec2_launch_instance.
  pose proof (launch_loop_sent create_instances price_ondemand ondemand az
                2 0 price_spot []) as Hlen.
  destruct (Fleet.launch_loop create_instances price_ondemand ondemand az
              2 0 price_spot []) as [sent r].
  simpl in *. rewrite length_rev. lia.
Qed.

(** C7, as the code has it. When the first request is rejected with
    [SpotMaxPriceTooLow], the last decimal number of the message becomes the
    spot price and the launch decision is taken again with it: the second
    request is a spot request capped at 105% of that price, or an on-demand
    request when the on-demand price is below that cap or [--on-demand] is
    set. No third request is made. *)
Theorem spot_retry_decides_from_suggested_price
    (create_instances : nat -> Fleet.request -> Fleet.response)
    (price_ondemand : Q) (ondemand : bool) (az : string) (price_spot : Q)
    (errmsg : string) (suggested : Q) :
  create_instances 0%nat (Fleet.market price_ondemand price_spot ondemand az)
  = Fleet.ClientError "SpotMaxPriceTooLow" errmsg ->
  Fleet._extract_last_float errmsg = Some suggested ->
  fst (Fleet._ec2_launch_instance create_instances price_ondemand ondemand az price_spot)
  = [Fleet.market price_ondemand price_spot ondemand az;
     Fleet.market price_ondemand suggested ondemand az]
  /\ (Fleet.Qlt_bool price_ondemand (suggested * (105 # 100)) = false ->
      ondemand = false ->
      Fleet.market price_ondemand suggested ondemand az
      = {| Fleet.MaxPrice := Some (suggested * (105 # 100))%Q;
           Fleet.AvailabilityZone := Some az |})
  /\ (Fleet.Qlt_bool price_ondemand (suggested * (105 # 100)) = true ->
      Fleet.market price_ondemand suggested ondemand az
      = {| Fleet.MaxPrice := None; Fleet.AvailabilityZone := None |})
  /\ (forall create_instances' price_spot',
        (length (fst (Fleet._ec2_launch_instance create_instances' price_ondemand
                        ondemand az price_spot')) <= 2)%nat).
Proof.
  intros Hfirst Hfloat. split; [|split; [|split]];
    [| | |intros; apply launch_at_most_two_requests].
  - unfold Fleet._ec2_launch_instance, Fleet.launch_loop.
    rewrite Hfirst. simpl. rewrite Hfloat.
    destruct (create_instances 1%nat _) as [inst|code msg|]; try reflexivity.
    repeat match goal with
           | |- context [if ?x then _ else _] => destruct x
           end; try reflexivity;
    destruct (Fleet._extract_last_float msg); reflexivity.
  - intros Hlt ->. unfold Fleet.market. rewrite Hlt. reflexivity.
  - intros Hlt. unfold Fleet.market. rewrite Hlt. reflexivity.
Qed.

(** The rejection of the specification, answered by the retry: on-demand
    price 1.00, first spot price 0.50. *)
Lemma spot_retry_decides_from_suggested_price_witness :
  fst (Fleet._ec2_launch_instance
         (fun i _ => match i with
                     | O => Fleet.ClientError "SpotMaxPriceTooLow" "... 0.62 is too low ..."
                     | _ => Fleet.Created "i-0abc"
                     end)
         (1 # 1) false "us-west-2a" (1 # 2))
  = [Fleet.market (1 # 1) (1 # 2) false "us-west-2a";
     Fleet.market (1 # 1) (62 # 100) false "us-west-2a"].
Proof.
  refine (proj1 (spot_retry_decides_from_suggested_price
           (fun i _ => match i with
                       | O => Fleet.ClientError "SpotMaxPriceTooLow" "... 0.62 is too low ..."
                       | _ => Fleet.Created "i-0abc"
                       end)
           (1 # 1) false "us-west-2a" (1 # 2) "... 0.62 is too low ..." (62 # 100)
           _ _));
    [reflexivity | vm_compute; reflexivity].
Defined.

(** C7, as stated, fails: after the rejection [... 0.62 is too low ...]
    the second request does not bid 0.62 but 0.651, 105% of it. *)
Lemma spot_retry_bid_is_not_suggested_price :
  let sent := fst (Fleet._ec2_launch_instance
                     (fun i _ => match i with
                                 | O => Fleet.ClientError "SpotMaxPriceTooLow"
                                          "... 0.62 is too low ..."
                                 | _ => Fleet.Created "i-0abc"
                                 end)
                     (1 # 1) false "us-west-2a" (1 # 2)) in
  exists bid,
    (Fleet.MaxPrice <$> sent !! 1%nat) = Some (Some bid)
    /\ Qeq_bool bid (651 # 1000) = true
    /\ Qeq_bool bid (62 # 100) = false.
Proof. eexists. vm_compute. repeat split. Qed.

(** ** The newest easyconfig of a folder *)

(** *** The matcher is sound for the patterns and their groups *)

Lemma length_append (a b : string) :
  String.length (a ++ b) = (String.length a + String.length b)%nat.
Proof. induction a as [|c a IH]; [reflexivity|]. rewrite append_cons. simpl. now rewrite IH. Qed.

Lemma substring_prefix (a b : string) : substring 0 (String.length a) (a ++ b) = a.
Proof.
  induction a as [|c a IH].
  - destruct b; reflexivity.
  - rewrite append_cons. simpl. now rewrite IH.
Qed.

Lemma consumed_prefix (a b : string) : Regex.consumed (a ++ b) b = a.
Proof.
  unfold Regex.consumed. rewrite length_append.
  replace (String.length a + String.length b - String.length b)%nat
    with (String.length a) by lia.
  apply substring_prefix.
Qed.

Lemma capture_of_incl (r r' : Regex.re) (c : nat * string) :
  (forall g, In g (Regex.groups r) -> In g (Regex.groups r')) ->
  Regex.capture_of r c -> Regex.capture_of r' c.
Proof. intros Hincl (g & Hin & Hm). exists g. split; [apply Hincl, Hin | exact Hm]. Qed.

Lemma exec_sound {R : Type} (r : Regex.re) :
  forall (s : string) (caps : Regex.captures)
         (k : string -> Regex.captures -> option R) (res : R),
    Regex.exec r s caps k = Some res ->
    exists s1 rest new,
      s = s1 ++ rest /\ Regex.matches r s1 /\ k rest (new ++ caps)%list = Some res
      /\ Forall (Regex.capture_of r) new.
Proof.
  induction r as [p|r1 IH1 r2 IH2|r1 IH1|r1 IH1|n r1 IH1]; intros s caps k res H; simpl in H.
  - destruct s as [|c s']; [discriminate|].
    destruct (p c) eqn:Hp; [|discriminate].
    exists (String c EmptyString), s', []. repeat split; auto. now constructor.
  - apply IH1 in H as (s1 & rest & new1 & -> & Hm1 & H & Hc1).
    apply IH2 in H as (s2 & rest2 & new2 & -> & Hm2 & H & Hc2).
    exists (s1 ++ s2), rest2, (new2 ++ new1)%list. split; [now rewrite append_assoc|].
    split; [now constructor|]. split; [now rewrite <- app_assoc|].
    apply Forall_app. split.
    + eapply List.Forall_impl; [|exact Hc2]. intros c. apply capture_of_incl.
      intros g Hg. simpl. apply in_or_app. now right.
    + eapply List.Forall_impl; [|exact Hc1]. intros c. apply capture_of_incl.
      intros g Hg. simpl. apply in_or_app. now left.
  - destruct (Regex.exec r1 s caps k) as [x|] eqn:E.
    + injection H as ->. apply IH1 in E as (s1 & rest & new & -> & Hm & Hk & Hc).
      exists s1, rest, new. repeat split; auto. now constructor.
    + exists EmptyString, s, []. repeat split; auto. constructor.
  - remember (String.length s) as fuel eqn:Hfuel. clear Hfuel.
    revert s caps res H. induction fuel as [|fuel IHf]; intros s caps res H.
    + exists EmptyString, s, []. repeat split; auto. constructor.
    + match type of H with
      | match ?e with _ => _ end = _ => destruct e as [x|] eqn:E
      end.
      * injection H as ->.
        apply IH1 in E as (s1 & rest & new1 & -> & Hm1 & E & Hc1).
        match type of E with
        | (if ?b then _ else _) = _ => destruct b; [|discriminate]
        end.
        apply IHf in E as (s2 & rest2 & new2 & -> & Hm2 & E & Hc2).
        exists (s1 ++ s2), rest2, (new2 ++ new1)%list. split; [now rewrite append_assoc|].
        split; [now constructor|]. split; [now rewrite <- app_assoc|].
        apply Forall_app. split; [exact Hc2|].
        eapply List.Forall_impl; [|exact Hc1]. intros c. apply capture_of_incl. auto.
      * exists EmptyString, s, []. repeat split; auto. constructor.
  - apply IH1 in H as (s1 & rest & new & -> & Hm & H & Hc).
    rewrite consumed_prefix in H.
    exists s1, rest, ((n, s1) :: new). repeat split; auto.
    + now constructor.
    + constructor.
      * exists r1. split; [now left | exact Hm].
      * eapply List.Forall_impl; [|exact Hc]. intros c. apply capture_of_incl.
        intros g Hg. now right.
Qed.

Lemma group_in (n : nat) (c : Regex.captures) (t : string) :
  Regex.group n c = Some t -> In (n, t) c.
Proof.
  induction c as [|[m s] c IH]; simpl; [discriminate|].
  destruct (Nat.eqb_spec n m) as [->|Hne].
  - intros [= ->]. now left.
  - intros H. right. now apply IH.
Qed.

Lemma search_sound (r : Regex.re) (s : string) (c : Regex.captures) (rest : string) :
  Regex.search r s = Some (c, rest) -> Forall (Regex.capture_of r) c.
Proof.
  induction s as [|a s IH]; simpl; unfold Regex.match_at.
  - destruct (Regex.exec r EmptyString [] _) as [m|] eqn:E; [|discriminate].
    intros [= ->]. apply exec_sound in E as (s1 & rest' & new & _ & _ & [= <- _] & Hc).
    now rewrite app_nil_r.
  - destruct (Regex.exec r (String a s) [] _) as [m|] eqn:E; [|exact IH].
    intros [= ->]. apply exec_sound in E as (s1 & rest' & new & _ & _ & [= <- _] & Hc).
    now rewrite app_nil_r.
Qed.

Lemma append_nil_r (s : string) : s ++ EmptyString = s.
Proof. induction s as [|c s IH]; [reflexivity|]. rewrite append_cons. now rewrite IH. Qed.

Lemma matches_star_chr (p : ascii -> bool) (s : string) :
  Regex.matches (Regex.Star (Regex.Chr p)) s -> Str.forallb p s = true.
Proof.
  intros H. remember (Regex.Star (Regex.Chr p)) as r eqn:Hr.
  induction H as [| | | | |r0 s1 s2 H1 _ H2 IH2|]; try discriminate; [reflexivity|].
  injection Hr as ->. inversion H1; subst.
  rewrite append_cons. cbn [Str.forallb]. apply andb_true_iff.
  split; [assumption | now apply IH2].
Qed.

Lemma matches_digits (s : string) :
  Regex.matches Regex.digits s ->
  exists c s', s = String c s' /\ Str.forallb Str.is_digit s = true.
Proof.
  unfold Regex.digits, Regex.Plus. intros H. inversion H as [|r1 r2 s1 s2 H1 H2| | | | |]; subst.
  inversion H1; subst. apply matches_star_chr in H2.
  exists c, s2. rewrite append_cons. split; [reflexivity|].
  cbn [Str.forallb]. apply andb_true_iff. split; assumption.
Qed.

Lemma digit_not_dot (c : ascii) : Str.is_digit c = true -> Ascii.eqb c "." = false.
Proof.
  intros H. destruct (Ascii.eqb_spec c ".") as [->|]; [|reflexivity].
  vm_compute in H. discriminate.
Qed.

Lemma split_digits (d rest : string) :
  Str.forallb Str.is_digit d = true ->
  Str.split "." (d ++ String "." rest) = d :: Str.split "." rest
  /\ Str.split "." d = [d].
Proof.
  induction d as [|c d IH]; intros H.
  - split; reflexivity.
  - simpl in H. apply andb_true_iff in H as [Hc Hd].
    destruct (IH Hd) as [IH1 IH2]. rewrite append_cons. simpl.
    rewrite (digit_not_dot c Hc), IH1, IH2. split; reflexivity.
Qed.

Lemma isdigit_digits (c : ascii) (d : string) :
  Str.forallb Str.is_digit (String c d) = true -> Str.isdigit (String c d) = true.
Proof. intros H. exact H. Qed.

Lemma matches_dotted_tail (t : string) :
  Regex.matches (Regex.Star (Regex.Seq (Regex.lit ".") Regex.digits)) t ->
  forall c d, Str.forallb Str.is_digit (String c d) = true ->
              Str.dotted_digits (String c d ++ t) = true.
Proof.
  intros H. remember (Regex.Star (Regex.Seq (Regex.lit ".") Regex.digits)) as r eqn:Hr.
  induction H as [| | | | |r0 s1 s2 H1 _ H2 IH2|]; try discriminate; intros c d Hd.
  - rewrite append_nil_r. unfold Str.dotted_digits.
    rewrite (proj2 (split_digits _ EmptyString Hd)). simpl.
    simpl in Hd. now rewrite Hd.
  - injection Hr as ->. inversion H1 as [|r1 r2 a b Ha Hb| | | | |]; subst.
    inversion Ha as [p x Hx| | | | | |]; subst.
    apply Ascii.eqb_eq in Hx. subst x.
    apply matches_digits in Hb as (c' & d' & -> & Hd').
    rewrite append_cons. rewrite (append_assoc (String "." EmptyString)).
    change (String "." EmptyString ++ (String c' d' ++ s2))
      with (String "." (String c' d' ++ s2)).
    unfold Str.dotted_digits.
    rewrite <- append_cons.
    rewrite (proj1 (split_digits _ (String c' d' ++ s2) Hd)).
    change (forallb Str.isdigit (String c d :: Str.split "." (String c' d' ++ s2)))
      with (Str.isdigit (String c d) && Str.dotted_digits (String c' d' ++ s2)).
    rewrite (IH2 eq_refl c' d' Hd'). simpl in Hd |- *. now rewrite Hd.
Qed.

Lemma extract_software_version (filename sv tv : string) :
  Catalog.extract filename = Some (sv, tv) -> Str.dotted_digits sv = true.
Proof.
  unfold Catalog.extract.
  destruct (Regex.search Catalog.version_pattern filename) as [[c rest]|] eqn:Hs;
    [|discriminate].
  destruct (Regex.group 1 c) as [g|] eqn:Hg; [|discriminate].
  intros [= -> _].
  apply search_sound in Hs. apply group_in in Hg.
  rewrite List.Forall_forall in Hs. destruct (Hs _ Hg) as (r' & Hin & Hm).
  simpl in Hin. destruct Hin as [[= <-]|[[=]|[]]].
  simpl in Hm. inversion Hm as [|r1 r2 a b Ha Hb| | | | |]; subst.
  apply matches_digits in Ha as (c0 & d0 & -> & Hd).
  now apply matches_dotted_tail.
Qed.

(** *** Orders *)

Section OrderFacts.
Context {A : Type} (cmp : A -> A -> comparison) (Hord : Order cmp).

Lemma ord_eq_sym (a b : A) : cmp a b = Eq -> cmp b a = Eq.
Proof. intros H. rewrite (ord_antisym cmp Hord a b), H. reflexivity. Qed.

Lemma ord_eq_r (a b c : A) : cmp a b = Eq -> cmp c a = cmp c b.
Proof.
  intros H. rewrite (ord_antisym cmp Hord a c), (ord_antisym cmp Hord b c).
  now rewrite (ord_eq_l cmp Hord a b c H).
Qed.

Lemma ord_le_trans (a b c : A) : cmp a b <> Gt -> cmp b c <> Gt -> cmp a c <> Gt.
Proof.
  intros Hab Hbc.
  destruct (cmp a b) eqn:Eab; [| |congruence].
  - now rewrite (ord_eq_l cmp Hord a b c Eab).
  - destruct (cmp b c) eqn:Ebc; [| |congruence].
    + rewrite <- (ord_eq_r b c a Ebc), Eab. discriminate.
    + rewrite (ord_trans cmp Hord a b c Eab Ebc). discriminate.
Qed.

Lemma ord_lt_not_gt (a b : A) : cmp a b = Lt -> cmp b a <> Gt -> False.
Proof. intros H. rewrite (ord_antisym cmp Hord a b), H. simpl. congruence. Qed.

End OrderFacts.

Section KeyOrder.
Context {V : Type} `{VersionLaws V}.

Lemma key_cmp_order : Order (Catalog.key_cmp (V := V)).
Proof.
  pose proof vcmp_order as Hv.
  split; unfold Catalog.key_cmp.
  - intros [a1 a2]. simpl. now rewrite !(ord_refl _ Hv).
  - intros [a1 a2] [b1 b2]. simpl.
    rewrite (ord_antisym _ Hv a1 b1), (ord_antisym _ Hv a2 b2).
    destruct (vcmp a1 b1); reflexivity.
  - intros [a1 a2] [b1 b2] [c1 c2]. simpl.
    destruct (vcmp a1 b1) eqn:E1; try discriminate;
      destruct (vcmp b1 c1) eqn:E2; try discriminate; intros H1 H2.
    + rewrite (ord_eq_l _ Hv a1 b1 c1 E1), E2.
      exact (ord_trans _ Hv a2 b2 c2 H1 H2).
    + now rewrite (ord_eq_l _ Hv a1 b1 c1 E1), E2.
    + now rewrite <- (ord_eq_r _ Hv b1 c1 a1 E2), E1.
    + now rewrite (ord_trans _ Hv a1 b1 c1 E1 E2).
  - intros [a1 a2] [b1 b2] [c1 c2]. simpl.
    destruct (vcmp a1 b1) eqn:E1; try discriminate. intros E2.
    now rewrite (ord_eq_l _ Hv a1 b1 c1 E1), (ord_eq_l _ Hv a2 b2 c2 E2).
Qed.

End KeyOrder.

(** *** The sort *)

Section Sorting.
Context {V : Type} `{VersionLaws V}.

Let entry : Type := ((V * V) * Catalog.version_tuple (V := V))%type.

Lemma insert_sorted_In (x : entry) (l : list entry) (z : entry) :
  In z (Catalog.insert_sorted x l) <-> z = x \/ In z l.
Proof.
  induction l as [|y l IH]; simpl.
  - intuition congruence.
  - destruct (Catalog.key_lt (fst y) (fst x)); simpl; [rewrite IH|]; intuition congruence.
Qed.

Lemma sort_asc_In (l : list entry) (z : entry) :
  In z (Catalog.sort_asc l) <-> In z l.
Proof.
  induction l as [|x l IH]; simpl; [tauto|].
  rewrite insert_sorted_In, IH. intuition congruence.
Qed.

Lemma insert_sorted_sorted (x : entry) (l : list entry) :
  StronglySorted Catalog.key_le l -> StronglySorted Catalog.key_le (Catalog.insert_sorted x l).
Proof.
  pose proof key_cmp_order as Hk.
  induction l as [|y l IH]; intros Hs; simpl.
  - repeat constructor.
  - apply StronglySorted_inv in Hs as [Hs Hy].
    unfold Catalog.key_lt.
    destruct (Catalog.key_cmp (fst y) (fst x)) eqn:E.
    + constructor; [now constructor|]. constructor.
      * unfold Catalog.key_le. rewrite (ord_antisym _ Hk (fst y) (fst x)), E. discriminate.
      * eapply List.Forall_impl; [|exact Hy]. intros z Hz. unfold Catalog.key_le in *.
        apply (ord_le_trans _ Hk (fst x) (fst y) (fst z)); [|exact Hz].
        rewrite (ord_antisym _ Hk (fst y) (fst x)), E. discriminate.
    + constructor; [now apply IH|].
      apply List.Forall_forall. intros z Hz. apply insert_sorted_In in Hz as [->|Hz].
      * unfold Catalog.key_le. rewrite E. discriminate.
      * rewrite List.Forall_forall in Hy. now apply Hy.
    + constructor; [now constructor|]. constructor.
      * unfold Catalog.key_le. rewrite (ord_antisym _ Hk (fst y) (fst x)), E. discriminate.
      * eapply List.Forall_impl; [|exact Hy]. intros z Hz. unfold Catalog.key_le in *.
        apply (ord_le_trans _ Hk (fst x) (fst y) (fst z)); [|exact Hz].
        rewrite (ord_antisym _ Hk (fst y) (fst x)), E. discriminate.
Qed.

Lemma sort_asc_sorted (l : list entry) : StronglySorted Catalog.key_le (Catalog.sort_asc l).
Proof.
  induction l as [|x l IH]; simpl; [constructor | now apply insert_sorted_sorted].
Qed.

Lemma sorted_last_max (l : list entry) (m : entry) :
  StronglySorted Catalog.key_le (l ++ [m]) -> forall z, In z (l ++ [m]) -> Catalog.key_le z m.
Proof.
  pose proof key_cmp_order as Hk.
  induction l as [|y l IH]; simpl; intros Hs z Hz.
  - destruct Hz as [<-|[]]. unfold Catalog.key_le. rewrite (ord_refl _ Hk). discriminate.
  - apply StronglySorted_inv in Hs as [Hs Hy]. destruct Hz as [<-|Hz].
    + rewrite List.Forall_forall in Hy. apply Hy. apply in_or_app. right. now left.
    + now apply IH.
Qed.

Lemma keyed_spec (l : list (Catalog.version_tuple (V := V))) (ks : list entry) :
  Catalog.keyed l = Ret ks ->
  map snd ks = l /\ forall e, In e ks -> Catalog.sort_key (snd e) = Ret (fst e).
Proof.
  revert ks. induction l as [|t l IH]; simpl; intros ks.
  - intros [= <-]. split; [reflexivity | intros e []].
  - destruct (Catalog.sort_key t) as [k|] eqn:Ek; simpl; [|discriminate].
    destruct (Catalog.keyed l) as [ks'|]; simpl; [|discriminate].
    intros [= <-]. destruct (IH ks' eq_refl) as [IH1 IH2]. split.
    + simpl. now rewrite IH1.
    + intros e [<-|He]; [exact Ek | now apply IH2].
Qed.

(** The head of [sorted(..., reverse=True)] has a largest key. *)
Lemma sorted_reverse_head (l s : list (Catalog.version_tuple (V := V))) :
  Catalog.sorted_reverse l = Ret s ->
  l <> [] ->
  exists latest rest k,
    s = latest :: rest /\ In latest l /\ Catalog.sort_key latest = Ret k
    /\ forall t k', In t l -> Catalog.sort_key t = Ret k' -> Catalog.key_cmp k' k <> Gt.
Proof.
  unfold Catalog.sorted_reverse.
  destruct (Catalog.keyed l) as [ks|] eqn:Hks; simpl; [|discriminate].
  intros [= <-] Hne. apply keyed_spec in Hks as [Hmap Hkey].
  assert (Catalog.sort_asc (List.rev ks) <> []) as Hne'.
  { intros E. apply Hne. rewrite <- Hmap.
    destruct ks as [|e ks]; [reflexivity|].
    assert (In e (Catalog.sort_asc (List.rev (e :: ks)))) as Hin.
    { apply (proj2 (sort_asc_In _ _)). apply (proj1 (in_rev (e :: ks) e)). now left. }
    rewrite E in Hin. destruct Hin. }
  destruct (exists_last Hne') as (l' & m & E).
  pose proof (sort_asc_sorted (List.rev ks)) as Hs. rewrite E in Hs.
  pose proof (sorted_last_max l' m Hs) as Hmax.
  assert (forall z, In z ks <-> In z (l' ++ [m])) as Hin.
  { intros z. rewrite <- E. split; intros Hz.
    - apply (proj2 (sort_asc_In _ _)). exact (proj1 (in_rev ks z) Hz).
    - apply (proj1 (sort_asc_In _ _)) in Hz. exact (proj2 (in_rev ks z) Hz). }
  exists (snd m), (map snd (List.rev l')), (fst m).
  rewrite E, rev_app_distr. simpl. split; [reflexivity|].
  assert (In m ks) as Hm. { apply Hin, in_or_app. right. now left. }
  split; [rewrite <- Hmap; now apply in_map|].
  split; [now apply Hkey|].
  intros t k' Ht Hk'. rewrite <- Hmap in Ht.
  apply in_map_iff in Ht as (e & <- & He).
  rewrite (Hkey e He) in Hk'. injection Hk' as <-.
  apply (Hmax e). now apply Hin.
Qed.

End Sorting.

(** *** The loop and the result *)

Section LatestFacts.
Context {V : Type} `{VersionLaws V}.

Local Abbreviation vtuple := (Catalog.version_tuple (V := V)).

Lemma veq_refl (a : V) : Catalog.veq a a = true.
Proof. unfold Catalog.veq. now rewrite (ord_refl _ vcmp_order). Qed.

Lemma tuple_eq_refl (t : vtuple) : Catalog.tuple_eq t t = true.
Proof.
  unfold Catalog.tuple_eq. rewrite veq_refl. simpl.
  destruct (snd t); [apply veq_refl | apply String.eqb_refl].
Qed.

Lemma parse_tuple_total (filename sv tv : string) :
  Catalog.candidate filename = Some (sv, tv) ->
  exists t : vtuple, Catalog.parse_tuple sv tv = Ret t.
Proof.
  unfold Catalog.candidate. destruct (negb _); [discriminate|]. intros He.
  apply extract_software_version in He. apply vparse_release in He as [v Hv].
  unfold Catalog.parse_tuple. rewrite Hv. eauto.
Qed.

Lemma sort_key_total (t : vtuple) : exists k, Catalog.sort_key t = Ret k.
Proof.
  unfold Catalog.sort_key. destruct (snd t); [eauto|].
  destruct (vparse_release "0" eq_refl) as [z ->]. eauto.
Qed.

Lemma keyed_total (l : list vtuple) : exists ks, Catalog.keyed l = Ret ks.
Proof.
  induction l as [|t l [ks IH]]; simpl; [eauto|].
  destruct (sort_key_total t) as [k ->]. rewrite IH. simpl. eauto.
Qed.

(** Equal dictionary keys have equal sort keys. *)
Lemma tuple_eq_sort_key (t t' : vtuple) (k k' : V * V) :
  Catalog.tuple_eq t t' = true ->
  Catalog.sort_key t = Ret k -> Catalog.sort_key t' = Ret k' ->
  Catalog.key_cmp k k' = Eq.
Proof.
  pose proof vcmp_order as Hv.
  unfold Catalog.tuple_eq, Catalog.sort_key, Catalog.key_cmp, Catalog.veq.
  destruct t as [a x], t' as [a' x']. simpl.
  destruct (vcmp a a') eqn:Ea; try discriminate. simpl.
  destruct x as [v|s], x' as [v'|s']; try discriminate.
  - destruct (vcmp v v') eqn:Ev; try discriminate.
    intros _ [= <-] [= <-]. simpl. now rewrite Ea.
  - intros _. destruct (vparse "0") as [z|]; [|discriminate].
    intros [= <-] [= <-]. simpl. rewrite Ea. apply (ord_refl _ Hv).
Qed.

Lemma dict_set_In (d : list (vtuple * string)) (k : vtuple) (v : string)
    (t : vtuple) (f : string) :
  In (t, f) (Catalog.dict_set d k v) ->
  In (t, f) d \/ (f = v /\ Catalog.tuple_eq t k = true).
Proof.
  induction d as [|[k' v'] d IH]; simpl.
  - intros [[= -> ->]|[]]. right. split; [reflexivity | apply tuple_eq_refl].
  - destruct (Catalog.tuple_eq k' k) eqn:E; simpl.
    + intros [[= -> ->]|Hin]; [right; now split | left; now right].
    + intros [[= -> ->]|Hin]; [left; now left|].
      destruct (IH Hin) as [Hd|Hn]; [left; now right | now right].
Qed.

Lemma dict_set_keeps (d : list (vtuple * string)) (k : vtuple) (v : string)
    (t : vtuple) (f : string) :
  In (t, f) d -> exists f', In (t, f') (Catalog.dict_set d k v).
Proof.
  induction d as [|[k' v'] d IH]; simpl; [intros []|].
  destruct (Catalog.tuple_eq k' k) eqn:E; simpl.
  - intros [[= -> ->]|Hin]; [exists v; now left | exists f; now right].
  - intros [[= -> ->]|Hin]; [exists f; now left|].
    destruct (IH Hin) as [f' Hf']. exists f'. now right.
Qed.

Lemma dict_set_has (d : list (vtuple * string)) (k : vtuple) (v : string) :
  exists t, In (t, v) (Catalog.dict_set d k v) /\ Catalog.tuple_eq t k = true.
Proof.
  induction d as [|[k' v'] d IH]; simpl.
  - exists k. split; [now left | apply tuple_eq_refl].
  - destruct (Catalog.tuple_eq k' k) eqn:E; simpl.
    + exists k'. split; [now left | exact E].
    + destruct IH as (t & Hin & Ht). exists t. split; [now right | exact Ht].
Qed.

Lemma dict_get_In (d : list (vtuple * string)) (t : vtuple) :
  In t (map fst d) ->
  exists t' f, Catalog.dict_get d t = Some f /\ In (t', f) d
               /\ Catalog.tuple_eq t' t = true.
Proof.
  induction d as [|[k' v'] d IH]; simpl; [intros []|].
  destruct (Catalog.tuple_eq k' t) eqn:E.
  - intros _. exists k', v'. repeat split; auto.
  - intros [<-|Hin]; [now rewrite tuple_eq_refl in E|].
    destruct (IH Hin) as (t' & f & Hg & Hf & Ht). exists t', f. repeat split; auto.
Qed.

(** What the dictionary holds after the loop: every entry left from the
    start or made by a file of the listing whose tuple equals its key;
    every key kept; and a key for every file the loop takes. *)
Lemma scan_spec (listing : list string) :
  forall d : list (vtuple * string),
  exists d',
    Catalog.scan d listing = Ret d'
    /\ (forall t f, In (t, f) d' ->
          In (t, f) d
          \/ (In f listing /\ exists sv tv tf,
                Catalog.candidate f = Some (sv, tv)
                /\ Catalog.parse_tuple sv tv = Ret tf
                /\ Catalog.tuple_eq t tf = true))
    /\ (forall t f, In (t, f) d -> exists f', In (t, f') d')
    /\ (forall f sv tv tf,
          In f listing -> Catalog.candidate f = Some (sv, tv) ->
          Catalog.parse_tuple sv tv = Ret tf ->
          exists t f', In (t, f') d' /\ Catalog.tuple_eq t tf = true).
Proof.
  induction listing as [|filename rest IH]; intros d; simpl.
  - exists d. split; [reflexivity|]. split; [auto|]. split; [eauto|].
    intros f sv tv tf [].
  - destruct (Catalog.candidate filename) as [[sv tv]|] eqn:Hc.
    + destruct (parse_tuple_total filename sv tv Hc) as [t0 Ht0]. rewrite Ht0. simpl.
      destruct (IH (Catalog.dict_set d t0 filename)) as (d' & Hscan & H1 & H2 & H3).
      exists d'. split; [exact Hscan|]. split; [|split].
      * intros t f Hin. destruct (H1 t f Hin) as [Hd|(Hl & Hx)].
        -- apply dict_set_In in Hd as [Hd|[-> Ht]]; [now left|].
           right. split; [now left|]. exists sv, tv, t0. auto.
        -- right. split; [now right | exact Hx].
      * intros t f Hin. destruct (dict_set_keeps d t0 filename t f Hin) as [f' Hf'].
        now apply (H2 t f').
      * intros f sv' tv' tf [<-|Hin] Hc' Hp.
        -- rewrite Hc in Hc'. injection Hc' as <- <-. rewrite Ht0 in Hp.
           injection Hp as <-.
           destruct (dict_set_has d t0 filename) as (t & Hin & Ht).
           destruct (H2 t filename Hin) as [f' Hf']. exists t, f'. auto.
        -- now apply (H3 f sv' tv' tf).
    + destruct (IH d) as (d' & Hscan & H1 & H2 & H3).
      exists d'. split; [exact Hscan|]. split; [|split].
      * intros t f Hin. destruct (H1 t f Hin) as [Hd|(Hl & Hx)]; [now left|].
        right. split; [now right | exact Hx].
      * exact H2.
      * intros f sv' tv' tf [<-|Hin] Hc' Hp; [congruence|].
        now apply (H3 f sv' tv' tf).
Qed.

Lemma file_key_spec (f : string) (k : V * V) :
  Catalog.file_key f = Some k <->
  exists sv tv t, Catalog.candidate f = Some (sv, tv)
                  /\ Catalog.parse_tuple sv tv = Ret t
                  /\ Catalog.sort_key t = Ret k.
Proof.
  unfold Catalog.file_key. split.
  - destruct (Catalog.candidate f) as [[sv tv]|]; [|discriminate].
    destruct (Catalog.parse_tuple sv tv) as [t|] eqn:Ht; [|discriminate].
    destruct (Catalog.sort_key t) as [k0|] eqn:Hk; [|discriminate].
    intros [= <-]. exists sv, tv, t. auto.
  - intros (sv & tv & t & -> & -> & ->). reflexivity.
Qed.

(** [_get_latest_easyconfig] always returns. Without a file to take it
    returns [None]; otherwise a file of the listing whose key is not below
    the key of any file. *)
Lemma latest_total_and_maximal (listing : list string) :
  ((forall f, In f listing -> Catalog.candidate f = None) ->
   Catalog._get_latest_easyconfig (V := V) listing = Ret None)
  /\ ((exists f, In f listing /\ Catalog.candidate f <> None) ->
      exists f k,
        Catalog._get_latest_easyconfig (V := V) listing = Ret (Some f)
        /\ In f listing
        /\ Catalog.file_key f = Some k
        /\ forall f' k', In f' listing -> Catalog.file_key f' = Some k' ->
                         Catalog.key_cmp k' k <> Gt).
Proof.
  pose proof (key_cmp_order (V := V)) as Hk.
  unfold Catalog._get_latest_easyconfig.
  destruct (scan_spec listing []) as (d & -> & H1 & _ & H3). simpl.
  split.
  - intros Hnone. destruct d as [|[t f] d]; [reflexivity|].
    destruct (H1 t f (or_introl eq_refl)) as [[]|(Hin & sv & tv & tf & Hc & _)].
    rewrite (Hnone f Hin) in Hc. discriminate.
  - intros (f0 & Hin0 & Hc0).
    destruct (Catalog.candidate f0) as [[sv0 tv0]|] eqn:Ec0; [clear Hc0 | congruence].
    destruct (parse_tuple_total f0 sv0 tv0 Ec0) as [t0 Ht0].
    destruct (H3 f0 sv0 tv0 t0 Hin0 Ec0 Ht0) as (t1 & f1 & Hin1 & _).
    assert (map fst d <> []) as Hne.
    { intros E. apply (in_map fst) in Hin1. rewrite E in Hin1. destruct Hin1. }
    destruct d as [|e d0]; [destruct Hin1|]. remember (e :: d0) as d eqn:Ed. clear Ed.
    destruct (Catalog.sorted_reverse (map fst d)) as [s|] eqn:Hs.
    2:{ unfold Catalog.sorted_reverse in Hs.
        destruct (keyed_total (map fst d)) as [ks Hks].
        rewrite Hks in Hs. discriminate. }
    simpl.
    destruct (sorted_reverse_head _ _ Hs Hne) as (latest & rest & kl & -> & Hl & Hkl & Hmax).
    destruct (dict_get_In d latest Hl) as (t' & f & -> & Hf & Ht').
    destruct (H1 t' f Hf) as [[]|(Hinf & sv & tv & tf & Hc & Hp & Hteq)].
    destruct (sort_key_total tf) as [kf Hkf].
    destruct (sort_key_total t') as [k' Hk'].
    pose proof (tuple_eq_sort_key t' tf k' kf Hteq Hk' Hkf) as E1.
    pose proof (tuple_eq_sort_key t' latest k' kl Ht' Hk' Hkl) as E2.
    exists f, kf. split; [reflexivity|]. split; [exact Hinf|]. split.
    { apply file_key_spec. exists sv, tv, tf. auto. }
    intros f2 k2 Hin2 Hk2. apply file_key_spec in Hk2 as (sv2 & tv2 & t2 & Hc2 & Hp2 & Hs2).
    destruct (H3 f2 sv2 tv2 t2 Hin2 Hc2 Hp2) as (t3 & f3 & Hin3 & Ht3).
    destruct (sort_key_total t3) as [k3 Hk3].
    pose proof (tuple_eq_sort_key t3 t2 k3 k2 Ht3 Hk3 Hs2) as E3.
    assert (Catalog.key_cmp k3 kl <> Gt) as Hle.
    { apply (Hmax t3 k3); [|exact Hk3]. apply (in_map fst) in Hin3. exact Hin3. }
    (* k2 = k3 <= kl = k' = kf *)
    rewrite <- (ord_eq_l _ Hk k3 k2 kf E3).
    rewrite <- (ord_eq_r _ Hk k' kf k3 E1).
    rewrite (ord_eq_r _ Hk k' kl k3 E2).
    exact Hle.
Qed.

(** Two files from which the pattern reads the same versions share one
    key of [version_file_dict]: the second takes the place of the first,
    and is the file returned. *)
Lemma same_versions_last_wins (a b sv tv : string) :
  Catalog.candidate a = Some (sv, tv) ->
  Catalog.candidate b = Some (sv, tv) ->
  Catalog._get_latest_easyconfig (V := V) [a; b] = Ret (Some b).
Proof.
  intros Ha Hb. destruct (parse_tuple_total a sv tv Ha) as [t Ht].
  destruct (sort_key_total t) as [k Hk].
  unfold Catalog._get_latest_easyconfig. cbn [Catalog.scan].
  rewrite Ha, Ht. cbn [py_bind Catalog.dict_set]. rewrite Hb, Ht.
  cbn [py_bind Catalog.dict_set]. rewrite tuple_eq_refl.
  cbn [py_bind map fst]. unfold Catalog.sorted_reverse. cbn [Catalog.keyed].
  rewrite Hk. cbn [py_bind List.rev app Catalog.sort_asc Catalog.insert_sorted map snd
                   Catalog.dict_get].
  now rewrite tuple_eq_refl.
Qed.

End LatestFacts.

(** *** The final releases form an instance *)

Lemma lex_refl (a : list Z) : Release.lex a a = Eq.
Proof. induction a as [|x a IH]; simpl; [reflexivity|]. now rewrite Z.compare_refl. Qed.

Lemma lex_antisym (a b : list Z) : Release.lex b a = CompOpp (Release.lex a b).
Proof.
  revert b. induction a as [|x a IH]; intros [|y b]; simpl; try reflexivity.
  rewrite (Z.compare_antisym x y). destruct (x ?= y); simpl; auto.
Qed.

Lemma lex_eq (a b : list Z) : Release.lex a b = Eq -> a = b.
Proof.
  revert b. induction a as [|x a IH]; intros [|y b]; simpl; try discriminate; auto.
  destruct (x ?= y) eqn:E; try discriminate.
  apply Z.compare_eq_iff in E. intros Hl. f_equal; auto.
Qed.

Lemma lex_trans (a b c : list Z) :
  Release.lex a b = Lt -> Release.lex b c = Lt -> Release.lex a c = Lt.
Proof.
  revert b c. induction a as [|x a IH]; intros [|y b] [|z c]; simpl;
    try discriminate; auto.
  destruct (x ?= y) eqn:E1; try discriminate;
    destruct (y ?= z) eqn:E2; try discriminate; intros H1 H2.
  - apply Z.compare_eq_iff in E1, E2. subst. rewrite Z.compare_refl. eauto.
  - apply Z.compare_eq_iff in E1. subst. now rewrite E2.
  - apply Z.compare_eq_iff in E2. subst. now rewrite E1.
  - rewrite Z.compare_lt_iff in E1, E2.
    assert (x < z) as Hlt by lia. rewrite <- Z.compare_lt_iff in Hlt. now rewrite Hlt.
Qed.

#[global] Instance release_laws : VersionLaws (list Z).
Proof.
  split.
  - split; simpl; unfold Release.compare.
    + intros a. apply lex_refl.
    + intros a b. apply lex_antisym.
    + intros a b c. apply lex_trans.
    + intros a b c E. apply lex_eq in E. now rewrite E.
  - intros s Hs. simpl. unfold Release.parse. rewrite Hs. eauto.
Qed.

Example extract_plain : Catalog.extract "GCC-11.2.0.eb" = Some ("11.2.0", "0").
Proof. vm_compute. reflexivity. Qed.

Example extract_with_toolchain :
  Catalog.extract "pkg-1.2-tcA-1.0.eb" = Some ("1.2", "tcA-1.0").
Proof. vm_compute. reflexivity. Qed.

(** A toolchain version with a letter at its end makes the pattern give
    up the toolchain and all but the first number of the software version. *)
Example extract_foss : Catalog.extract "foo-1.2-foss-2022a.eb" = Some ("1", "0").
Proof. vm_compute. reflexivity. Qed.

(** Where the pattern reads the versions off the file names,
    [_get_latest_easyconfig] does what its comments say. It always returns:
    [None] when no file of the listing ends in [.eb] and matches the
    pattern, and otherwise a file of the listing whose key, the pair of the
    versions the pattern read (software version first), is not below the
    key of any file of the listing. A toolchain token that is no version
    has the key of version 0, the same as a missing token. The directory
    with [pkg-1.2-tcA-1.0.eb] and [pkg-1.3-tcA-1.0.eb] gives the 1.3 file,
    in either order of listing. *)
Theorem latest_easyconfig_has_largest_key {V : Type} `{VersionLaws V}
    (listing : list string) :
  ((forall f, In f listing -> Catalog.candidate f = None) ->
   Catalog._get_latest_easyconfig (V := V) listing = Ret None)
  /\ ((exists f, In f listing /\ Catalog.candidate f <> None) ->
      exists f k,
        Catalog._get_latest_easyconfig (V := V) listing = Ret (Some f)
        /\ In f listing
        /\ Catalog.file_key f = Some k
        /\ forall f' k', In f' listing -> Catalog.file_key f' = Some k' ->
                         Catalog.key_cmp k' k <> Gt)
  /\ (forall (software : V) (token : string),
        Catalog.sort_key (software, Catalog.TcString token)
        = match vparse "0" with
          | Some zero => Ret (software, zero)
          | None => Raise InvalidVersion
          end)
  /\ (forall a b : V * V,
        Catalog.key_cmp a b
        = match vcmp (fst a) (fst b) with
          | Eq => vcmp (snd a) (snd b)
          | c => c
          end)
  /\ Catalog._get_latest_easyconfig (V := list Z)
       ["pkg-1.2-tcA-1.0.eb"; "pkg-1.3-tcA-1.0.eb"] = Ret (Some "pkg-1.3-tcA-1.0.eb")
  /\ Catalog._get_latest_easyconfig (V := list Z)
       ["pkg-1.3-tcA-1.0.eb"; "pkg-1.2-tcA-1.0.eb"] = Ret (Some "pkg-1.3-tcA-1.0.eb").
Proof.
  destruct (latest_total_and_maximal listing) as [Hnone Hsome].
  split; [exact Hnone|]. split; [exact Hsome|].
  split; [reflexivity|]. split; [reflexivity|].
  split; vm_compute; reflexivity.
Qed.

Lemma latest_easyconfig_has_largest_key_witness :
  exists f k,
    Catalog._get_latest_easyconfig (V := list Z)
      ["pkg-1.2-tcA-1.0.eb"; "pkg-1.3-tcA-1.0.eb"; "README.md"] = Ret (Some f)
    /\ In f ["pkg-1.2-tcA-1.0.eb"; "pkg-1.3-tcA-1.0.eb"; "README.md"]
    /\ Catalog.file_key f = Some k
    /\ forall f' k',
         In f' ["pkg-1.2-tcA-1.0.eb"; "pkg-1.3-tcA-1.0.eb"; "README.md"] ->
         Catalog.file_key f' = Some k' -> Catalog.key_cmp k' k <> Gt.
Proof.
  apply (proj1 (proj2 (latest_easyconfig_has_largest_key
                         (V := list Z) (H0 := release_laws)
                         ["pkg-1.2-tcA-1.0.eb"; "pkg-1.3-tcA-1.0.eb"; "README.md"]))).
  exists "pkg-1.2-tcA-1.0.eb". split; [now left|].
  vm_compute. discriminate.
Defined.

(** A toolchain token that is no version does not sort below every
    token that is one. With the same software version the
    file with token [tcA] ties with the file with token [0] and, listed
    first, is the one returned. *)
Lemma unparsed_toolchain_token_not_below :
  Catalog._get_latest_easyconfig (V := list Z) ["pkg-1.0-tcA.eb"; "pkg-1.0-0.eb"]
  = Ret (Some "pkg-1.0-tcA.eb")
  /\ Catalog.extract "pkg-1.0-tcA.eb" = Some ("1.0", "tcA")
  /\ vparse (V := list Z) "tcA" = None
  /\ Catalog.extract "pkg-1.0-0.eb" = Some ("1.0", "0")
  /\ vparse (V := list Z) "0" = Some [0]
  /\ Catalog._get_latest_easyconfig (V := list Z) ["pkg-1.0-0.eb"; "pkg-1.0-tcA.eb"]
     = Ret (Some "pkg-1.0-0.eb").
Proof. vm_compute. repeat split. Qed.

Example extract_foss_2021b :
  Catalog.extract "foo-1.10-foss-2021b.eb" = Some ("1", "0").
Proof. vm_compute. reflexivity. Qed.

(** C4. The file returned need not have the largest version. For a file
    name whose toolchain version ends in a letter, as [foss-2021b] and
    [foss-2022a] do, [version_pattern] has to give up the toolchain and all
    but the first number of the software version: the files
    [foo-1.10-foss-2021b.eb] and [foo-1.2-foss-2022a.eb] both are read as
    software version 1 without a toolchain, so they share one key of
    [version_file_dict], the file listed second takes the place of the
    first, and the file returned is the one listed last: version 1.2 for
    one order of the listing, version 1.10 for the other. *)
Theorem latest_easyconfig_returns_file_listed_last {V : Type} `{VersionLaws V} :
  Catalog.extract "foo-1.10-foss-2021b.eb" = Some ("1", "0")
  /\ Catalog.extract "foo-1.2-foss-2022a.eb" = Some ("1", "0")
  /\ Catalog._get_latest_easyconfig (V := V)
       ["foo-1.10-foss-2021b.eb"; "foo-1.2-foss-2022a.eb"]
     = Ret (Some "foo-1.2-foss-2022a.eb")
  /\ Catalog._get_latest_easyconfig (V := V)
       ["foo-1.2-foss-2022a.eb"; "foo-1.10-foss-2021b.eb"]
     = Ret (Some "foo-1.10-foss-2021b.eb").
Proof.
  split; [exact extract_foss_2021b|]. split; [exact extract_foss|].
  split; apply (same_versions_last_wins _ _ "1" "0"); vm_compute; reflexivity.
Qed.

Lemma latest_easyconfig_returns_file_listed_last_witness :
  Catalog.extract "foo-1.10-foss-2021b.eb" = Some ("1", "0")
  /\ Catalog.extract "foo-1.2-foss-2022a.eb" = Some ("1", "0")
  /\ Catalog._get_latest_easyconfig (V := list Z)
       ["foo-1.10-foss-2021b.eb"; "foo-1.2-foss-2022a.eb"]
     = Ret (Some "foo-1.2-foss-2022a.eb")
  /\ Catalog._get_latest_easyconfig (V := list Z)
       ["foo-1.2-foss-2022a.eb"; "foo-1.10-foss-2021b.eb"]
     = Ret (Some "foo-1.10-foss-2021b.eb").
Proof.
  exact (latest_easyconfig_returns_file_listed_last (V := list Z) (H0 := release_laws)).
Defined.

Example latest_none :
  Catalog._get_latest_easyconfig (V := list Z) ["README.md"; "patch-1.0.patch"]
  = Ret None.
Proof. vm_compute. reflexivity. Qed.

(** ** The status store *)

Lemma view_lookup (sd : gmap string nat) (h : list Planner.build_status) (k : string) :
  Planner.view sd h !! k = match sd !! k with
                           | Some l => h !! l
                           | None => None
                           end.
Proof. unfold Planner.view. rewrite lookup_omap. destruct (sd !! k); reflexivity. Qed.

(** What [s3_put_json] stores under a key is the record the key holds. *)
Lemma s3_put_json_lookup (st : Planner.state) (k : string) :
  Planner.s3 (Planner.s3_put_json st) !! k = Planner.deref st k.
Proof. unfold Planner.s3_put_json, Planner.deref. simpl. apply view_lookup. Qed.

(** After [s3_get_json] a key holds the record the store has for it. *)
Lemma s3_get_json_deref (st : Planner.state) (k : string) :
  Planner.deref (Planner.s3_get_json st) k = Planner.s3 st !! k.
Proof.
  unfold Planner.deref, Planner.s3_get_json. simpl.
  set (kvs := map_to_list (Planner.s3 st)).
  set (n := length (Planner.heap st)).
  assert (NoDup (zip kvs.*1 (seq n (length kvs))).*1) as Hnd.
  { rewrite fst_zip; [apply NoDup_fst_map_to_list|].
    rewrite length_fmap, length_seq. lia. }
  destruct (Planner.s3 st !! k) as [r|] eqn:Hk.
  - apply elem_of_map_to_list in Hk. fold kvs in Hk.
    apply list_elem_of_lookup in Hk as [i Hi].
    assert (i < length kvs)%nat as Hlt by (eapply lookup_lt_Some; eauto).
    assert ((list_to_map (zip kvs.*1 (seq n (length kvs))) : gmap string nat) !! k
            = Some (n + i)%nat) as ->.
    { apply elem_of_list_to_map; [exact Hnd|].
      apply list_elem_of_lookup. exists i. apply lookup_zip_Some. split.
      - rewrite list_lookup_fmap, Hi. reflexivity.
      - now apply lookup_seq_lt. }
    rewrite lookup_app_r by (fold n; lia). fold n.
    replace (n + i - n)%nat with i by lia.
    rewrite list_lookup_fmap, Hi. reflexivity.
  - assert ((list_to_map (zip kvs.*1 (seq n (length kvs))) : gmap string nat) !! k
            = None) as ->; [|reflexivity].
    apply not_elem_of_list_to_map.
    rewrite fst_zip by (rewrite length_fmap, length_seq; lia).
    intros Hin. apply list_elem_of_fmap in Hin as ([k' r] & -> & Hin).
    apply elem_of_map_to_list in Hin. simpl in Hk. congruence.
Qed.

(** At the start of [build_all_eb] [statdict] holds the stored records. *)
Lemma initial_deref (store : gmap string Planner.build_status) (k : string) :
  Planner.deref (Planner.initial store) k = store !! k.
Proof. unfold Planner.initial. now rewrite s3_get_json_deref. Qed.

Lemma s3_get_json_heap (st : Planner.state) (l : nat) (r : Planner.build_status) :
  Planner.heap st !! l = Some r -> Planner.heap (Planner.s3_get_json st) !! l = Some r.
Proof. intros Hl. unfold Planner.s3_get_json. simpl. now apply lookup_app_l_Some. Qed.

(** [statdict[k][field] = v] changes the record [k] holds. *)
Lemma update_deref (k : string) (f : Planner.build_status -> Planner.build_status)
    (st : Planner.state) :
  Planner.deref (Planner.update k f st) k = f <$> Planner.deref st k.
Proof.
  unfold Planner.update, Planner.deref.
  destruct (Planner.statdict st !! k) as [l|] eqn:Hl; simpl; rewrite Hl.
  - apply list_lookup_alter_eq.
  - reflexivity.
Qed.

Lemma setdefault_deref (k : string) (tmpl : nat) (st : Planner.state) :
  Planner.deref (Planner.setdefault k tmpl st) k
  = match Planner.statdict st !! k with
    | Some l => Planner.heap st !! l
    | None => Planner.heap st !! tmpl
    end.
Proof.
  unfold Planner.setdefault, Planner.deref.
  destruct (Planner.statdict st !! k) as [l|] eqn:Hl; simpl.
  - now rewrite Hl.
  - now rewrite lookup_insert_eq.
Qed.

Lemma update_fields (k : string) (f : Planner.build_status -> Planner.build_status)
    (st : Planner.state) :
  Planner.s3 (Planner.update k f st) = Planner.s3 st
  /\ Planner.invoked (Planner.update k f st) = Planner.invoked st
  /\ Planner.statdict (Planner.update k f st) = Planner.statdict st
  /\ Planner.ebskipped (Planner.update k f st) = Planner.ebskipped st
  /\ Planner.ebcnt (Planner.update k f st) = Planner.ebcnt st.
Proof.
  unfold Planner.update. destruct (Planner.statdict st !! k); simpl; auto.
Qed.

Lemma setdefault_fields (k : string) (tmpl : nat) (st : Planner.state) :
  Planner.s3 (Planner.setdefault k tmpl st) = Planner.s3 st
  /\ Planner.invoked (Planner.setdefault k tmpl st) = Planner.invoked st
  /\ Planner.heap (Planner.setdefault k tmpl st) = Planner.heap st
  /\ Planner.ebskipped (Planner.setdefault k tmpl st) = Planner.ebskipped st
  /\ Planner.ebcnt (Planner.setdefault k tmpl st) = Planner.ebcnt st.
Proof.
  unfold Planner.setdefault. destruct (Planner.statdict st !! k); simpl; auto.
Qed.

(** ** One pass of the planner *)

(** The first step of a pass: the counters move and a template is made;
    every record stays as it is. *)
Lemma build_one_ignores (c : Planner.config) (w : Planner.world) (st : Planner.state)
    (r : Planner.build_status) :
  Planner.deref st (Planner.ebfile w) = Some r ->
  String.eqb (Planner.status r) "skipped" = false \/ Planner.checkskipped c = false ->
  fst (Planner.build_one c w st) = Planner.Ignored
  /\ Planner.s3 (snd (Planner.build_one c w st)) = Planner.s3 st
  /\ Planner.invoked (snd (Planner.build_one c w st)) = Planner.invoked st
  /\ Planner.statdict (snd (Planner.build_one c w st)) = Planner.statdict st
  /\ (forall k r', Planner.deref st k = Some r' ->
                   Planner.deref (snd (Planner.build_one c w st)) k = Some r')
  /\ Planner.ebcnt (snd (Planner.build_one c w st)) = Planner.ebcnt st + 1
  /\ Planner.ebskipped (snd (Planner.build_one c w st)) = Planner.ebskipped st + 1.
Proof.
  intros Hr Hcond.
  assert (forall k r', Planner.deref st k = Some r' ->
            Planner.deref
              (Planner.with_counts (Planner.ebcnt st + 1) (Planner.ebskipped st + 1)
                 (Planner.bldcnt st) (Planner.errcnt st) (Planner.errpkg st)
                 (Planner.with_store (Planner.statdict st)
                    (Planner.heap st ++ [Planner.statdict_template (Planner.now w)])
                    (Planner.s3 st) st)) k = Some r') as Hkeep.
  { intros k r'. unfold Planner.deref. simpl.
    destruct (Planner.statdict st !! k); [|discriminate].
    apply lookup_app_l_Some. }
  unfold Planner.build_one. cbv zeta. simpl Planner.ebcnt. simpl Planner.ebskipped.
  simpl Planner.bldcnt. simpl Planner.errcnt. simpl Planner.errpkg.
  simpl Planner.statdict. simpl Planner.heap. simpl Planner.s3.
  rewrite (Hkeep _ _ Hr).
  assert (negb (String.eqb (Planner.status r) "skipped") || negb (Planner.checkskipped c)
          = true) as ->.
  { destruct Hcond as [-> | ->]; [reflexivity | apply orb_true_r]. }
  simpl. repeat split; auto.
Qed.

Lemma s3_get_json_statdict (st : Planner.state) (k : string) :
  (exists r l, Planner.s3 st !! k = Some r
               /\ Planner.statdict (Planner.s3_get_json st) !! k = Some l
               /\ Planner.heap (Planner.s3_get_json st) !! l = Some r)
  \/ (Planner.s3 st !! k = None
      /\ Planner.statdict (Planner.s3_get_json st) !! k = None).
Proof.
  pose proof (s3_get_json_deref st k) as Hd. unfold Planner.deref in Hd.
  destruct (Planner.s3 st !! k) as [r|] eqn:Hk.
  - left. destruct (Planner.statdict (Planner.s3_get_json st) !! k) as [l|];
      [|discriminate]. exists r, l. auto.
  - right. split; [reflexivity|].
    unfold Planner.s3_get_json. simpl.
    apply not_elem_of_list_to_map.
    rewrite fst_zip by (rewrite length_fmap, length_seq; lia).
    intros Hin. apply list_elem_of_fmap in Hin as ([k' r] & -> & Hin).
    apply elem_of_map_to_list in Hin. simpl in Hk. congruence.
Qed.

(** After the reload and the default, the easyconfig holds a record: the
    stored one, or the template. *)
Lemma reload_default_deref (w : Planner.world) (tmpl : nat) (st : Planner.state)
    (t : Planner.build_status) :
  Planner.heap st !! tmpl = Some t ->
  Planner.deref (Planner.setdefault (Planner.ebfile w) tmpl (Planner.s3_get_json st))
    (Planner.ebfile w)
  = Some (default t (Planner.s3 st !! Planner.ebfile w)).
Proof.
  intros Ht. rewrite setdefault_deref.
  destruct (s3_get_json_statdict st (Planner.ebfile w))
    as [(r & l & Hs & Hl & Hh)|[Hs Hl]]; rewrite Hl, Hs; simpl.
  - exact Hh.
  - now apply s3_get_json_heap.
Qed.

Lemma plan_and_build_installed (c : Planner.config) (w : Planner.world) (tmpl : nat)
    (st : Planner.state) (t : Planner.build_status) (p : Planner.package) :
  Planner.heap st !! tmpl = Some t ->
  Planner.read_easyconfig w = Ret p ->
  Version.toolchain_policy (Planner.min_toolchains c) (Planner.pkg_name p)
    (Planner.pkg_version p) (Planner.tc_name p) (Planner.tc_version p)
  = Ret Version.Eligible ->
  Planner.class_filter c (Planner.moduleclass p) = None ->
  Planner.themissing w = Planner.Missing [] ->
  fst (Planner.plan_and_build c w tmpl st) = Planner.AlreadyInstalled
  /\ Planner.s3 (snd (Planner.plan_and_build c w tmpl st)) !! Planner.ebfile w
     = Some (Planner.set_reason "easyconfig built successfully"
               (Planner.set_status "success"
                  (default t (Planner.s3 st !! Planner.ebfile w))))
  /\ Planner.invoked (snd (Planner.plan_and_build c w tmpl st)) = Planner.invoked st.
Proof.
  intros Ht Hread Hpol Hcls Hmiss.
  unfold Planner.plan_and_build. cbv zeta. rewrite Hread, Hpol, Hcls, Hmiss.
  cbn [Planner.missing_empty fst snd]. split; [reflexivity|]. split.
  - rewrite s3_put_json_lookup, !update_deref, (reload_default_deref w tmpl st t Ht).
    reflexivity.
  - unfold Planner.s3_put_json. cbn [Planner.invoked Planner.with_store].
    rewrite !(proj1 (proj2 (update_fields _ _ _))).
    rewrite (proj1 (proj2 (setdefault_fields _ _ _))). reflexivity.
Qed.

(** C1. A pass over an easyconfig whose record in [statdict] has a status
    other than skipped, or any status while [--check-skipped] is not set,
    ends at the first [continue]: it counts as skipped, calls [eb] for
    nothing, writes nothing to the store and leaves every record as it is.
    A second pass does the same, so a record with status success is never
    built again. *)
Theorem recorded_easyconfig_is_ignored (c : Planner.config) (w : Planner.world)
    (st : Planner.state) (r : Planner.build_status) :
  Planner.deref st (Planner.ebfile w) = Some r ->
  String.eqb (Planner.status r) "skipped" = false \/ Planner.checkskipped c = false ->
  let st' := snd (Planner.build_one c w st) in
  let st'' := snd (Planner.build_one c w st') in
  fst (Planner.build_one c w st) = Planner.Ignored
  /\ Planner.s3 st' = Planner.s3 st
  /\ Planner.invoked st' = Planner.invoked st
  /\ (forall k r', Planner.deref st k = Some r' -> Planner.deref st' k = Some r')
  /\ Planner.ebskipped st' = Planner.ebskipped st + 1
  /\ fst (Planner.build_one c w st') = Planner.Ignored
  /\ Planner.s3 st'' = Planner.s3 st
  /\ Planner.invoked st'' = Planner.invoked st
  /\ (forall k r', Planner.deref st k = Some r' -> Planner.deref st'' k = Some r').
Proof.
  intros Hr Hcond st' st''.
  destruct (build_one_ignores c w st r Hr Hcond) as (E1 & E2 & E3 & _ & E4 & _ & E5).
  fold st' in E2, E3, E4, E5.
  destruct (build_one_ignores c w st' r (E4 _ _ Hr) Hcond) as (F1 & F2 & F3 & _ & F4 & _).
  fold st'' in F2, F3, F4.
  repeat split; auto; try congruence.
Qed.

Lemma recorded_easyconfig_is_ignored_witness :
  let c := {| Planner.min_toolchains := Version.default_min_toolchains;
              Planner.checkskipped := true;
              Planner.include := ""; Planner.exclude := "" |} in
  let w := {| Planner.ebfile := "zlib-1.2.12.eb";
              Planner.ebpath := "/home/ec2-user/easybuild-easyconfigs/easybuild/easyconfigs/z/zlib/zlib-1.2.12.eb";
              Planner.now := "2024-05-02T10:00:00+00:00";
              Planner.read_easyconfig :=
                Ret {| Planner.pkg_name := "zlib"; Planner.pkg_version := "1.2.12";
                       Planner.tc_name := "system"; Planner.tc_version := "system";
                       Planner.moduleclass := "lib" |};
              Planner.themissing := Planner.Missing [("zlib/1.2.12", "zlib-1.2.12.eb")];
              Planner.themissing2 := Planner.Missing [];
              Planner.eb_run := fun _ => 0;
              Planner.eb_time := fun _ => 60;
              Planner.now_after := fun _ => "2024-05-02T10:01:00+00:00";
              Planner.copy_last_log := fun _ => Ret tt;
              Planner.new_tars := true |} in
  let st := Planner.initial
              {[ "zlib-1.2.12.eb" :=
                   {| Planner.status := "success";
                      Planner.reason := "easyconfig built successfully";
                      Planner.returncode := 0; Planner.errorcount := 0;
                      Planner.trydate := "2024-05-01T09:00:00+00:00";
                      Planner.buildtime := 75; Planner.modules := None |} ]} in
  fst (Planner.build_one c w st) = Planner.Ignored
  /\ Planner.s3 (snd (Planner.build_one c w st)) = Planner.s3 st
  /\ Planner.invoked (snd (Planner.build_one c w st)) = [].
Proof.
  intros c w st.
  destruct (recorded_easyconfig_is_ignored c w st
              {| Planner.status := "success";
                 Planner.reason := "easyconfig built successfully";
                 Planner.returncode := 0; Planner.errorcount := 0;
                 Planner.trydate := "2024-05-01T09:00:00+00:00";
                 Planner.buildtime := 75; Planner.modules := None |})
    as (E1 & E2 & E3 & _).
  - vm_compute. reflexivity.
  - left. reflexivity.
  - split; [exact E1|]. split; [exact E2|]. rewrite E3. reflexivity.
Defined.

Lemma template_lookup (h : list Planner.build_status) (t : Planner.build_status) :
  (h ++ [t])%list !! length h = Some t.
Proof. rewrite lookup_app_r by lia. now rewrite Nat.sub_diag. Qed.

Lemma mem_In (x : string) (l : list string) : Str.mem x l = true <-> In x l.
Proof.
  unfold Str.mem. rewrite existsb_exists. split.
  - intros (y & Hy & He). apply String.eqb_eq in He. now subst.
  - intros H. exists x. split; [exact H | apply String.eqb_refl].
Qed.

Lemma split_nonempty (sep : ascii) (s : string) : Str.split sep s <> [].
Proof.
  destruct s as [|c s]; [discriminate|]. cbn.
  destruct (Ascii.eqb c sep); [discriminate|]. destruct (Str.split sep s); discriminate.
Qed.

(** The class filter lets an easyconfig pass when [--include] is given
    and names its class, at any place of the list, or when [--include] is
    not given and [--exclude] does not name its class. *)
Lemma class_filter_passes (c : Planner.config) (cls : string) :
  Planner.class_filter c cls = None <->
  match Planner.include c, Planner.exclude c with
  | String _ _, _ => In cls (Str.split "," (Planner.include c))
  | EmptyString, String _ _ => ~ In cls (Str.split "," (Planner.exclude c))
  | EmptyString, EmptyString => True
  end.
Proof.
  unfold Planner.class_filter. cbv zeta.
  destruct (Planner.include c) as [|a i]; cbn [Planner.split_list].
  - destruct (Planner.exclude c) as [|b e]; cbn [Planner.split_list]; [tauto|].
    pose proof (split_nonempty "," (String b e)) as Hne.
    destruct (Str.split "," (String b e)) as [|x l] eqn:E; [contradiction|].
    destruct (Str.mem cls (x :: l)) eqn:Hm.
    + apply mem_In in Hm. split; [discriminate | tauto].
    + split; [|reflexivity]. intros _ Hin. apply mem_In in Hin. congruence.
  - pose proof (split_nonempty "," (String a i)) as Hne.
    destruct (Str.split "," (String a i)) as [|x l] eqn:E; [contradiction|].
    destruct (Str.mem cls (x :: l)) eqn:Hm.
    + apply mem_In in Hm. tauto.
    + split; [discriminate|]. intros Hin. apply mem_In in Hin. congruence.
Qed.

Example class_filter_first_include :
  Planner.class_filter
    {| Planner.min_toolchains := Version.default_min_toolchains;
       Planner.checkskipped := false;
       Planner.include := "bio"; Planner.exclude := "" |} "bio" = None
  /\ Planner.class_filter
       {| Planner.min_toolchains := Version.default_min_toolchains;
          Planner.checkskipped := false;
          Planner.include := "bio,chem"; Planner.exclude := "bio" |} "chem" = None
  /\ Planner.class_filter
       {| Planner.min_toolchains := Version.default_min_toolchains;
          Planner.checkskipped := false;
          Planner.include := "bio,chem"; Planner.exclude := "" |} "lib"
     = Some "module class not included via --include option"
  /\ Planner.class_filter
       {| Planner.min_toolchains := Version.default_min_toolchains;
          Planner.checkskipped := false;
          Planner.include := ""; Planner.exclude := "bio,chem" |} "bio"
     = Some "module class excluded via --exclude option".
Proof. vm_compute. repeat split. Qed.

(** C5, as the code has it. A pass that is not ignored, whose easyconfig
    passes the toolchain policy and the class filter and has no missing
    module, ends with the record stored with status success and reason
    [easyconfig built successfully], and [eb] is not called to build. *)
Theorem satisfied_easyconfig_recorded_success (c : Planner.config) (w : Planner.world)
    (st : Planner.state) (p : Planner.package) :
  Planner.statdict st !! Planner.ebfile w = None
  \/ (exists r, Planner.deref st (Planner.ebfile w) = Some r
                /\ Planner.status r = "skipped" /\ Planner.checkskipped c = true) ->
  Planner.read_easyconfig w = Ret p ->
  Version.toolchain_policy (Planner.min_toolchains c) (Planner.pkg_name p)
    (Planner.pkg_version p) (Planner.tc_name p) (Planner.tc_version p)
  = Ret Version.Eligible ->
  Planner.class_filter c (Planner.moduleclass p) = None ->
  Planner.themissing w = Planner.Missing [] ->
  fst (Planner.build_one c w st) = Planner.AlreadyInstalled
  /\ (exists r', Planner.s3 (snd (Planner.build_one c w st)) !! Planner.ebfile w = Some r'
                 /\ Planner.status r' = "success"
                 /\ Planner.reason r' = "easyconfig built successfully")
  /\ Planner.invoked (snd (Planner.build_one c w st)) = Planner.invoked st.
Proof.
  intros Hnew Hread Hpol Hcls Hmiss.
  unfold Planner.build_one. cbv zeta.
  set (st1 := Planner.with_counts _ _ _ _ _ _).
  assert (Planner.heap st1 !! length (Planner.heap st)
          = Some (Planner.statdict_template (Planner.now w))) as Ht.
  { subst st1. simpl. apply template_lookup. }
  pose proof (plan_and_build_installed c w (length (Planner.heap st)) st1 _ p
                Ht Hread Hpol Hcls Hmiss) as (E1 & E2 & E3).
  assert (match Planner.deref st1 (Planner.ebfile w) with
          | Some r =>
              if negb (String.eqb (Planner.status r) "skipped")
                 || negb (Planner.checkskipped c)
              then (Planner.Ignored, st1)
              else Planner.plan_and_build c w (length (Planner.heap st)) st1
          | None => Planner.plan_and_build c w (length (Planner.heap st)) st1
          end = Planner.plan_and_build c w (length (Planner.heap st)) st1) as ->.
  { destruct Hnew as [Hnone|(r & Hr & Hs & Hc)].
    - unfold Planner.deref. subst st1. simpl. now rewrite Hnone.
    - assert (Planner.deref st1 (Planner.ebfile w) = Some r) as ->.
      { unfold Planner.deref in *. subst st1. simpl.
        destruct (Planner.statdict st !! Planner.ebfile w); [|discriminate].
        now apply lookup_app_l_Some. }
      rewrite Hs, Hc. reflexivity. }
  split; [exact E1|]. split; [|exact E3].
  eexists. split; [exact E2|]. split; reflexivity.
Qed.

Lemma satisfied_easyconfig_recorded_success_witness :
  let c := {| Planner.min_toolchains := Version.default_min_toolchains;
              Planner.checkskipped := false;
              Planner.include := "lib,bio"; Planner.exclude := "" |} in
  let w := {| Planner.ebfile := "zlib-1.2.12.eb";
              Planner.ebpath := "/home/ec2-user/easybuild-easyconfigs/easybuild/easyconfigs/z/zlib/zlib-1.2.12.eb";
              Planner.now := "2024-05-02T10:00:00+00:00";
              Planner.read_easyconfig :=
                Ret {| Planner.pkg_name := "zlib"; Planner.pkg_version := "1.2.12";
                       Planner.tc_name := "system"; Planner.tc_version := "system";
                       Planner.moduleclass := "lib" |};
              Planner.themissing := Planner.Missing [];
              Planner.themissing2 := Planner.Missing [];
              Planner.eb_run := fun _ => 0;
              Planner.eb_time := fun _ => 60;
              Planner.now_after := fun _ => "2024-05-02T10:01:00+00:00";
              Planner.copy_last_log := fun _ => Ret tt;
              Planner.new_tars := true |} in
  fst (Planner.build_one c w (Planner.initial ∅)) = Planner.AlreadyInstalled
  /\ (exists r',
        Planner.s3 (snd (Planner.build_one c w (Planner.initial ∅))) !! "zlib-1.2.12.eb"
        = Some r'
        /\ Planner.status r' = "success"
        /\ Planner.reason r' = "easyconfig built successfully")
  /\ Planner.invoked (snd (Planner.build_one c w (Planner.initial ∅))) = [].
Proof.
  intros c w.
  apply (satisfied_easyconfig_recorded_success c w (Planner.initial ∅)
           {| Planner.pkg_name := "zlib"; Planner.pkg_version := "1.2.12";
              Planner.tc_name := "system"; Planner.tc_version := "system";
              Planner.moduleclass := "lib" |}).
  - left. vm_compute. reflexivity.
  - reflexivity.
  - vm_compute. reflexivity.
  - vm_compute. reflexivity.
  - reflexivity.
Defined.

(** C5, as stated, fails: the reason stored for an easyconfig that is
    already installed is [easyconfig built successfully], not
    [already installed]. *)
Lemma satisfied_easyconfig_reason_is_built :
  let c := {| Planner.min_toolchains := Version.default_min_toolchains;
              Planner.checkskipped := false;
              Planner.include := ""; Planner.exclude := "" |} in
  let w := {| Planner.ebfile := "zlib-1.2.12.eb";
              Planner.ebpath := "/home/ec2-user/easybuild-easyconfigs/easybuild/easyconfigs/z/zlib/zlib-1.2.12.eb";
              Planner.now := "2024-05-02T10:00:00+00:00";
              Planner.read_easyconfig :=
                Ret {| Planner.pkg_name := "zlib"; Planner.pkg_version := "1.2.12";
                       Planner.tc_name := "system"; Planner.tc_version := "system";
                       Planner.moduleclass := "lib" |};
              Planner.themissing := Planner.Missing [];
              Planner.themissing2 := Planner.Missing [];
              Planner.eb_run := fun _ => 0;
              Planner.eb_time := fun _ => 60;
              Planner.now_after := fun _ => "2024-05-02T10:01:00+00:00";
              Planner.copy_last_log := fun _ => Ret tt;
              Planner.new_tars := true |} in
  Planner.s3 (snd (Planner.build_one c w (Planner.initial ∅))) !! "zlib-1.2.12.eb"
  = Some {| Planner.status := "success";
            Planner.reason := "easyconfig built successfully";
            Planner.returncode := -1; Planner.errorcount := 0;
            Planner.trydate := "2024-05-02T10:00:00+00:00";
            Planner.buildtime := 0; Planner.modules := None |}
  /\ String.eqb "easyconfig built successfully" "already installed" = false.
Proof. vm_compute. split; reflexivity. Qed.

(** ** Dependencies and the target *)

Lemma update_invoked (k : string) (f : Planner.build_status -> Planner.build_status)
    (st : Planner.state) :
  Planner.invoked (Planner.update k f st) = Planner.invoked st.
Proof. apply update_fields. Qed.

Lemma setdefault_invoked (k : string) (tmpl : nat) (st : Planner.state) :
  Planner.invoked (Planner.setdefault k tmpl st) = Planner.invoked st.
Proof. apply setdefault_fields. Qed.

(** What the body of the loop does for one dependency: [eb] is called
    once; a build that returns zero goes on, a failed one sets [depterr],
    unless the copy of its log raises. *)
Lemma build_dependency_invoked (w : Planner.world) (tmpl : nat) (ebf : string)
    (st : Planner.state) :
  Planner.invoked (snd (Planner.build_dependency w tmpl ebf st))
  = Planner.dependency_command ebf :: Planner.invoked st
  /\ fst (Planner.build_dependency w tmpl ebf st)
     = if negb (Planner.eb_run w (Planner.dependency_command ebf) =? 0)
       then match Planner.copy_last_log w (Planner.dependency_command ebf) with
            | Ret _ => Ret true
            | Raise e => Raise e
            end
       else Ret false.
Proof.
  unfold Planner.build_dependency. cbv zeta.
  destruct (negb (Planner.eb_run w (Planner.dependency_command ebf) =? 0));
    [destruct (Planner.copy_last_log w (Planner.dependency_command ebf))|];
    cbn [fst snd Planner.s3_put_json Planner.invoked Planner.with_store
         Planner.with_counts];
    rewrite ?update_invoked; cbn [Planner.invoked Planner.with_counts];
    rewrite ?update_invoked, setdefault_invoked; split; reflexivity.
Qed.

(** The loop over the dependencies stops at the first one that fails:
    [eb] has been called for the dependencies up to that one, in order, and
    for nothing after it; the loop ends with [depterr] when the log of the
    failed build was copied and with the exception of the copy otherwise.
    Without a failure [eb] has been called for all. *)
Lemma build_dependencies_fail_fast (w : Planner.world) (tmpl : nat)
    (deps : list string) (st : Planner.state) :
  match fst (Planner.build_dependencies w tmpl deps st) with
  | Ret false =>
      Forall (fun d => Planner.eb_run w (Planner.dependency_command d) = 0) deps
      /\ Planner.invoked (snd (Planner.build_dependencies w tmpl deps st))
         = (List.rev (map Planner.dependency_command deps) ++ Planner.invoked st)%list
  | r =>
      exists pre ebf post,
        deps = (pre ++ ebf :: post)%list
        /\ Forall (fun d => Planner.eb_run w (Planner.dependency_command d) = 0) pre
        /\ Planner.eb_run w (Planner.dependency_command ebf) <> 0
        /\ match r with
           | Raise e => Planner.copy_last_log w (Planner.dependency_command ebf) = Raise e
           | Ret _ => Planner.copy_last_log w (Planner.dependency_command ebf) = Ret tt
           end
        /\ Planner.invoked (snd (Planner.build_dependencies w tmpl deps st))
           = (List.rev (map Planner.dependency_command (pre ++ [ebf]))
              ++ Planner.invoked st)%list
  end.
Proof.
  revert st. induction deps as [|d deps IH]; intros st; simpl.
  - split; [constructor | reflexivity].
  - destruct (build_dependency_invoked w tmpl d st) as [Hinv Hfst].
    destruct (Planner.build_dependency w tmpl d st) as [depterr st'] eqn:E.
    simpl in Hinv, Hfst. subst depterr.
    destruct (Planner.eb_run w (Planner.dependency_command d) =? 0) eqn:Hrc; simpl.
    + apply Z.eqb_eq in Hrc. specialize (IH st').
      destruct (fst (Planner.build_dependencies w tmpl deps st')) as [[|]|e].
      * destruct IH as (pre & ebf & post & -> & Hpre & Hebf & Hlog & Hi).
        exists (d :: pre), ebf, post. split; [reflexivity|].
        split; [now constructor|]. split; [exact Hebf|]. split; [exact Hlog|].
        rewrite Hi, Hinv. simpl. rewrite <- !app_assoc. reflexivity.
      * destruct IH as [Hall Hi]. split; [now constructor|].
        rewrite Hi, Hinv. simpl. rewrite <- !app_assoc. reflexivity.
      * destruct IH as (pre & ebf & post & -> & Hpre & Hebf & Hlog & Hi).
        exists (d :: pre), ebf, post. split; [reflexivity|].
        split; [now constructor|]. split; [exact Hebf|]. split; [exact Hlog|].
        rewrite Hi, Hinv. simpl. rewrite <- !app_assoc. reflexivity.
    + apply Z.eqb_neq in Hrc.
      destruct (Planner.copy_last_log w (Planner.dependency_command d)) as [[]|e] eqn:Hlog;
        simpl; exists [], d, deps; (split; [reflexivity|]);
        (split; [apply List.Forall_nil|]); (split; [exact Hrc|]);
        (split; [exact Hlog|]); rewrite Hinv; reflexivity.
Qed.

(** A failed dependency whose log was copied is stored with status error
    and one more error than the record it had (the template when it had
    none). *)
Lemma failed_dependency_counts (w : Planner.world) (tmpl : nat) (ebf : string)
    (st : Planner.state) (r0 : Planner.build_status) :
  Planner.deref (Planner.setdefault ebf tmpl st) ebf = Some r0 ->
  Planner.eb_run w (Planner.dependency_command ebf) <> 0 ->
  Planner.copy_last_log w (Planner.dependency_command ebf) = Ret tt ->
  exists r',
    Planner.s3 (snd (Planner.build_dependency w tmpl ebf st)) !! ebf = Some r'
    /\ Planner.status r' = "error"
    /\ Planner.errorcount r' = Planner.errorcount r0 + 1
    /\ Planner.returncode r' = Planner.eb_run w (Planner.dependency_command ebf).
Proof.
  intros Hr0 Hrc Hlog. unfold Planner.build_dependency. cbv zeta.
  apply Z.eqb_neq in Hrc. rewrite Hrc, Hlog. cbn [negb fst snd].
  rewrite s3_put_json_lookup, !update_deref.
  change (Planner.deref (Planner.with_counts ?c ?s ?b ?e ?p ?x) ebf)
    with (Planner.deref x ebf).
  rewrite !update_deref.
  rewrite setdefault_deref in Hr0 |- *.
  cbn [Planner.statdict Planner.heap Planner.with_invoked].
  rewrite Hr0. simpl. eexists. split; [reflexivity|]. repeat split.
Qed.

(** A failed build of the easyconfig itself whose log was copied is
    stored with status error and the error count it had: this branch does
    not count. *)
Lemma failed_target_does_not_count (w : Planner.world) (st : Planner.state)
    (r0 : Planner.build_status) :
  Planner.deref st (Planner.ebfile w) = Some r0 ->
  Planner.eb_run w (Planner.target_command w) <> 0 ->
  Planner.copy_last_log w (Planner.target_command w) = Ret tt ->
  fst (Planner.build_target w st) = Planner.TargetFailed
  /\ exists r',
       Planner.s3 (snd (Planner.build_target w st)) !! Planner.ebfile w = Some r'
       /\ Planner.status r' = "error"
       /\ Planner.errorcount r' = Planner.errorcount r0
       /\ Planner.returncode r' = Planner.eb_run w (Planner.target_command w).
Proof.
  intros Hr0 Hrc Hlog. unfold Planner.build_target. cbv zeta.
  apply Z.eqb_neq in Hrc. rewrite Hrc, Hlog. cbn [negb fst snd].
  split; [reflexivity|].
  change (Planner.s3 (Planner.s3_get_json ?x)) with (Planner.s3 x).
  rewrite s3_put_json_lookup, !update_deref.
  change (Planner.deref (Planner.with_counts ?c ?s ?b ?e ?p ?x) (Planner.ebfile w))
    with (Planner.deref x (Planner.ebfile w)).
  rewrite !update_deref.
  change (Planner.deref (Planner.with_invoked ?i st) (Planner.ebfile w))
    with (Planner.deref st (Planner.ebfile w)).
  rewrite Hr0. simpl. eexists. split; [reflexivity|]. repeat split.
Qed.

(** Every name of [statdict] holds a record, and so does the template. *)
Lemma update_holds (k : string) (f : Planner.build_status -> Planner.build_status)
    (st : Planner.state) (tmpl : nat) :
  Planner.holds tmpl st -> Planner.holds tmpl (Planner.update k f st).
Proof.
  intros [Ht Hsd]. unfold Planner.update.
  destruct (Planner.statdict st !! k) as [l|] eqn:Hl; [|now split].
  assert (forall l', is_Some (Planner.heap st !! l') ->
                     is_Some (alter f l (Planner.heap st) !! l')) as Hkeep.
  { intros l' [r Hr]. rewrite list_lookup_alter.
    destruct (decide (l = l')) as [->|]; rewrite Hr; simpl; eauto. }
  split; simpl.
  - now apply Hkeep.
  - intros k' l' Hk'. apply Hkeep. now apply (Hsd k').
Qed.

Lemma setdefault_holds (k : string) (st : Planner.state) (tmpl : nat) :
  Planner.holds tmpl st -> Planner.holds tmpl (Planner.setdefault k tmpl st).
Proof.
  intros [Ht Hsd]. unfold Planner.setdefault.
  destruct (Planner.statdict st !! k) as [l|] eqn:Hl; [now split|].
  split; simpl; [exact Ht|].
  intros k' l'. rewrite lookup_insert. destruct (decide (k = k')).
  - intros [= <-]. exact Ht.
  - apply Hsd.
Qed.

Lemma s3_get_json_holds (st : Planner.state) (tmpl : nat) :
  is_Some (Planner.heap st !! tmpl) -> Planner.holds tmpl (Planner.s3_get_json st).
Proof.
  intros [t Ht]. split.
  - exists t. now apply s3_get_json_heap.
  - intros k l Hl.
    destruct (s3_get_json_statdict st k) as [(r & l0 & _ & Hl0 & Hh)|[_ Hnone]].
    + rewrite Hl0 in Hl. injection Hl as <-. eauto.
    + rewrite Hnone in Hl. discriminate.
Qed.

Lemma holds_deref (tmpl : nat) (st : Planner.state) (k : string) :
  Planner.holds tmpl st -> is_Some (Planner.deref (Planner.setdefault k tmpl st) k).
Proof.
  intros [Ht Hsd]. rewrite setdefault_deref.
  destruct (Planner.statdict st !! k) as [l|] eqn:Hl; [now apply (Hsd k) | exact Ht].
Qed.

Lemma build_dependency_holds (w : Planner.world) (tmpl : nat) (ebf : string)
    (st : Planner.state) :
  Planner.holds tmpl st -> Planner.holds tmpl (snd (Planner.build_dependency w tmpl ebf st)).
Proof.
  intros Hst. unfold Planner.build_dependency. cbv zeta.
  assert (Planner.holds tmpl
            (Planner.setdefault ebf tmpl
               (Planner.with_invoked
                  (Planner.dependency_command ebf :: Planner.invoked st) st))) as H0.
  { apply setdefault_holds. exact Hst. }
  destruct (negb _); [destruct (Planner.copy_last_log _ _)|]; cbn [snd];
    repeat (apply update_holds || exact H0).
Qed.

Lemma build_dependencies_stores_failed (w : Planner.world) (tmpl : nat)
    (pre : list string) (ebf : string) (post : list string) (st : Planner.state) :
  Planner.holds tmpl st ->
  Forall (fun d => Planner.eb_run w (Planner.dependency_command d) = 0) pre ->
  Planner.eb_run w (Planner.dependency_command ebf) <> 0 ->
  Planner.copy_last_log w (Planner.dependency_command ebf) = Ret tt ->
  exists r,
    Planner.s3 (snd (Planner.build_dependencies w tmpl (pre ++ ebf :: post) st)) !! ebf
    = Some r
    /\ Planner.status r = "error"
    /\ Planner.returncode r = Planner.eb_run w (Planner.dependency_command ebf).
Proof.
  revert st. induction pre as [|d pre IH]; intros st Hst Hpre Hebf Hlog; simpl.
  - destruct (build_dependency_invoked w tmpl ebf st) as [_ Hfst].
    destruct (holds_deref tmpl st ebf Hst) as [r0 Hr0].
    destruct (failed_dependency_counts w tmpl ebf st r0 Hr0 Hebf Hlog)
      as (r & Hs & Hstat & _ & Hret).
    destruct (Planner.build_dependency w tmpl ebf st) as [depterr st'].
    simpl in Hfst, Hs. subst depterr.
    apply Z.eqb_neq in Hebf. rewrite Hebf, Hlog. simpl. eauto.
  - apply Forall_cons in Hpre as [Hd Hpre].
    pose proof (build_dependency_holds w tmpl d st Hst) as Hst'.
    destruct (build_dependency_invoked w tmpl d st) as [_ Hfst].
    destruct (Planner.build_dependency w tmpl d st) as [depterr st'].
    simpl in Hfst, Hst'. subst depterr. rewrite Hd. simpl.
    now apply IH.
Qed.

(** When the part of a pass after the reload ends on a failed dependency,
    [eb] has been called for the dependencies up to the failed one and for
    nothing else, and the failed dependency is in the store with status
    error. *)
Lemma plan_and_build_dependency_failed (c : Planner.config) (w : Planner.world)
    (tmpl : nat) (st : Planner.state) :
  is_Some (Planner.heap st !! tmpl) ->
  fst (Planner.plan_and_build c w tmpl st) = Planner.DependencyFailed ->
  exists pre ebf post r,
    removelast (Planner.missing_values (Planner.themissing w))
    = (pre ++ ebf :: post)%list
    /\ Forall (fun d => Planner.eb_run w (Planner.dependency_command d) = 0) pre
    /\ Planner.eb_run w (Planner.dependency_command ebf) <> 0
    /\ Planner.invoked (snd (Planner.plan_and_build c w tmpl st))
       = (List.rev (map Planner.dependency_command (pre ++ [ebf]))
          ++ Planner.invoked st)%list
    /\ ~ In (Planner.target_command w)
           (List.rev (map Planner.dependency_command (pre ++ [ebf])))
    /\ Planner.s3 (snd (Planner.plan_and_build c w tmpl st)) !! ebf = Some r
    /\ Planner.status r = "error"
    /\ Planner.returncode r = Planner.eb_run w (Planner.dependency_command ebf).
Proof.
  intros Ht.
  pose proof (setdefault_holds (Planner.ebfile w) (Planner.s3_get_json st) tmpl
                (s3_get_json_holds st tmpl Ht)) as Hholds.
  unfold Planner.plan_and_build. cbv zeta.
  destruct (Planner.read_easyconfig w) as [p|e]; [|discriminate].
  destruct (Version.toolchain_policy _ _ _ _ _) as [[why|]|e]; try discriminate.
  destruct (Planner.class_filter c (Planner.moduleclass p)); [discriminate|].
  destruct (Planner.missing_empty (Planner.themissing w)); [discriminate|].
  destruct (Planner._errors_in_missing _ _); [|discriminate].
  destruct (Planner.doskip _ _ _) as [[|]|e]; try discriminate.
  set (st0 := Planner.with_counts _ _ _ _ _ _).
  assert (Planner.holds tmpl st0) as Hholds0 by exact Hholds.
  assert (Planner.invoked st0 = Planner.invoked st) as Hinv0.
  { subst st0. cbn [Planner.invoked Planner.with_counts].
    now rewrite setdefault_invoked. }
  pose proof (build_dependencies_fail_fast w tmpl
                (removelast (Planner.missing_values (Planner.themissing w))) st0) as Hff.
  destruct (Planner.build_dependencies w tmpl
              (removelast (Planner.missing_values (Planner.themissing w))) st0)
    as [depterr st'] eqn:E.
  simpl in Hff. destruct depterr as [[|]|e]; [| |discriminate].
  - intros _. destruct Hff as (pre & ebf & post & Hdeps & Hpre & Hebf & Hlog & Hinv).
    destruct (build_dependencies_stores_failed w tmpl pre ebf post st0
                Hholds0 Hpre Hebf Hlog) as (r & Hs & Hstat & Hret).
    rewrite <- Hdeps, E in Hs. simpl in Hs.
    exists pre, ebf, post, r. simpl.
    split; [exact Hdeps|]. split; [exact Hpre|]. split; [exact Hebf|].
    split; [rewrite <- Hinv0; exact Hinv|]. split; [|auto].
    intros Hin. apply in_rev in Hin. apply in_map_iff in Hin as (d & Hd & _).
    discriminate Hd.
  - unfold Planner.build_target. cbv zeta.
    destruct (negb _); [destruct (Planner.copy_last_log _ _)|]; discriminate.
Qed.

(** What holds of C6 in general. A pass that ends on a failed dependency
    has called [eb] for the dependencies up to the failed one, in order, and
    for nothing else: no later dependency and not the easyconfig itself; and
    the failed dependency is in the store with status error and its return
    code. *)
Lemma dependency_failure_is_fail_fast (c : Planner.config) (w : Planner.world)
    (st : Planner.state) :
  fst (Planner.build_one c w st) = Planner.DependencyFailed ->
  exists pre ebf post r,
    removelast (Planner.missing_values (Planner.themissing w))
    = (pre ++ ebf :: post)%list
    /\ Forall (fun d => Planner.eb_run w (Planner.dependency_command d) = 0) pre
    /\ Planner.eb_run w (Planner.dependency_command ebf) <> 0
    /\ Planner.invoked (snd (Planner.build_one c w st))
       = (List.rev (map Planner.dependency_command (pre ++ [ebf]))
          ++ Planner.invoked st)%list
    /\ ~ In (Planner.target_command w)
           (List.rev (map Planner.dependency_command (pre ++ [ebf])))
    /\ Planner.s3 (snd (Planner.build_one c w st)) !! ebf = Some r
    /\ Planner.status r = "error"
    /\ Planner.returncode r = Planner.eb_run w (Planner.dependency_command ebf).
Proof.
  unfold Planner.build_one. cbv zeta.
  set (st1 := Planner.with_counts _ _ _ _ _ _).
  assert (is_Some (Planner.heap st1 !! length (Planner.heap st))) as Ht.
  { subst st1. simpl. rewrite template_lookup. eauto. }
  pose proof (plan_and_build_dependency_failed c w (length (Planner.heap st)) st1 Ht)
    as Hplan.
  change (Planner.invoked st1) with (Planner.invoked st) in Hplan.
  destruct (Planner.deref st1 (Planner.ebfile w)) as [r0|]; [|exact Hplan].
  destruct (negb _ || negb _); [discriminate | exact Hplan].
Qed.

(** C6. The chain is abandoned at the first failed dependency and [eb] is
    not called for the easyconfig itself, but its record is not left as it
    was. For an easyconfig and a missing dependency that both have no
    record, [statdict] holds the one template object under both names: when
    the dependency fails, the easyconfig, which had no record, is stored
    with the dependency's record (status error, return code 1, one error),
    and the next pass ignores it although its dependency now builds. *)
Theorem failed_dependency_overwrites_target :
  let c := {| Planner.min_toolchains := Version.default_min_toolchains;
              Planner.checkskipped := false;
              Planner.include := ""; Planner.exclude := "" |} in
  let w := fun ncurses_returncode =>
           {| Planner.ebfile := "SAMtools-1.17-GCC-12.2.0.eb";
              Planner.ebpath := "/home/ec2-user/easybuild-easyconfigs/easybuild/easyconfigs/s/SAMtools/SAMtools-1.17-GCC-12.2.0.eb";
              Planner.now := "2024-05-02T10:00:00+00:00";
              Planner.read_easyconfig :=
                Ret {| Planner.pkg_name := "SAMtools"; Planner.pkg_version := "1.17";
                       Planner.tc_name := "GCC"; Planner.tc_version := "12.2.0";
                       Planner.moduleclass := "bio" |};
              Planner.themissing :=
                Planner.Missing
                  [("ncurses/6.3-GCCcore-12.2.0", "ncurses-6.3-GCCcore-12.2.0.eb");
                   ("SAMtools/1.17-GCC-12.2.0", "SAMtools-1.17-GCC-12.2.0.eb")];
              Planner.themissing2 := Planner.Missing [];
              Planner.eb_run :=
                fun cmd => if String.eqb (Planner.easyconfig cmd)
                                "ncurses-6.3-GCCcore-12.2.0.eb"
                           then ncurses_returncode else 0;
              Planner.eb_time := fun _ => 60;
              Planner.now_after := fun _ => "2024-05-02T10:01:00+00:00";
              Planner.copy_last_log := fun _ => Ret tt;
              Planner.new_tars := true |} in
  let failed := {| Planner.status := "error"; Planner.reason := "n/a";
                   Planner.returncode := 1; Planner.errorcount := 1;
                   Planner.trydate := "2024-05-02T10:01:00+00:00";
                   Planner.buildtime := 60; Planner.modules := None |} in
  let st' := snd (Planner.build_one c (w 1) (Planner.initial ∅)) in
  fst (Planner.build_one c (w 1) (Planner.initial ∅)) = Planner.DependencyFailed
  /\ Planner.invoked st'
     = [{| Planner.robot := false; Planner.ignore_test_failure := false;
           Planner.easyconfig := "ncurses-6.3-GCCcore-12.2.0.eb" |}]
  /\ Planner.s3 st' !! "ncurses-6.3-GCCcore-12.2.0.eb" = Some failed
  /\ Planner.s3 (Planner.initial ∅) !! "SAMtools-1.17-GCC-12.2.0.eb" = None
  /\ Planner.s3 st' !! "SAMtools-1.17-GCC-12.2.0.eb" = Some failed
  /\ fst (Planner.build_one c (w 0) st') = Planner.Ignored
  /\ Planner.invoked (snd (Planner.build_one c (w 0) st')) = Planner.invoked st'.
Proof. vm_compute. repeat split. Qed.

(** With a dependency that has a record of its own, the easyconfig, which
    had none, is stored with the template: status unknown. *)
Example failed_dependency_stores_template :
  let c := {| Planner.min_toolchains := Version.default_min_toolchains;
              Planner.checkskipped := true;
              Planner.include := ""; Planner.exclude := "" |} in
  let w := {| Planner.ebfile := "SAMtools-1.17-GCC-12.2.0.eb";
              Planner.ebpath := "/home/ec2-user/easybuild-easyconfigs/easybuild/easyconfigs/s/SAMtools/SAMtools-1.17-GCC-12.2.0.eb";
              Planner.now := "2024-05-02T10:00:00+00:00";
              Planner.read_easyconfig :=
                Ret {| Planner.pkg_name := "SAMtools"; Planner.pkg_version := "1.17";
                       Planner.tc_name := "GCC"; Planner.tc_version := "12.2.0";
                       Planner.moduleclass := "bio" |};
              Planner.themissing :=
                Planner.Missing
                  [("ncurses/6.3-GCCcore-12.2.0", "ncurses-6.3-GCCcore-12.2.0.eb");
                   ("SAMtools/1.17-GCC-12.2.0", "SAMtools-1.17-GCC-12.2.0.eb")];
              Planner.themissing2 := Planner.Missing [];
              Planner.eb_run := fun _ => 1;
              Planner.eb_time := fun _ => 60;
              Planner.now_after := fun _ => "2024-05-02T10:01:00+00:00";
              Planner.copy_last_log := fun _ => Ret tt;
              Planner.new_tars := true |} in
  let st := Planner.initial
              {[ "ncurses-6.3-GCCcore-12.2.0.eb" :=
                   {| Planner.status := "skipped";
                      Planner.reason := "module class not included via --include option";
                      Planner.returncode := -1; Planner.errorcount := 0;
                      Planner.trydate := "2024-05-01T09:00:00+00:00";
                      Planner.buildtime := 0; Planner.modules := None |} ]} in
  let st' := snd (Planner.build_one c w st) in
  fst (Planner.build_one c w st) = Planner.DependencyFailed
  /\ Planner.s3 st' !! "ncurses-6.3-GCCcore-12.2.0.eb"
     = Some {| Planner.status := "error"; Planner.reason := "n/a";
               Planner.returncode := 1; Planner.errorcount := 1;
               Planner.trydate := "2024-05-02T10:01:00+00:00";
               Planner.buildtime := 60; Planner.modules := None |}
  /\ Planner.s3 st' !! "SAMtools-1.17-GCC-12.2.0.eb"
     = Some (Planner.statdict_template "2024-05-02T10:00:00+00:00").
Proof. vm_compute. repeat split. Qed.

(** C10. A failed build of the easyconfig itself does not count: for an
    easyconfig without a record whose only missing module is itself and
    whose build returns 1, the record stored has status error and
    [errorcount] 0, as the template had. The branch for a failed dependency
    adds one, the branch for the easyconfig does not. *)
Theorem failed_target_errorcount_unchanged :
  let c := {| Planner.min_toolchains := Version.default_min_toolchains;
              Planner.checkskipped := false;
              Planner.include := ""; Planner.exclude := "" |} in
  let w := {| Planner.ebfile := "zlib-1.2.12.eb";
              Planner.ebpath := "/home/ec2-user/easybuild-easyconfigs/easybuild/easyconfigs/z/zlib/zlib-1.2.12.eb";
              Planner.now := "2024-05-02T10:00:00+00:00";
              Planner.read_easyconfig :=
                Ret {| Planner.pkg_name := "zlib"; Planner.pkg_version := "1.2.12";
                       Planner.tc_name := "system"; Planner.tc_version := "system";
                       Planner.moduleclass := "lib" |};
              Planner.themissing := Planner.Missing [("zlib/1.2.12", "zlib-1.2.12.eb")];
              Planner.themissing2 := Planner.Missing [("zlib/1.2.12", "zlib-1.2.12.eb")];
              Planner.eb_run := fun _ => 1;
              Planner.eb_time := fun _ => 60;
              Planner.now_after := fun _ => "2024-05-02T10:01:00+00:00";
              Planner.copy_last_log := fun _ => Ret tt;
              Planner.new_tars := false |} in
  let st' := snd (Planner.build_one c w (Planner.initial ∅)) in
  fst (Planner.build_one c w (Planner.initial ∅)) = Planner.TargetFailed
  /\ Planner.invoked st'
     = [{| Planner.robot := true; Planner.ignore_test_failure := false;
           Planner.easyconfig := Planner.ebpath w |}]
  /\ Planner.errcnt st' = 1
  /\ Planner.s3 st' !! "zlib-1.2.12.eb"
     = Some {| Planner.status := "error"; Planner.reason := "n/a";
               Planner.returncode := 1; Planner.errorcount := 0;
               Planner.trydate := "2024-05-02T10:00:00+00:00";
               Planner.buildtime := 60;
               Planner.modules :=
                 Some (Planner.Missing [("zlib/1.2.12", "zlib-1.2.12.eb")]) |}.
Proof. vm_compute. repeat split. Qed.

(** A second walk over a folder whose easyconfig was built by the first
    one builds nothing: [eb] has been called once, one build is counted and
    one pass is counted as skipped. *)
Example built_once_over_two_walks :
  let c := {| Planner.min_toolchains := Version.default_min_toolchains;
              Planner.checkskipped := true;
              Planner.include := ""; Planner.exclude := "" |} in
  let w := {| Planner.ebfile := "zlib-1.2.12.eb";
              Planner.ebpath := "/home/ec2-user/easybuild-easyconfigs/easybuild/easyconfigs/z/zlib/zlib-1.2.12.eb";
              Planner.now := "2024-05-02T10:00:00+00:00";
              Planner.read_easyconfig :=
                Ret {| Planner.pkg_name := "zlib"; Planner.pkg_version := "1.2.12";
                       Planner.tc_name := "system"; Planner.tc_version := "system";
                       Planner.moduleclass := "lib" |};
              Planner.themissing := Planner.Missing [("zlib/1.2.12", "zlib-1.2.12.eb")];
              Planner.themissing2 := Planner.Missing [];
              Planner.eb_run := fun _ => 0;
              Planner.eb_time := fun _ => 60;
              Planner.now_after := fun _ => "2024-05-02T10:01:00+00:00";
              Planner.copy_last_log := fun _ => Ret tt;
              Planner.new_tars := true |} in
  let st := Planner.build_all_eb c [w; w] ∅ in
  Planner.invoked st = [Planner.target_command w]
  /\ Planner.ebcnt st = 2 /\ Planner.ebskipped st = 1 /\ Planner.bldcnt st = 1
  /\ Planner.status <$> Planner.s3 st !! "zlib-1.2.12.eb" = Some "success".
Proof. vm_compute. repeat split. Qed.

(** A property of the state that the assignments of a pass keep is kept
    by the pass. *)
Section PassInvariant.
Variables (w : Planner.world) (tmpl : nat) (I : Planner.state -> Prop).
Hypothesis I_update : forall k f st, In k (written w) -> I st -> I (Planner.update k f st).
Hypothesis I_setdefault : forall k st, In k (written w) -> I st -> I (Planner.setdefault k tmpl st).
Hypothesis I_put : forall st, I st -> I (Planner.s3_put_json st).
Hypothesis I_get : forall st, I st -> I (Planner.s3_get_json (Planner.s3_put_json st)).
Hypothesis I_counts : forall c s b e p st, I st -> I (Planner.with_counts c s b e p st).
Hypothesis I_invoked : forall i st, I st -> I (Planner.with_invoked i st).

Lemma skip_invariant (why : string) (st : Planner.state) :
  I st -> I (snd (Planner.skip w why st)).
Proof.
  intros H. unfold Planner.skip. cbn [snd].
  apply I_put. do 2 (apply I_update; [now left|]). exact H.
Qed.

Lemma build_dependency_invariant (ebf : string) (st : Planner.state) :
  In ebf (written w) -> I st -> I (snd (Planner.build_dependency w tmpl ebf st)).
Proof.
  intros Hin H. unfold Planner.build_dependency. cbv zeta.
  destruct (negb _); [destruct (Planner.copy_last_log _ _)|]; cbn [snd];
    repeat first [apply I_put | apply I_counts | apply I_update; [exact Hin|]
                 | apply I_setdefault; [exact Hin|] | apply I_invoked | exact H].
Qed.

Lemma build_dependencies_invariant (deps : list string) (st : Planner.state) :
  (forall d, In d deps -> In d (written w)) -> I st ->
  I (snd (Planner.build_dependencies w tmpl deps st)).
Proof.
  revert st. induction deps as [|d deps IH]; intros st Hin H; simpl; [exact H|].
  pose proof (build_dependency_invariant d st (Hin d (or_introl eq_refl)) H) as H'.
  destruct (Planner.build_dependency w tmpl d st) as [[[|]|e] st']; simpl in *;
    [exact H'| |exact H'].
  apply IH; [|exact H']. intros d' Hd'. apply Hin. now right.
Qed.

Lemma build_target_invariant (st : Planner.state) :
  I st -> I (snd (Planner.build_target w st)).
Proof.
  intros H. unfold Planner.build_target. cbv zeta.
  destruct (negb _); [destruct (Planner.copy_last_log _ _)|destruct (Planner.new_tars w)];
    cbn [snd]; try apply I_get;
    repeat first [apply I_counts | apply I_update; [now left|] | apply I_invoked | exact H].
Qed.

Lemma plan_and_build_invariant (c : Planner.config) (st : Planner.state) :
  I (Planner.setdefault (Planner.ebfile w) tmpl (Planner.s3_get_json st)) ->
  I (snd (Planner.plan_and_build c w tmpl st)).
Proof.
  intros H. unfold Planner.plan_and_build. cbv zeta.
  destruct (Planner.read_easyconfig w) as [p|e]; [|exact H].
  destruct (Version.toolchain_policy _ _ _ _ _) as [[why|]|e];
    [now apply skip_invariant| |exact H].
  destruct (Planner.class_filter c (Planner.moduleclass p));
    [now apply skip_invariant|].
  destruct (Planner.missing_empty (Planner.themissing w)).
  { cbn [snd]. apply I_put. do 2 (apply I_update; [now left|]). exact H. }
  destruct (Planner._errors_in_missing _ _); [|now apply skip_invariant].
  destruct (Planner.doskip _ _ _) as [[|]|e]; [now apply skip_invariant| |exact H].
  match goal with
  | |- context [Planner.build_dependencies w tmpl ?deps ?st0] =>
      pose proof (build_dependencies_invariant deps st0) as Hd;
      destruct (Planner.build_dependencies w tmpl deps st0) as [[[|]|e] st'] eqn:E
  end; cbn [snd] in *.
  - apply Hd; [intros d Hd'; now right | now apply I_counts].
  - apply build_target_invariant.
    apply Hd; [intros d Hd'; now right | now apply I_counts].
  - apply Hd; [intros d Hd'; now right | now apply I_counts].
Qed.

End PassInvariant.

Lemma counted_deref (w : Planner.world) (st : Planner.state) (k : string)
    (r : Planner.build_status) :
  Planner.deref st k = Some r -> Planner.deref (counted w st) k = Some r.
Proof.
  unfold Planner.deref, counted. simpl.
  destruct (Planner.statdict st !! k); [|discriminate]. apply lookup_app_l_Some.
Qed.

Lemma counted_template (w : Planner.world) (st : Planner.state) :
  Planner.heap (counted w st) !! length (Planner.heap st)
  = Some (Planner.statdict_template (Planner.now w)).
Proof. unfold counted. simpl. apply template_lookup. Qed.

(** A pass is either ignored at its first check or goes on with the
    reload of the store. *)
Lemma build_one_cases (c : Planner.config) (w : Planner.world) (st : Planner.state) :
  Planner.build_one c w st = (Planner.Ignored, counted w st)
  \/ Planner.build_one c w st
     = Planner.plan_and_build c w (length (Planner.heap st)) (counted w st).
Proof.
  unfold Planner.build_one. cbv zeta. change (Planner.with_counts _ _ _ _ _ _) with (counted w st).
  destruct (Planner.deref (counted w st) (Planner.ebfile w)) as [r|]; [|now right].
  destruct (negb _ || negb _); [now left | now right].
Qed.

Lemma build_one_attempted (c : Planner.config) (w : Planner.world) (st : Planner.state) :
  attempted c w st ->
  Planner.build_one c w st
  = Planner.plan_and_build c w (length (Planner.heap st)) (counted w st).
Proof.
  intros Ha. unfold Planner.build_one. cbv zeta.
  change (Planner.with_counts _ _ _ _ _ _) with (counted w st).
  destruct Ha as [Hnone|(r & Hr & Hs & Hc)].
  - unfold Planner.deref, counted. simpl. now rewrite Hnone.
  - rewrite (counted_deref w st _ r Hr), Hs, Hc. reflexivity.
Qed.

(** *** A record that is there stays there *)

Lemma live_update (k k' : string) (f : Planner.build_status -> Planner.build_status)
    (st : Planner.state) :
  live k st -> live k (Planner.update k' f st).
Proof.
  unfold live, Planner.deref, Planner.update.
  destruct (Planner.statdict st !! k') as [l'|]; [|auto]. simpl.
  destruct (Planner.statdict st !! k) as [l|]; [|auto].
  intros [r Hr]. rewrite list_lookup_alter.
  destruct (decide (l' = l)) as [->|]; rewrite Hr; simpl; eauto.
Qed.

Lemma live_setdefault (k k' : string) (tmpl : nat) (st : Planner.state) :
  live k st -> live k (Planner.setdefault k' tmpl st).
Proof.
  unfold live, Planner.deref, Planner.setdefault.
  destruct (Planner.statdict st !! k') as [l'|] eqn:Hk'; [auto|]. simpl.
  destruct (decide (k' = k)) as [->|Hne].
  - rewrite Hk'. intros [r Hr]. discriminate.
  - now rewrite lookup_insert_ne.
Qed.

Lemma live_get_put (k : string) (st : Planner.state) :
  live k st -> live k (Planner.s3_get_json (Planner.s3_put_json st)).
Proof. unfold live. now rewrite s3_get_json_deref, s3_put_json_lookup. Qed.

Lemma kept_update (k k' : string) (f : Planner.build_status -> Planner.build_status)
    (st : Planner.state) :
  kept k st -> kept k (Planner.update k' f st).
Proof.
  intros [H1 H2]. split; [now apply live_update|].
  now rewrite (proj1 (update_fields k' f st)).
Qed.

Lemma kept_setdefault (k k' : string) (tmpl : nat) (st : Planner.state) :
  kept k st -> kept k (Planner.setdefault k' tmpl st).
Proof.
  intros [H1 H2]. split; [now apply live_setdefault|].
  now rewrite (proj1 (setdefault_fields k' tmpl st)).
Qed.

Lemma kept_put (k : string) (st : Planner.state) :
  kept k st -> kept k (Planner.s3_put_json st).
Proof. intros [H1 H2]. split; [exact H1|]. now rewrite s3_put_json_lookup. Qed.

Lemma kept_get_put (k : string) (st : Planner.state) :
  kept k st -> kept k (Planner.s3_get_json (Planner.s3_put_json st)).
Proof.
  intros [H1 H2]. split; [now apply live_get_put|].
  change (Planner.s3 (Planner.s3_get_json ?x)) with (Planner.s3 x).
  now rewrite s3_put_json_lookup.
Qed.

(** X1. A pass never removes a record from the store: an easyconfig that
    has a record in [eb-build-status.json] before the pass has one after
    it, whatever the pass does. *)
Theorem pass_never_loses_a_record (c : Planner.config) (w : Planner.world)
    (st : Planner.state) (k : string) :
  is_Some (Planner.s3 st !! k) ->
  is_Some (Planner.s3 (snd (Planner.build_one c w st)) !! k).
Proof.
  intros Hk. destruct (build_one_cases c w st) as [-> | ->]; [exact Hk|].
  apply (plan_and_build_invariant w (length (Planner.heap st)) (kept k)).
  - intros k' f st' _. apply kept_update.
  - intros k' st' _. apply kept_setdefault.
  - apply kept_put.
  - apply kept_get_put.
  - auto.
  - auto.
  - apply kept_setdefault. split; [|exact Hk].
    unfold live. rewrite s3_get_json_deref. exact Hk.
Qed.

(** After a pass [statdict] holds a record for the easyconfig of the
    pass. *)
Lemma build_one_leaves_record (c : Planner.config) (w : Planner.world)
    (st : Planner.state) :
  is_Some (Planner.deref (snd (Planner.build_one c w st)) (Planner.ebfile w)).
Proof.
  unfold Planner.build_one. cbv zeta.
  change (Planner.with_counts _ _ _ _ _ _) with (counted w st).
  assert (live (Planner.ebfile w)
            (snd (Planner.plan_and_build c w (length (Planner.heap st)) (counted w st))))
    as Hplan.
  { apply (plan_and_build_invariant w (length (Planner.heap st)) (live (Planner.ebfile w))).
    - intros k' f st' _. apply live_update.
    - intros k' st' _. apply live_setdefault.
    - auto.
    - apply live_get_put.
    - auto.
    - auto.
    - apply holds_deref, s3_get_json_holds. rewrite counted_template. eauto. }
  destruct (Planner.deref (counted w st) (Planner.ebfile w)) as [r|] eqn:Hr; [|exact Hplan].
  destruct (negb _ || negb _); [|exact Hplan].
  simpl. rewrite Hr. eauto.
Qed.

(** X10. Without [--check-skipped] no easyconfig is looked at twice in a
    run: after a pass for a file name, whatever its outcome, a later pass
    for the same file name (the same folder again, or another folder whose
    newest easyconfig has that name) is ignored; it calls [eb] for nothing
    and leaves the store as it is. *)
Theorem no_second_attempt_in_a_run (c : Planner.config) (w w' : Planner.world)
    (st : Planner.state) :
  Planner.checkskipped c = false ->
  Planner.ebfile w' = Planner.ebfile w ->
  let st' := snd (Planner.build_one c w st) in
  fst (Planner.build_one c w' st') = Planner.Ignored
  /\ Planner.s3 (snd (Planner.build_one c w' st')) = Planner.s3 st'
  /\ Planner.invoked (snd (Planner.build_one c w' st')) = Planner.invoked st'.
Proof.
  intros Hc Hw st'.
  destruct (build_one_leaves_record c w st) as [r Hr]. fold st' in Hr.
  rewrite <- Hw in Hr.
  destruct (build_one_ignores c w' st' r Hr (or_intror Hc)) as (E1 & E2 & E3 & _).
  auto.
Qed.

(** [s3_get_json] gives every name an object of its own, made after all
    the objects there were. *)
Lemma s3_get_json_fresh (st : Planner.state) (k : string) (l : nat) :
  Planner.statdict (Planner.s3_get_json st) !! k = Some l ->
  (length (Planner.heap st) <= l)%nat
  /\ forall k', Planner.statdict (Planner.s3_get_json st) !! k' = Some l -> k' = k.
Proof.
  unfold Planner.s3_get_json. simpl.
  set (kvs := map_to_list (Planner.s3 st)).
  set (n := length (Planner.heap st)).
  assert (length kvs.*1 = length (seq n (length kvs))) as Hlen
    by (rewrite length_fmap, length_seq; lia).
  assert (NoDup (zip kvs.*1 (seq n (length kvs))).*1) as Hnd.
  { rewrite fst_zip; [apply NoDup_fst_map_to_list | lia]. }
  assert (forall k0 l0,
            (list_to_map (zip kvs.*1 (seq n (length kvs))) : gmap string nat) !! k0 = Some l0 ->
            exists i, kvs.*1 !! i = Some k0 /\ l0 = (n + i)%nat) as Hidx.
  { intros k0 l0 H0. apply elem_of_list_to_map in H0; [|exact Hnd].
    apply list_elem_of_lookup in H0 as [i Hi].
    apply lookup_zip_Some in Hi as [Hi1 Hi2]. exists i. split; [exact Hi1|].
    apply lookup_seq in Hi2 as [-> _]. reflexivity. }
  intros Hk. destruct (Hidx _ _ Hk) as (i & Hi & ->). split; [lia|].
  intros k' Hk'. destruct (Hidx _ _ Hk') as (i' & Hi' & Heq).
  assert (i' = i) as -> by lia. congruence.
Qed.

Lemma apart_reload (tmpl : nat) (k : string) (st : Planner.state) :
  (tmpl < length (Planner.heap st))%nat ->
  apart tmpl k (Planner.s3 st !! k) (Planner.s3_get_json st).
Proof.
  intros Ht. split; [|split; [|split]].
  - unfold Planner.s3_get_json. simpl. rewrite length_app. lia.
  - reflexivity.
  - apply s3_get_json_deref.
  - intros l Hl. destruct (s3_get_json_fresh st k l Hl) as [Hge Hinj].
    split; [lia | exact Hinj].
Qed.

Lemma apart_update (tmpl : nat) (k k' : string) (orig : option Planner.build_status)
    (f : Planner.build_status -> Planner.build_status) (st : Planner.state) :
  k' <> k -> apart tmpl k orig st -> apart tmpl k orig (Planner.update k' f st).
Proof.
  intros Hne (Ht & Hs & Hd & Ha). unfold Planner.update.
  destruct (Planner.statdict st !! k') as [l'|] eqn:Hk'; [|repeat split; auto; apply Ha; auto].
  split; [|split; [|split]]; simpl.
  - now rewrite length_alter.
  - exact Hs.
  - unfold Planner.deref in *. simpl.
    destruct (Planner.statdict st !! k) as [l|] eqn:Hk; [|exact Hd].
    rewrite list_lookup_alter_ne; [exact Hd|].
    intros ->. apply Hne. now apply (proj2 (Ha l eq_refl)).
  - exact Ha.
Qed.

Lemma apart_setdefault (tmpl : nat) (k k' : string) (orig : option Planner.build_status)
    (st : Planner.state) :
  k' <> k -> apart tmpl k orig st -> apart tmpl k orig (Planner.setdefault k' tmpl st).
Proof.
  intros Hne (Ht & Hs & Hd & Ha). unfold Planner.setdefault.
  destruct (Planner.statdict st !! k') as [l'|] eqn:Hk'; [repeat split; auto; apply Ha; auto|].
  split; [|split; [|split]]; simpl.
  - exact Ht.
  - exact Hs.
  - unfold Planner.deref in *. simpl. now rewrite lookup_insert_ne.
  - intros l. rewrite lookup_insert_ne by exact Hne. intros Hl.
    destruct (Ha l Hl) as [Hlt Hinj]. split; [exact Hlt|].
    intros k''. rewrite lookup_insert. destruct (decide (k' = k'')).
    + intros [= ->]. now contradiction Hlt.
    + apply Hinj.
Qed.

Lemma apart_put (tmpl : nat) (k : string) (orig : option Planner.build_status)
    (st : Planner.state) :
  apart tmpl k orig st -> apart tmpl k orig (Planner.s3_put_json st).
Proof.
  intros (Ht & Hs & Hd & Ha). split; [exact Ht|]. split; [|split; [exact Hd | exact Ha]].
  now rewrite s3_put_json_lookup.
Qed.

Lemma apart_get_put (tmpl : nat) (k : string) (orig : option Planner.build_status)
    (st : Planner.state) :
  apart tmpl k orig st ->
  apart tmpl k orig (Planner.s3_get_json (Planner.s3_put_json st)).
Proof.
  intros H. pose proof (apart_put _ _ _ _ H) as (Ht & Hs & _).
  rewrite <- Hs. now apply apart_reload.
Qed.

(** X2. A pass changes no record of the store but those of its easyconfig
    and of the dependencies listed for it: every other record of
    [eb-build-status.json] is after the pass what it was before, although
    the records the pass writes may be one shared object. *)
Theorem pass_changes_only_its_records (c : Planner.config) (w : Planner.world)
    (st : Planner.state) (k : string) :
  ~ In k (written w) ->
  Planner.s3 (snd (Planner.build_one c w st)) !! k = Planner.s3 st !! k.
Proof.
  intros Hk. destruct (build_one_cases c w st) as [-> | ->]; [reflexivity|].
  assert (forall k', In k' (written w) -> k' <> k) as Hne by (intros k' H ->; auto).
  apply (plan_and_build_invariant w (length (Planner.heap st))
           (apart (length (Planner.heap st)) k (Planner.s3 st !! k))).
  - intros k' f st' Hin. apply apart_update. auto.
  - intros k' st' Hin. apply apart_setdefault. auto.
  - apply apart_put.
  - apply apart_get_put.
  - auto.
  - auto.
  - apply apart_setdefault; [apply Hne; now left|].
    apply (apart_reload _ k (counted w st)).
    unfold counted. simpl. rewrite length_app. simpl. lia.
Qed.

Lemma skip_invoked (w : Planner.world) (why : string) (st : Planner.state) :
  Planner.invoked (snd (Planner.skip w why st)) = Planner.invoked st.
Proof.
  unfold Planner.skip, Planner.s3_put_json. cbn [snd Planner.invoked Planner.with_store].
  now rewrite !update_invoked.
Qed.

Lemma build_target_invoked (w : Planner.world) (st : Planner.state) :
  Planner.invoked (snd (Planner.build_target w st))
  = Planner.target_command w :: Planner.invoked st
  /\ fst (Planner.build_target w st)
     = if Planner.eb_run w (Planner.target_command w) =? 0
       then Planner.TargetBuilt
       else match Planner.copy_last_log w (Planner.target_command w) with
            | Ret _ => Planner.TargetFailed
            | Raise e => Planner.Abandoned e
            end.
Proof.
  unfold Planner.build_target. cbv zeta.
  destruct (Planner.eb_run w (Planner.target_command w) =? 0);
    [destruct (Planner.new_tars w)
    |destruct (Planner.copy_last_log w (Planner.target_command w))];
    cbn [negb fst snd Planner.s3_get_json Planner.s3_put_json Planner.invoked
         Planner.with_store Planner.with_counts];
    rewrite ?update_invoked; cbn [Planner.invoked Planner.with_counts];
    rewrite ?update_invoked; split; reflexivity.
Qed.

(** X3. The calls of [eb] a pass makes, by the way the pass ends. A pass
    that is ignored, skipped, or finds nothing missing calls [eb] for
    nothing. Otherwise [eb] is called for the dependencies one by one in
    the order they are listed, up to the first that returns a non-zero
    code; only when all of them returned zero is it called for the
    easyconfig itself, once and last. A pass abandoned on an exception has
    called [eb] for nothing, or it has made these calls and was abandoned
    because the log of a failed build, the last call, could not be
    copied; the other ways to end after a failed build are ways to end
    with the log copied. *)
Theorem eb_calls_follow_the_plan (c : Planner.config) (w : Planner.world)
    (st : Planner.state) :
  let ok := fun d => Planner.eb_run w (Planner.dependency_command d) = 0 in
  let st' := snd (Planner.build_one c w st) in
  let to_failed_dependency := fun log =>
    exists pre ebf post,
      dependencies w = (pre ++ ebf :: post)%list /\ Forall ok pre /\ ~ ok ebf
      /\ Planner.copy_last_log w (Planner.dependency_command ebf) = log
      /\ Planner.invoked st'
         = (List.rev (map Planner.dependency_command (pre ++ [ebf]))
            ++ Planner.invoked st)%list in
  let to_target :=
    Forall ok (dependencies w)
    /\ Planner.invoked st'
       = (Planner.target_command w
          :: List.rev (map Planner.dependency_command (dependencies w))
          ++ Planner.invoked st)%list in
  match fst (Planner.build_one c w st) with
  | Planner.Ignored | Planner.Skipped | Planner.AlreadyInstalled =>
      Planner.invoked st' = Planner.invoked st
  | Planner.Abandoned e =>
      Planner.invoked st' = Planner.invoked st
      \/ to_failed_dependency (Raise e)
      \/ (to_target
          /\ Planner.eb_run w (Planner.target_command w) <> 0
          /\ Planner.copy_last_log w (Planner.target_command w) = Raise e)
  | Planner.DependencyFailed => to_failed_dependency (Ret tt)
  | Planner.TargetFailed =>
      to_target
      /\ Planner.eb_run w (Planner.target_command w) <> 0
      /\ Planner.copy_last_log w (Planner.target_command w) = Ret tt
  | Planner.TargetBuilt =>
      to_target /\ Planner.eb_run w (Planner.target_command w) = 0
  end.
Proof.
  intros ok st' to_failed_dependency to_target.
  subst st' to_failed_dependency to_target. cbv beta.
  destruct (build_one_cases c w st) as [-> | ->]; [reflexivity|].
  change (Planner.invoked st) with (Planner.invoked (counted w st)).
  generalize (counted w st) (length (Planner.heap st)). clear st. intros st tmpl.
  unfold Planner.plan_and_build. cbv zeta.
  assert (Planner.invoked (Planner.setdefault (Planner.ebfile w) tmpl (Planner.s3_get_json st))
          = Planner.invoked st) as Hinv0 by now rewrite setdefault_invoked.
  destruct (Planner.read_easyconfig w) as [p|e]; [|left; exact Hinv0].
  destruct (Version.toolchain_policy _ _ _ _ _) as [[why|]|e];
    [cbn [fst]; now rewrite skip_invoked| |left; exact Hinv0].
  destruct (Planner.class_filter c (Planner.moduleclass p));
    [cbn [fst]; now rewrite skip_invoked|].
  destruct (Planner.missing_empty (Planner.themissing w)).
  { cbn [fst snd Planner.s3_put_json Planner.invoked Planner.with_store].
    now rewrite !update_invoked. }
  destruct (Planner._errors_in_missing _ _); [|cbn [fst]; now rewrite skip_invoked].
  destruct (Planner.doskip _ _ _) as [[|]|e];
    [cbn [fst]; now rewrite skip_invoked| |left; exact Hinv0].
  fold (dependencies w).
  match goal with
  | |- context [Planner.build_dependencies w tmpl _ ?st0] =>
      pose proof (build_dependencies_fail_fast w tmpl (dependencies w) st0) as Hff;
      change (Planner.invoked st0) with
        (Planner.invoked (Planner.setdefault (Planner.ebfile w) tmpl (Planner.s3_get_json st)))
        in Hff;
      destruct (Planner.build_dependencies w tmpl (dependencies w) st0) as [depterr st1]
  end.
  rewrite Hinv0 in Hff. cbn [fst snd] in Hff. destruct depterr as [[|]|e]; cbn [fst snd].
  - destruct Hff as (pre & ebf & post & Hdeps & Hpre & Hebf & Hlog & Hinv).
    exists pre, ebf, post. auto.
  - destruct Hff as [Hall Hinv].
    destruct (build_target_invoked w st1) as [Hti Htf]. rewrite Htf, Hti, Hinv.
    destruct (Planner.eb_run w (Planner.target_command w) =? 0) eqn:Hrc.
    + apply Z.eqb_eq in Hrc. auto.
    + apply Z.eqb_neq in Hrc.
      destruct (Planner.copy_last_log w (Planner.target_command w)) as [[]|e]; auto 6.
  - right. left. destruct Hff as (pre & ebf & post & Hdeps & Hpre & Hebf & Hlog & Hinv).
    exists pre, ebf, post. auto.
Qed.

Lemma reloaded_deref (w : Planner.world) (st : Planner.state) :
  Planner.deref (reloaded w st) (Planner.ebfile w) = Some (record_before w st).
Proof.
  unfold reloaded, record_before.
  now rewrite (reload_default_deref w _ (counted w st) _ (counted_template w st)).
Qed.

Lemma setdefault_deref_ne (k k' : string) (tmpl : nat) (st : Planner.state) :
  k <> k' -> Planner.deref (Planner.setdefault k' tmpl st) k = Planner.deref st k.
Proof.
  intros Hne. unfold Planner.setdefault, Planner.deref.
  destruct (Planner.statdict st !! k'); [reflexivity|]. simpl.
  now rewrite lookup_insert_ne.
Qed.

Lemma reloaded_deref_ne (w : Planner.world) (st : Planner.state) (k : string) :
  k <> Planner.ebfile w -> Planner.deref (reloaded w st) k = Planner.s3 st !! k.
Proof.
  intros Hne. unfold reloaded. rewrite setdefault_deref_ne by exact Hne.
  now rewrite s3_get_json_deref.
Qed.

Lemma reloaded_fields (w : Planner.world) (st : Planner.state) :
  Planner.s3 (reloaded w st) = Planner.s3 st
  /\ Planner.invoked (reloaded w st) = Planner.invoked st
  /\ Planner.ebskipped (reloaded w st) = Planner.ebskipped st + 1
  /\ Planner.ebcnt (reloaded w st) = Planner.ebcnt st + 1.
Proof.
  unfold reloaded.
  destruct (setdefault_fields (Planner.ebfile w) (length (Planner.heap st))
              (Planner.s3_get_json (counted w st))) as (-> & -> & _ & -> & ->).
  repeat split.
Qed.

(** What a decision to skip leaves: the record of the easyconfig with
    status skipped and the reason, in the store; no call of [eb]; the pass
    counted as skipped. *)
Lemma skip_reloaded (w : Planner.world) (why : string) (st : Planner.state) :
  fst (Planner.skip w why (reloaded w st)) = Planner.Skipped
  /\ Planner.s3 (snd (Planner.skip w why (reloaded w st))) !! Planner.ebfile w
     = Some (Planner.set_reason why (Planner.set_status "skipped" (record_before w st)))
  /\ Planner.invoked (snd (Planner.skip w why (reloaded w st))) = Planner.invoked st
  /\ Planner.ebskipped (snd (Planner.skip w why (reloaded w st))) = Planner.ebskipped st + 1.
Proof.
  split; [reflexivity|]. split; [|split].
  - unfold Planner.skip. cbn [snd].
    now rewrite s3_put_json_lookup, !update_deref, reloaded_deref.
  - rewrite skip_invoked. apply reloaded_fields.
  - unfold Planner.skip, Planner.s3_put_json. cbn [snd Planner.ebskipped Planner.with_store].
    rewrite !(proj1 (proj2 (proj2 (proj2 (update_fields _ _ _))))).
    apply reloaded_fields.
Qed.

(** X4. An easyconfig the toolchain checks or the module class options
    reject is recorded and not built: its record goes to the store with
    status skipped and the reason of the check, the other fields as they
    were (or as the template has them), [eb] is called for nothing and the
    pass counts as skipped. *)
Theorem rejected_easyconfig_is_recorded (c : Planner.config) (w : Planner.world)
    (st : Planner.state) (p : Planner.package) (why : string) :
  attempted c w st ->
  Planner.read_easyconfig w = Ret p ->
  Version.toolchain_policy (Planner.min_toolchains c) (Planner.pkg_name p)
    (Planner.pkg_version p) (Planner.tc_name p) (Planner.tc_version p)
  = Ret (Version.Skip why)
  \/ (Version.toolchain_policy (Planner.min_toolchains c) (Planner.pkg_name p)
        (Planner.pkg_version p) (Planner.tc_name p) (Planner.tc_version p)
      = Ret Version.Eligible
      /\ Planner.class_filter c (Planner.moduleclass p) = Some why) ->
  let st' := snd (Planner.build_one c w st) in
  fst (Planner.build_one c w st) = Planner.Skipped
  /\ Planner.s3 st' !! Planner.ebfile w
     = Some (Planner.set_reason why (Planner.set_status "skipped" (record_before w st)))
  /\ Planner.invoked st' = Planner.invoked st
  /\ Planner.ebskipped st' = Planner.ebskipped st + 1.
Proof.
  intros Ha Hread Hrej st'. subst st'. rewrite (build_one_attempted c w st Ha).
  unfold Planner.plan_and_build. cbv zeta. fold (reloaded w st). rewrite Hread.
  destruct Hrej as [-> | [-> ->]]; apply skip_reloaded.
Qed.

(** The easyconfigs listed as missing that have a record with status
    error, after the reload: those the store has with that status. *)
Lemma errors_in_missing_reloaded (w : Planner.world) (st : Planner.state)
    (m : Planner.missing) :
  Planner._errors_in_missing m (reloaded w st)
  = List.filter (fun ebf => match Planner.s3 st !! ebf with
                            | Some r => String.eqb (Planner.status r) "error"
                            | None => false
                            end) (Planner.missing_values m).
Proof.
  unfold Planner._errors_in_missing.
  apply filter_ext_in. intros ebf _.
  destruct (decide (ebf = Planner.ebfile w)) as [->|Hne].
  - rewrite reloaded_deref. unfold record_before.
    destruct (Planner.s3 st !! Planner.ebfile w); reflexivity.
  - now rewrite reloaded_deref_ne.
Qed.

Lemma errors_in_missing_none (w : Planner.world) (st : Planner.state)
    (m : Planner.missing) :
  (forall ebf r, In ebf (Planner.missing_values m) -> Planner.s3 st !! ebf = Some r ->
                 Planner.status r <> "error") ->
  Planner._errors_in_missing m (reloaded w st) = [].
Proof.
  rewrite errors_in_missing_reloaded.
  induction (Planner.missing_values m) as [|e es IH]; intros Herr; [reflexivity|]. simpl.
  destruct (Planner.s3 st !! e) as [r|] eqn:Hr.
  - destruct (String.eqb_spec (Planner.status r) "error") as [Hs|_].
    + exfalso. exact (Herr e r (or_introl eq_refl) Hr Hs).
    + apply IH. intros ebf r' Hin. apply Herr. now right.
  - apply IH. intros ebf r' Hin. apply Herr. now right.
Qed.

(** X5. An easyconfig that needs a module whose easyconfig is in the store
    with status error is not built: it is stored as skipped with reason
    [dependencies have errors], and [eb] is called neither for it nor for
    any of its dependencies. *)
Theorem failed_dependency_blocks_the_build (c : Planner.config) (w : Planner.world)
    (st : Planner.state) (p : Planner.package) (ebf : string)
    (r : Planner.build_status) :
  attempted c w st ->
  Planner.read_easyconfig w = Ret p ->
  Version.toolchain_policy (Planner.min_toolchains c) (Planner.pkg_name p)
    (Planner.pkg_version p) (Planner.tc_name p) (Planner.tc_version p)
  = Ret Version.Eligible ->
  Planner.class_filter c (Planner.moduleclass p) = None ->
  In ebf (Planner.missing_values (Planner.themissing w)) ->
  Planner.s3 st !! ebf = Some r ->
  Planner.status r = "error" ->
  let st' := snd (Planner.build_one c w st) in
  fst (Planner.build_one c w st) = Planner.Skipped
  /\ Planner.s3 st' !! Planner.ebfile w
     = Some (Planner.set_reason "dependencies have errors"
               (Planner.set_status "skipped" (record_before w st)))
  /\ Planner.invoked st' = Planner.invoked st
  /\ Planner.ebskipped st' = Planner.ebskipped st + 1.
Proof.
  intros Ha Hread Hpol Hcls Hin Hr Hs st'. subst st'.
  rewrite (build_one_attempted c w st Ha).
  unfold Planner.plan_and_build. cbv zeta. fold (reloaded w st).
  rewrite Hread, Hpol, Hcls.
  assert (Planner.missing_empty (Planner.themissing w) = false) as ->.
  { destruct (Planner.themissing w) as [|[|? ?]]; try reflexivity. destruct Hin. }
  rewrite errors_in_missing_reloaded.
  destruct (List.filter _ _) as [|e es] eqn:Hf; [|apply skip_reloaded].
  exfalso. assert (In ebf []) as []. rewrite <- Hf.
  apply filter_In. split; [exact Hin|]. now rewrite Hr, Hs.
Qed.

(** X7. A pass that ends on an exception raised before the builds (an
    easyconfig that cannot be read, a comparison of versions that raises, a
    module name with two slashes) writes nothing to the store and calls
    [eb] for nothing; it is counted as tried and as skipped. The record
    stays in [statdict] only. The one other exception of a pass is that of
    the copy of a log after a failed build. *)
Theorem abandoned_pass_stores_nothing (c : Planner.config) (w : Planner.world)
    (st : Planner.state) (e : exn) :
  fst (Planner.build_one c w st) = Planner.Abandoned e ->
  (forall cmd, Planner.copy_last_log w cmd <> Raise e) ->
  let st' := snd (Planner.build_one c w st) in
  Planner.s3 st' = Planner.s3 st
  /\ Planner.invoked st' = Planner.invoked st
  /\ Planner.ebcnt st' = Planner.ebcnt st + 1
  /\ Planner.ebskipped st' = Planner.ebskipped st + 1
  /\ Planner.deref st' (Planner.ebfile w) = Some (record_before w st).
Proof.
  intros Hfst Hlog st'. subst st'. revert Hfst.
  destruct (build_one_cases c w st) as [-> | ->]; [discriminate|].
  unfold Planner.plan_and_build. cbv zeta. fold (reloaded w st).
  pose proof (reloaded_fields w st) as (F1 & F2 & F3 & F4).
  pose proof (reloaded_deref w st) as F5.
  destruct (Planner.read_easyconfig w) as [p|e0]; [|intros _; simpl; auto].
  destruct (Version.toolchain_policy _ _ _ _ _) as [[why|]|e0];
    [discriminate| |intros _; simpl; auto].
  destruct (Planner.class_filter c (Planner.moduleclass p)); [discriminate|].
  destruct (Planner.missing_empty (Planner.themissing w)); [discriminate|].
  destruct (Planner._errors_in_missing _ _); [|discriminate].
  destruct (Planner.doskip _ _ _) as [[|]|e0]; [discriminate| |intros _; simpl; auto].
  match goal with
  | |- context [Planner.build_dependencies w ?tmpl ?deps ?st0] =>
      pose proof (build_dependencies_fail_fast w tmpl deps st0) as Hff;
      destruct (Planner.build_dependencies w tmpl deps st0) as [[[|]|e0] st1]
  end; cbn [fst snd] in *; [discriminate| |].
  - destruct (build_target_invoked w st1) as [_ ->].
    destruct (Planner.eb_run w (Planner.target_command w) =? 0); [discriminate|].
    destruct (Planner.copy_last_log w (Planner.target_command w)) as [[]|e0] eqn:El;
      [discriminate|].
    intros [= ->]. destruct (Hlog _ El).
  - intros [= ->]. destruct Hff as (pre & ebf & post & _ & _ & _ & El & _).
    destruct (Hlog _ El).
Qed.

Lemma doskip_none_old (c : Planner.config) (keys : list string) (acc : bool) :
  Forall (fun m => Planner.too_old c m = Ret false) keys ->
  Planner.doskip c keys acc = Ret acc.
Proof.
  intros H. revert acc. induction H as [|m keys Hm _ IH]; intros acc; simpl.
  - reflexivity.
  - rewrite Hm. simpl. rewrite orb_false_r. apply IH.
Qed.

(** X8. When the query for missing modules itself fails, the easyconfig is
    built all the same: [eb --robot] is called for it, and for nothing
    else, as if nothing but the easyconfig were missing. The pass ends as
    a build when [eb] returns zero, as a failed build when it does not and
    the log was copied, and on the exception of the copy otherwise. *)
Theorem failed_query_still_builds (c : Planner.config) (w : Planner.world)
    (st : Planner.state) (p : Planner.package) :
  attempted c w st ->
  Planner.read_easyconfig w = Ret p ->
  Version.toolchain_policy (Planner.min_toolchains c) (Planner.pkg_name p)
    (Planner.pkg_version p) (Planner.tc_name p) (Planner.tc_version p)
  = Ret Version.Eligible ->
  Planner.class_filter c (Planner.moduleclass p) = None ->
  Planner.themissing w = Planner.MissingError ->
  Planner.min_toolchains c !! "error" = None ->
  let st' := snd (Planner.build_one c w st) in
  Planner.invoked st' = Planner.target_command w :: Planner.invoked st
  /\ Planner.robot (Planner.target_command w) = true
  /\ fst (Planner.build_one c w st)
     = if Planner.eb_run w (Planner.target_command w) =? 0
       then Planner.TargetBuilt
       else match Planner.copy_last_log w (Planner.target_command w) with
            | Ret _ => Planner.TargetFailed
            | Raise e => Planner.Abandoned e
            end.
Proof.
  intros Ha Hread Hpol Hcls Hmiss Hmin st'. subst st'.
  rewrite (build_one_attempted c w st Ha).
  unfold Planner.plan_and_build. cbv zeta. fold (reloaded w st).
  rewrite Hread, Hpol, Hcls, Hmiss.
  cbn [Planner.missing_empty Planner._errors_in_missing Planner.missing_values
       List.filter Planner.missing_keys removelast Planner.build_dependencies].
  assert (Planner.doskip c ["error"] false = Ret false) as ->.
  { apply doskip_none_old. constructor; [|constructor].
    unfold Planner.too_old. cbn. now rewrite Hmin. }
  destruct (build_target_invoked w
              (Planner.with_counts (Planner.ebcnt (reloaded w st))
                 (Planner.ebskipped (reloaded w st) - 1) (Planner.bldcnt (reloaded w st))
                 (Planner.errcnt (reloaded w st)) (Planner.errpkg (reloaded w st))
                 (reloaded w st))) as [Hi Hf].
  rewrite Hi, Hf. cbn [Planner.invoked Planner.with_counts].
  rewrite (proj1 (proj2 (reloaded_fields w st))). auto.
Qed.

(** *** The two kinds of build, written out *)

Lemma tally_put (st : Planner.state) : tally (Planner.s3_put_json st) = tally st.
Proof. reflexivity. Qed.

Lemma tally_get (st : Planner.state) : tally (Planner.s3_get_json st) = tally st.
Proof. reflexivity. Qed.

Lemma tally_counts (c s b e : Z) (p : list string) (st : Planner.state) :
  tally (Planner.with_counts c s b e p st) = (c, s, b, e, p, Planner.invoked st).
Proof. reflexivity. Qed.

Lemma tally_invoked (i : list Planner.command) (st : Planner.state) :
  tally (Planner.with_invoked i st)
  = (Planner.ebcnt st, Planner.ebskipped st, Planner.bldcnt st, Planner.errcnt st,
     Planner.errpkg st, i).
Proof. reflexivity. Qed.

Lemma update_tally (k : string) (f : Planner.build_status -> Planner.build_status)
    (st : Planner.state) :
  tally (Planner.update k f st) = tally st.
Proof. unfold Planner.update. now destruct (Planner.statdict st !! k). Qed.

Lemma setdefault_tally (k : string) (tmpl : nat) (st : Planner.state) :
  tally (Planner.setdefault k tmpl st) = tally st.
Proof. unfold Planner.setdefault. now destruct (Planner.statdict st !! k). Qed.

Lemma tally_fields (st : Planner.state) (c s b e : Z) (p : list string)
    (i : list Planner.command) :
  tally st = (c, s, b, e, p, i) ->
  Planner.ebcnt st = c /\ Planner.ebskipped st = s /\ Planner.bldcnt st = b
  /\ Planner.errcnt st = e /\ Planner.errpkg st = p /\ Planner.invoked st = i.
Proof. unfold tally. intros [= -> -> -> -> -> ->]. repeat split. Qed.

Lemma tried_tally (w : Planner.world) (tmpl : nat) (ebf : string) (st : Planner.state) :
  tally (tried w tmpl ebf st)
  = (Planner.ebcnt st, Planner.ebskipped st, Planner.bldcnt st, Planner.errcnt st,
     Planner.errpkg st, Planner.dependency_command ebf :: Planner.invoked st).
Proof. unfold tried. cbv zeta. now rewrite !update_tally, setdefault_tally, tally_invoked. Qed.

(** The build of a dependency, with its counters written from the state
    it starts in. *)
Lemma build_dependency_unfold (w : Planner.world) (tmpl : nat) (ebf : string)
    (st : Planner.state) :
  Planner.build_dependency w tmpl ebf st
  = if negb (Planner.eb_run w (Planner.dependency_command ebf) =? 0) then
      match Planner.copy_last_log w (Planner.dependency_command ebf) with
      | Raise e =>
          (Raise e,
           Planner.with_counts (Planner.ebcnt st) (Planner.ebskipped st)
             (Planner.bldcnt st) (Planner.errcnt st + 1)
             (Planner.errpkg st ++ [ebf]) (tried w tmpl ebf st))
      | Ret _ =>
          (Ret true,
           Planner.s3_put_json
             (Planner.update ebf Planner.incr_errorcount
                (Planner.update ebf (Planner.set_reason "n/a")
                   (Planner.update ebf (Planner.set_status "error")
                      (Planner.with_counts (Planner.ebcnt st) (Planner.ebskipped st)
                         (Planner.bldcnt st) (Planner.errcnt st + 1)
                         (Planner.errpkg st ++ [ebf]) (tried w tmpl ebf st))))))
      end
    else
      (Ret false,
       Planner.s3_put_json
         (Planner.with_counts (Planner.ebcnt st) (Planner.ebskipped st)
            (Planner.bldcnt st + 1) (Planner.errcnt st) (Planner.errpkg st)
            (Planner.update ebf (Planner.set_modules None)
               (Planner.update ebf (Planner.set_reason "easyconfig built successfully")
                  (Planner.update ebf (Planner.set_status "success")
                     (tried w tmpl ebf st)))))).
Proof.
  unfold Planner.build_dependency. cbv zeta. fold (tried w tmpl ebf st).
  destruct (tally_fields _ _ _ _ _ _ _ (tried_tally w tmpl ebf st))
    as (E1 & E2 & E3 & E4 & E5 & _).
  destruct (negb _).
  - rewrite E1, E2, E3, E4, E5. now destruct (Planner.copy_last_log _ _).
  - set (st3 := Planner.update ebf (Planner.set_modules None) _).
    assert (tally st3 = tally (tried w tmpl ebf st)) as Ht
      by (subst st3; now rewrite !update_tally).
    rewrite tried_tally in Ht.
    destruct (tally_fields _ _ _ _ _ _ _ Ht) as (F1 & F2 & F3 & F4 & F5 & _).
    now rewrite F1, F2, F3, F4, F5.
Qed.

Lemma tried_target_tally (w : Planner.world) (st : Planner.state) :
  tally (tried_target w st)
  = (Planner.ebcnt st, Planner.ebskipped st, Planner.bldcnt st, Planner.errcnt st,
     Planner.errpkg st, Planner.target_command w :: Planner.invoked st).
Proof. unfold tried_target. cbv zeta. now rewrite !update_tally, tally_invoked. Qed.

Lemma build_target_unfold (w : Planner.world) (st : Planner.state) :
  Planner.build_target w st
  = if negb (Planner.eb_run w (Planner.target_command w) =? 0) then
      match Planner.copy_last_log w (Planner.target_command w) with
      | Raise e =>
          (Planner.Abandoned e,
           Planner.with_counts (Planner.ebcnt st) (Planner.ebskipped st)
             (Planner.bldcnt st) (Planner.errcnt st + 1)
             (Planner.errpkg st ++ [Planner.ebfile w]) (tried_target w st))
      | Ret _ =>
          (Planner.TargetFailed,
           Planner.s3_get_json
             (Planner.s3_put_json
                (Planner.update (Planner.ebfile w)
                   (Planner.set_modules (Some (Planner.themissing2 w)))
                   (Planner.update (Planner.ebfile w) (Planner.set_reason "n/a")
                      (Planner.update (Planner.ebfile w) (Planner.set_status "error")
                         (Planner.with_counts (Planner.ebcnt st) (Planner.ebskipped st)
                            (Planner.bldcnt st) (Planner.errcnt st + 1)
                            (Planner.errpkg st ++ [Planner.ebfile w])
                            (tried_target w st)))))))
      end
    else
      (Planner.TargetBuilt,
       Planner.s3_get_json
         (Planner.s3_put_json
            (if Planner.new_tars w
             then Planner.with_counts (Planner.ebcnt st) (Planner.ebskipped st)
                    (Planner.bldcnt st + 1) (Planner.errcnt st) (Planner.errpkg st)
                    (succeeded w st)
             else succeeded w st))).
Proof.
  unfold Planner.build_target. cbv zeta. fold (tried_target w st).
  destruct (tally_fields _ _ _ _ _ _ _ (tried_target_tally w st))
    as (E1 & E2 & E3 & E4 & E5 & _).
  destruct (negb _).
  - rewrite E1, E2, E3, E4, E5. now destruct (Planner.copy_last_log _ _).
  - fold (succeeded w st).
    assert (tally (succeeded w st) = tally (tried_target w st)) as Ht
      by (unfold succeeded; now rewrite !update_tally).
    rewrite tried_target_tally in Ht.
    destruct (tally_fields _ _ _ _ _ _ _ Ht) as (F1 & F2 & F3 & F4 & F5 & _).
    now rewrite F1, F2, F3, F4, F5.
Qed.

(** *** The pass in which every build succeeds *)

Lemma update_deref_cases (k k' : string) (f : Planner.build_status -> Planner.build_status)
    (st : Planner.state) :
  Planner.deref (Planner.update k' f st) k = Planner.deref st k
  \/ Planner.deref (Planner.update k' f st) k = f <$> Planner.deref st k.
Proof.
  unfold Planner.update, Planner.deref.
  destruct (Planner.statdict st !! k') as [l'|]; [|now left]. simpl.
  destruct (Planner.statdict st !! k) as [l|]; [|now left].
  rewrite list_lookup_alter. destruct (decide (l' = l)) as [->|]; [now right | now left].
Qed.

Lemma has_built_update (k k' : string) (f : Planner.build_status -> Planner.build_status)
    (st : Planner.state) :
  (forall r, built r -> built (f r)) ->
  has_built k st -> has_built k (Planner.update k' f st).
Proof.
  intros Hf (r & Hr & Hb). unfold has_built.
  destruct (update_deref_cases k k' f st) as [-> | ->]; rewrite Hr.
  - exists r. auto.
  - exists (f r). auto.
Qed.

Lemma has_built_setdefault (k k' : string) (tmpl : nat) (st : Planner.state) :
  has_built k st -> has_built k (Planner.setdefault k' tmpl st).
Proof.
  intros (r & Hr & Hb). exists r. split; [|exact Hb].
  destruct (decide (k = k')) as [->|Hne].
  - rewrite setdefault_deref. unfold Planner.deref in Hr.
    destruct (Planner.statdict st !! k'); [exact Hr | discriminate].
  - now rewrite setdefault_deref_ne.
Qed.

Lemma deref_put (st : Planner.state) (k : string) :
  Planner.deref (Planner.s3_put_json st) k = Planner.deref st k.
Proof. reflexivity. Qed.

Lemma deref_counts (c s b e : Z) (p : list string) (st : Planner.state) (k : string) :
  Planner.deref (Planner.with_counts c s b e p st) k = Planner.deref st k.
Proof. reflexivity. Qed.

Lemma deref_invoked (i : list Planner.command) (st : Planner.state) (k : string) :
  Planner.deref (Planner.with_invoked i st) k = Planner.deref st k.
Proof. reflexivity. Qed.

Lemma built_steps :
  (forall v r, built r -> built (Planner.set_trydate v r))
  /\ (forall v r, built r -> built (Planner.set_buildtime v r))
  /\ (forall r, built r -> built (Planner.set_returncode 0 r))
  /\ (forall r, built r -> built (Planner.set_status "success" r))
  /\ (forall r, built r -> built (Planner.set_reason "easyconfig built successfully" r))
  /\ (forall r, built r -> built (Planner.set_modules None r)).
Proof. repeat split; destruct H as (?&?&?&?); assumption. Qed.

(** A dependency whose build returns zero: its record is one of a
    successful build, the records of successful builds stay so, and one
    more build is counted. *)
Lemma build_dependency_success (w : Planner.world) (tmpl : nat) (ebf : string)
    (st : Planner.state) :
  Planner.holds tmpl st ->
  Planner.eb_run w (Planner.dependency_command ebf) = 0 ->
  let st' := snd (Planner.build_dependency w tmpl ebf st) in
  fst (Planner.build_dependency w tmpl ebf st) = Ret false
  /\ has_built ebf st'
  /\ (forall k, has_built k st -> has_built k st')
  /\ tally st' = (Planner.ebcnt st, Planner.ebskipped st, Planner.bldcnt st + 1,
                  Planner.errcnt st, Planner.errpkg st,
                  Planner.dependency_command ebf :: Planner.invoked st).
Proof.
  intros Hh Hrc st'. subst st'. rewrite build_dependency_unfold.
  destruct built_steps as (G1 & G2 & G3 & G4 & G5 & G6).
  rewrite Hrc. cbn [Z.eqb negb fst snd].
  split; [reflexivity|]. split; [|split].
  - destruct (holds_deref tmpl
                (Planner.with_invoked (Planner.dependency_command ebf :: Planner.invoked st) st)
                ebf Hh) as [r0 Hr0].
    unfold has_built. rewrite deref_put, deref_counts, !update_deref.
    unfold tried. cbv zeta. rewrite !update_deref, Hr0, Hrc.
    eexists. split; [reflexivity|]. repeat split.
  - intros k (r & Hr & Hb). unfold has_built. rewrite deref_put, deref_counts.
    apply has_built_update; [exact G6|]. apply has_built_update; [exact G5|].
    apply has_built_update; [exact G4|]. unfold tried. cbv zeta. rewrite Hrc.
    apply has_built_update; [apply G2|]. apply has_built_update; [apply G1|].
    apply has_built_update; [exact G3|]. apply has_built_setdefault.
    exists r. rewrite deref_invoked. auto.
  - rewrite tally_put, tally_counts, !update_invoked.
    now destruct (tally_fields _ _ _ _ _ _ _ (tried_tally w tmpl ebf st))
      as (_ & _ & _ & _ & _ & ->).
Qed.

Lemma reloaded_tally (w : Planner.world) (st : Planner.state) :
  tally (reloaded w st)
  = (Planner.ebcnt st + 1, Planner.ebskipped st + 1, Planner.bldcnt st,
     Planner.errcnt st, Planner.errpkg st, Planner.invoked st).
Proof. unfold reloaded. now rewrite setdefault_tally. Qed.

Lemma live_put (k : string) (st : Planner.state) :
  live k st -> live k (Planner.s3_put_json st).
Proof. intros H. exact H. Qed.

Lemma live_counts (k : string) (c s b e : Z) (p : list string) (st : Planner.state) :
  live k st -> live k (Planner.with_counts c s b e p st).
Proof. intros H. exact H. Qed.

Lemma live_invoked (k : string) (i : list Planner.command) (st : Planner.state) :
  live k st -> live k (Planner.with_invoked i st).
Proof. intros H. exact H. Qed.

Lemma build_dependency_live (w : Planner.world) (tmpl : nat) (k ebf : string)
    (st : Planner.state) :
  live k st -> live k (snd (Planner.build_dependency w tmpl ebf st)).
Proof.
  intros H. rewrite build_dependency_unfold.
  assert (live k (tried w tmpl ebf st)) as H1.
  { unfold tried. cbv zeta. do 3 apply live_update. now apply live_setdefault. }
  destruct (negb _); [destruct (Planner.copy_last_log _ _)|]; cbn [snd].
  - apply live_put. do 3 apply live_update. now apply live_counts.
  - now apply live_counts.
  - apply live_put, live_counts. now do 3 apply live_update.
Qed.

Lemma build_dependencies_live (w : Planner.world) (tmpl : nat) (k : string)
    (deps : list string) (st : Planner.state) :
  live k st -> live k (snd (Planner.build_dependencies w tmpl deps st)).
Proof.
  revert st. induction deps as [|d deps IH]; intros st H; simpl; [exact H|].
  pose proof (build_dependency_live w tmpl k d st H) as H'.
  destruct (Planner.build_dependency w tmpl d st) as [[[|]|e] st']; simpl in *; auto.
Qed.

Lemma build_dependencies_success (w : Planner.world) (tmpl : nat) (deps : list string)
    (st : Planner.state) :
  Planner.holds tmpl st ->
  Forall (fun d => Planner.eb_run w (Planner.dependency_command d) = 0) deps ->
  let st' := snd (Planner.build_dependencies w tmpl deps st) in
  fst (Planner.build_dependencies w tmpl deps st) = Ret false
  /\ (forall k, In k deps \/ has_built k st -> has_built k st')
  /\ tally st' = (Planner.ebcnt st, Planner.ebskipped st,
                  Planner.bldcnt st + Z.of_nat (length deps),
                  Planner.errcnt st, Planner.errpkg st,
                  (List.rev (map Planner.dependency_command deps)
                   ++ Planner.invoked st)%list).
Proof.
  intros Hh Hok. revert st Hh. induction Hok as [|d deps Hd _ IH]; intros st Hh; simpl.
  - split; [reflexivity|]. split; [intros k [[]|Hk]; exact Hk|].
    unfold tally. now rewrite Z.add_0_r.
  - pose proof (build_dependency_holds w tmpl d st Hh) as Hh'.
    destruct (build_dependency_success w tmpl d st Hh Hd) as (E1 & E2 & E3 & E5).
    destruct (Planner.build_dependency w tmpl d st) as [depterr st1].
    cbn [fst snd] in *. subst depterr.
    destruct (IH st1 Hh') as (F1 & F2 & F4).
    split; [exact F1|]. split.
    + intros k [[->|Hk]|Hk]; apply F2; auto.
    + rewrite F4. destruct (tally_fields _ _ _ _ _ _ _ E5) as (-> & -> & -> & -> & -> & ->).
      cbn [length map List.rev]. rewrite <- app_assoc. cbn [app].
      repeat (apply pair_equal_spec; split); try reflexivity. lia.
Qed.

Lemma build_target_success (w : Planner.world) (st : Planner.state) :
  live (Planner.ebfile w) st ->
  Planner.eb_run w (Planner.target_command w) = 0 ->
  let st' := snd (Planner.build_target w st) in
  fst (Planner.build_target w st) = Planner.TargetBuilt
  /\ (forall k, k = Planner.ebfile w \/ has_built k st ->
                exists r, Planner.s3 st' !! k = Some r /\ built r)
  /\ tally st' = (Planner.ebcnt st, Planner.ebskipped st,
                  Planner.bldcnt st + (if Planner.new_tars w then 1 else 0),
                  Planner.errcnt st, Planner.errpkg st,
                  Planner.target_command w :: Planner.invoked st).
Proof.
  intros [r0 Hr0] Hrc st'. subst st'. rewrite build_target_unfold.
  destruct built_steps as (G1 & G2 & G3 & G4 & G5 & G6).
  rewrite Hrc. cbn [Z.eqb negb fst snd].
  split; [reflexivity|].
  assert (forall k, k = Planner.ebfile w \/ has_built k st -> has_built k (succeeded w st))
    as Hb.
  { intros k [->|(r & Hr & Hbr)]; unfold succeeded, tried_target; cbv zeta; rewrite Hrc.
    - unfold has_built. rewrite !update_deref, deref_invoked, Hr0.
      eexists. split; [reflexivity|]. repeat split.
    - apply has_built_update; [exact G6|]. apply has_built_update; [exact G5|].
      apply has_built_update; [exact G4|]. apply has_built_update; [apply G2|].
      apply has_built_update; [exact G3|]. exists r. rewrite deref_invoked. auto. }
  assert (tally (succeeded w st) = tally (tried_target w st)) as Ht
    by (unfold succeeded; now rewrite !update_tally).
  rewrite tried_target_tally in Ht.
  split.
  - intros k Hk. destruct (Hb k Hk) as (r & Hr & Hbr). exists r. split; [|exact Hbr].
    change (Planner.s3 (Planner.s3_get_json ?x)) with (Planner.s3 x).
    rewrite s3_put_json_lookup.
    destruct (Planner.new_tars w); [rewrite deref_counts|]; exact Hr.
  - rewrite tally_get, tally_put.
    destruct (tally_fields _ _ _ _ _ _ _ Ht) as (_ & _ & _ & _ & _ & Hi).
    destruct (Planner.new_tars w).
    + now rewrite tally_counts, Hi.
    + now rewrite Ht, Z.add_0_r.
Qed.

(** X9. When the checks pass and every call of [eb] returns zero, the
    dependencies are built in the order listed, each on its own, then the
    easyconfig with [--robot]; the easyconfig and every dependency are in
    the store as successful builds, the pass is not counted as skipped,
    and one build is counted for each dependency and one for the
    easyconfig when new tarballs were made. *)
Theorem missing_dependencies_are_built_first (c : Planner.config) (w : Planner.world)
    (st : Planner.state) (p : Planner.package) (l : list (string * string)) :
  attempted c w st ->
  Planner.read_easyconfig w = Ret p ->
  Version.toolchain_policy (Planner.min_toolchains c) (Planner.pkg_name p)
    (Planner.pkg_version p) (Planner.tc_name p) (Planner.tc_version p)
  = Ret Version.Eligible ->
  Planner.class_filter c (Planner.moduleclass p) = None ->
  Planner.themissing w = Planner.Missing l ->
  l <> [] ->
  (forall ebf r, In ebf (map snd l) -> Planner.s3 st !! ebf = Some r ->
                 Planner.status r <> "error") ->
  Forall (fun m => Planner.too_old c m = Ret false) (map fst l) ->
  Forall (fun d => Planner.eb_run w (Planner.dependency_command d) = 0) (dependencies w) ->
  Planner.eb_run w (Planner.target_command w) = 0 ->
  let st' := snd (Planner.build_one c w st) in
  fst (Planner.build_one c w st) = Planner.TargetBuilt
  /\ Planner.invoked st'
     = (Planner.target_command w
        :: List.rev (map Planner.dependency_command (dependencies w))
        ++ Planner.invoked st)%list
  /\ (forall k, In k (written w) -> exists r, Planner.s3 st' !! k = Some r /\ built r)
  /\ Planner.ebskipped st' = Planner.ebskipped st
  /\ Planner.errcnt st' = Planner.errcnt st
  /\ Planner.bldcnt st'
     = Planner.bldcnt st + Z.of_nat (length (dependencies w))
       + (if Planner.new_tars w then 1 else 0).
Proof.
  intros Ha Hread Hpol Hcls Hmiss Hne Herr Hold Hdeps Htarget st'. subst st'.
  rewrite (build_one_attempted c w st Ha).
  unfold Planner.plan_and_build. cbv zeta. fold (reloaded w st).
  rewrite Hread, Hpol, Hcls.
  assert (Planner.missing_empty (Planner.themissing w) = false) as ->.
  { rewrite Hmiss. destruct l; [contradiction | reflexivity]. }
  rewrite errors_in_missing_none by (rewrite Hmiss; exact Herr).
  assert (Planner.doskip c (Planner.missing_keys (Planner.themissing w)) false = Ret false)
    as ->.
  { rewrite Hmiss. now apply doskip_none_old. }
  fold (dependencies w).
  set (st0 := Planner.with_counts _ _ _ _ _ (reloaded w st)).
  assert (Planner.holds (length (Planner.heap st)) (reloaded w st)) as Hh0.
  { unfold reloaded.
    apply (setdefault_holds (Planner.ebfile w) (Planner.s3_get_json (counted w st))).
    apply s3_get_json_holds. rewrite counted_template. eauto. }
  assert (Planner.holds (length (Planner.heap st)) st0) as Hh by exact Hh0.
  assert (live (Planner.ebfile w)
            (snd (Planner.build_dependencies w (length (Planner.heap st))
                    (dependencies w) st0))) as Hlive.
  { apply build_dependencies_live. subst st0. apply live_counts. unfold live.
    rewrite reloaded_deref. eauto. }
  destruct (build_dependencies_success w (length (Planner.heap st)) (dependencies w) st0
              Hh Hdeps) as (E1 & E2 & E4).
  destruct (Planner.build_dependencies w (length (Planner.heap st)) (dependencies w) st0)
    as [depterr st1].
  cbn [fst snd] in *. subst depterr.
  destruct (build_target_success w st1 Hlive Htarget) as (F1 & F2 & F3).
  pose proof (reloaded_tally w st) as R.
  unfold tally in E4, F3, R.
  injection R as R1 R2 R3 R4 R5 R6.
  injection E4 as T1 T2 T3 T4 T5 T6. injection F3 as U1 U2 U3 U4 U5 U6.
  subst st0. cbn [Planner.invoked Planner.ebskipped Planner.errcnt Planner.bldcnt
                  Planner.with_counts] in *.
  split; [exact F1|]. split; [|split; [|split; [|split]]].
  - now rewrite U6, T6, R6.
  - intros k [<-|Hk]; apply F2; [now left|]. right. apply E2. now left.
  - rewrite U2, T2. lia.
  - now rewrite U4, T4, R4.
  - now rewrite U3, T3, R3.
Qed.

Lemma tally_adds (nb nf nc : nat) (st st' : Planner.state) (p : list string)
    (i : list Planner.command) :
  tally st' = (Planner.ebcnt st, Planner.ebskipped st, Planner.bldcnt st + Z.of_nat nb,
               Planner.errcnt st + Z.of_nat nf, p, i) ->
  length p = (length (Planner.errpkg st) + nf)%nat ->
  length i = (length (Planner.invoked st) + nc)%nat ->
  adds nb nf nc st st'.
Proof.
  unfold tally, adds. intros [= -> -> -> -> -> ->] Hp Hi. repeat split; auto.
Qed.

Lemma build_dependency_adds (w : Planner.world) (tmpl : nat) (ebf : string)
    (st : Planner.state) :
  let r := Planner.build_dependency w tmpl ebf st in
  match fst r with
  | Ret false => adds 1 0 1 st (snd r)
  | _ => adds 0 1 1 st (snd r)
  end.
Proof.
  cbv zeta. rewrite build_dependency_unfold.
  destruct (tally_fields _ _ _ _ _ _ _ (tried_tally w tmpl ebf st))
    as (_ & _ & _ & _ & _ & Hi).
  destruct (negb _); [destruct (Planner.copy_last_log _ _)|]; cbn [fst snd];
    eapply tally_adds.
  - rewrite tally_put, !update_tally, tally_counts, Hi, Z.add_0_r. reflexivity.
  - rewrite length_app. reflexivity.
  - simpl. lia.
  - rewrite tally_counts, Hi, Z.add_0_r. reflexivity.
  - rewrite length_app. reflexivity.
  - simpl. lia.
  - rewrite tally_put, tally_counts, !update_invoked, Hi, Z.add_0_r. reflexivity.
  - lia.
  - simpl. lia.
Qed.

Lemma adds_trans (a b c a' b' c' : nat) (st st1 st2 : Planner.state) :
  adds a b c st st1 -> adds a' b' c' st1 st2 ->
  adds (a + a') (b + b') (c + c') st st2.
Proof.
  intros (A1 & A2 & A3 & A4 & A5 & A6) (B1 & B2 & B3 & B4 & B5 & B6).
  unfold adds. repeat split; lia.
Qed.

Lemma build_dependencies_adds (w : Planner.world) (tmpl : nat) (deps : list string)
    (st : Planner.state) :
  let r := Planner.build_dependencies w tmpl deps st in
  exists nb,
    match fst r with
    | Ret false => adds nb 0 nb st (snd r)
    | _ => adds nb 1 (nb + 1) st (snd r)
    end.
Proof.
  revert st. induction deps as [|d deps IH]; intros st; simpl.
  - exists 0%nat. unfold adds. repeat split; lia.
  - pose proof (build_dependency_adds w tmpl d st) as Hd.
    destruct (Planner.build_dependency w tmpl d st) as [[[|]|e] st1]; cbn [fst snd] in *.
    + exists 0%nat. exact Hd.
    + destruct (IH st1) as [nb Hnb].
      destruct (Planner.build_dependencies w tmpl deps st1) as [[[|]|e] st2];
        cbn [fst snd] in *; exists (S nb).
      * apply (adds_trans 1 0 1 nb 1 (nb + 1) st st1 st2 Hd Hnb).
      * apply (adds_trans 1 0 1 nb 0 nb st st1 st2 Hd Hnb).
      * apply (adds_trans 1 0 1 nb 1 (nb + 1) st st1 st2 Hd Hnb).
    + exists 0%nat. exact Hd.
Qed.

Lemma build_target_adds (w : Planner.world) (st : Planner.state) :
  exists nb nf, (nb + nf <= 1)%nat /\ adds nb nf 1 st (snd (Planner.build_target w st)).
Proof.
  rewrite build_target_unfold.
  destruct (tally_fields _ _ _ _ _ _ _ (tried_target_tally w st))
    as (_ & _ & _ & _ & _ & Hi).
  assert (tally (succeeded w st) = tally (tried_target w st)) as Ht
    by (unfold succeeded; now rewrite !update_tally).
  rewrite tried_target_tally in Ht.
  destruct (tally_fields _ _ _ _ _ _ _ Ht) as (_ & _ & _ & _ & _ & Hi').
  destruct (negb _); [destruct (Planner.copy_last_log _ _)|destruct (Planner.new_tars w)];
    cbn [snd].
  - exists 0%nat, 1%nat. split; [lia|]. eapply tally_adds.
    + rewrite tally_get, tally_put, !update_tally, tally_counts, Hi, Z.add_0_r. reflexivity.
    + rewrite length_app. reflexivity.
    + simpl. lia.
  - exists 0%nat, 1%nat. split; [lia|]. eapply tally_adds.
    + rewrite tally_counts, Hi, Z.add_0_r. reflexivity.
    + rewrite length_app. reflexivity.
    + simpl. lia.
  - exists 1%nat, 0%nat. split; [lia|]. eapply tally_adds.
    + rewrite tally_get, tally_put, tally_counts, Hi', Z.add_0_r. reflexivity.
    + lia.
    + simpl. lia.
  - exists 0%nat, 0%nat. split; [lia|]. eapply tally_adds.
    + rewrite tally_get, tally_put, Ht, !Z.add_0_r. reflexivity.
    + lia.
    + simpl. lia.
Qed.

(** What one pass does to the counters: it is counted as tried, and
    either as skipped, with no call of [eb], or its builds are counted. *)
Lemma build_one_adds (c : Planner.config) (w : Planner.world) (st : Planner.state) :
  let st' := snd (Planner.build_one c w st) in
  tally st' = (Planner.ebcnt st + 1, Planner.ebskipped st + 1, Planner.bldcnt st,
               Planner.errcnt st, Planner.errpkg st, Planner.invoked st)
  \/ exists nb nf nc,
       (nb + nf <= nc)%nat /\ (nf <= 1)%nat
       /\ Planner.ebcnt st' = Planner.ebcnt st + 1
       /\ Planner.ebskipped st' = Planner.ebskipped st
       /\ Planner.bldcnt st' = Planner.bldcnt st + Z.of_nat nb
       /\ Planner.errcnt st' = Planner.errcnt st + Z.of_nat nf
       /\ length (Planner.errpkg st') = (length (Planner.errpkg st) + nf)%nat
       /\ length (Planner.invoked st') = (length (Planner.invoked st) + nc)%nat.
Proof.
  intros st'. subst st'.
  destruct (build_one_cases c w st) as [-> | ->]; [now left|].
  unfold Planner.plan_and_build. cbv zeta. fold (reloaded w st).
  pose proof (reloaded_tally w st) as R.
  assert (forall why, tally (snd (Planner.skip w why (reloaded w st))) = tally (reloaded w st))
    as Hskip.
  { intros why. unfold Planner.skip. cbn [snd]. now rewrite tally_put, !update_tally. }
  destruct (Planner.read_easyconfig w) as [p|e]; [|now left].
  destruct (Version.toolchain_policy _ _ _ _ _) as [[why|]|e];
    [left; now rewrite Hskip| |now left].
  destruct (Planner.class_filter c (Planner.moduleclass p)); [left; now rewrite Hskip|].
  destruct (Planner.missing_empty (Planner.themissing w)).
  { left. cbn [snd]. now rewrite tally_put, !update_tally. }
  destruct (Planner._errors_in_missing _ _); [|left; now rewrite Hskip].
  destruct (Planner.doskip _ _ _) as [[|]|e]; [left; now rewrite Hskip| |now left].
  right. unfold tally in R. injection R as R1 R2 R3 R4 R5 R6.
  set (st0 := Planner.with_counts _ _ _ _ _ (reloaded w st)).
  destruct (build_dependencies_adds w (length (Planner.heap st))
              (removelast (Planner.missing_values (Planner.themissing w))) st0) as [nb Hd].
  destruct (Planner.build_dependencies w (length (Planner.heap st))
              (removelast (Planner.missing_values (Planner.themissing w))) st0)
    as [[[|]|e] st1]; cbn [fst snd] in *.
  - exists nb, 1%nat, (nb + 1)%nat. destruct Hd as (D1 & D2 & D3 & D4 & D5 & D6).
    subst st0. cbn [Planner.with_counts Planner.ebcnt Planner.ebskipped Planner.bldcnt
                    Planner.errcnt Planner.errpkg Planner.invoked] in *.
    rewrite D1, D2, D3, D4, D5, D6, R1, R2, R3, R4, R5, R6.
    repeat split; lia.
  - destruct (build_target_adds w st1) as (tb & tf & Hle & Ht).
    pose proof (adds_trans _ _ _ _ _ _ _ _ _ Hd Ht) as (D1 & D2 & D3 & D4 & D5 & D6).
    exists (nb + tb)%nat, (0 + tf)%nat, (nb + 1)%nat.
    subst st0. cbn [Planner.with_counts Planner.ebcnt Planner.ebskipped Planner.bldcnt
                    Planner.errcnt Planner.errpkg Planner.invoked] in *.
    rewrite D1, D2, D3, D4, D5, D6, R1, R2, R3, R4, R5, R6.
    repeat split; lia.
  - exists nb, 1%nat, (nb + 1)%nat. destruct Hd as (D1 & D2 & D3 & D4 & D5 & D6).
    subst st0. cbn [Planner.with_counts Planner.ebcnt Planner.ebskipped Planner.bldcnt
                    Planner.errcnt Planner.errpkg Planner.invoked] in *.
    rewrite D1, D2, D3, D4, D5, D6, R1, R2, R3, R4, R5, R6.
    repeat split; lia.
Qed.

Lemma build_one_consistent (c : Planner.config) (w : Planner.world) (st : Planner.state)
    (n : nat) :
  consistent n st -> consistent (S n) (snd (Planner.build_one c w st)).
Proof.
  intros (C1 & C2 & C3 & C4 & C5 & C6).
  destruct (build_one_adds c w st) as [Ht|(nb & nf & nc & L1 & L2 & A1 & A2 & A3 & A4 & A5 & A6)].
  - unfold tally in Ht. injection Ht as T1 T2 T3 T4 T5 T6.
    unfold consistent. rewrite T1, T2, T3, T4, T5, T6. repeat split; lia.
  - unfold consistent. rewrite A1, A2, A3, A4, A5, A6. repeat split; lia.
Qed.

(** X11. The numbers of the final report agree with each other, whatever
    the folders hold: every folder with an easyconfig is counted as tried;
    the passes counted as skipped are among them; the number of failed
    builds is the number of names in the list of failed easyconfigs, and is
    at most the number of passes not skipped; and every build counted as
    built or failed is a call of [eb]. *)
Theorem final_report_is_consistent (c : Planner.config) (folders : list Planner.world)
    (store : gmap string Planner.build_status) :
  let st := Planner.build_all_eb c folders store in
  Planner.ebcnt st = Z.of_nat (length folders)
  /\ 0 <= Planner.ebskipped st <= Planner.ebcnt st
  /\ Planner.errcnt st = Z.of_nat (length (Planner.errpkg st))
  /\ 0 <= Planner.bldcnt st
  /\ Planner.bldcnt st + Planner.errcnt st <= Z.of_nat (length (Planner.invoked st))
  /\ Planner.errcnt st <= Planner.ebcnt st - Planner.ebskipped st.
Proof.
  intros st. subst st. unfold Planner.build_all_eb.
  assert (consistent 0 (Planner.initial store)) as H0.
  { unfold consistent, Planner.initial. simpl. repeat split; lia. }
  change (consistent (length folders)
            (fold_left (fun st w => snd (Planner.build_one c w st)) folders
               (Planner.initial store))).
  replace (length folders) with (0 + length folders)%nat by lia.
  revert H0. generalize (Planner.initial store) 0%nat.
  induction folders as [|w folders IH]; intros st n H0; simpl.
  - now rewrite Nat.add_0_r.
  - replace (n + S (length folders))%nat with (S n + length folders)%nat by lia.
    apply IH. now apply build_one_consistent.
Qed.

Lemma doskip_returns (c : Planner.config) (keys : list string) (acc : bool) :
  (forall m, In m keys -> exists b, Planner.too_old c m = Ret b) ->
  exists b, Planner.doskip c keys acc = Ret (acc || b)
            /\ (b = true <-> exists m, In m keys /\ Planner.too_old c m = Ret true).
Proof.
  revert acc. induction keys as [|k keys IH]; intros acc Hall; simpl.
  - exists false. rewrite orb_false_r. split; [reflexivity|].
    split; [discriminate | intros (m & [] & _)].
  - destruct (Hall k (or_introl eq_refl)) as [bk Hk]. rewrite Hk. simpl.
    destruct (IH (acc || bk) (fun m Hm => Hall m (or_intror Hm))) as (b & Hb & Hiff).
    exists (bk || b). rewrite Hb, orb_assoc. split; [reflexivity|].
    rewrite orb_true_iff, Hiff. split.
    + intros [->|(m & Hm & Ht)]; [exists k; auto | exists m; auto].
    + intros (m & [<-|Hm] & Ht); [left; congruence | right; eauto].
Qed.

(** X6. An easyconfig for which a module is missing that names a toolchain
    of the table in a version below its minimum (a key [name/version], or a
    bare name, which counts as version 0.0) is not built: it is stored as
    skipped with reason [dependency requires too old toolchain] and [eb] is
    called for nothing. All the missing modules are looked at before the
    decision. *)
Theorem old_toolchain_among_missing_blocks_the_build (c : Planner.config)
    (w : Planner.world) (st : Planner.state) (p : Planner.package)
    (l : list (string * string)) (miss : string) :
  attempted c w st ->
  Planner.read_easyconfig w = Ret p ->
  Version.toolchain_policy (Planner.min_toolchains c) (Planner.pkg_name p)
    (Planner.pkg_version p) (Planner.tc_name p) (Planner.tc_version p)
  = Ret Version.Eligible ->
  Planner.class_filter c (Planner.moduleclass p) = None ->
  Planner.themissing w = Planner.Missing l ->
  (forall ebf r, In ebf (map snd l) -> Planner.s3 st !! ebf = Some r ->
                 Planner.status r <> "error") ->
  (forall m, In m (map fst l) -> exists b, Planner.too_old c m = Ret b) ->
  In miss (map fst l) ->
  Planner.too_old c miss = Ret true ->
  let st' := snd (Planner.build_one c w st) in
  fst (Planner.build_one c w st) = Planner.Skipped
  /\ Planner.s3 st' !! Planner.ebfile w
     = Some (Planner.set_reason "dependency requires too old toolchain"
               (Planner.set_status "skipped" (record_before w st)))
  /\ Planner.invoked st' = Planner.invoked st
  /\ Planner.ebskipped st' = Planner.ebskipped st + 1.
Proof.
  intros Ha Hread Hpol Hcls Hmiss Herr Hall Hin Hold st'. subst st'.
  rewrite (build_one_attempted c w st Ha).
  unfold Planner.plan_and_build. cbv zeta. fold (reloaded w st).
  rewrite Hread, Hpol, Hcls.
  assert (Planner.missing_empty (Planner.themissing w) = false) as ->.
  { rewrite Hmiss. destruct l; [destruct Hin | reflexivity]. }
  rewrite errors_in_missing_none by (rewrite Hmiss; exact Herr).
  rewrite Hmiss. cbn [Planner.missing_keys].
  destruct (doskip_returns c (map fst l) false Hall) as (b & -> & Hiff).
  assert (b = true) as -> by (apply Hiff; eauto).
  apply skip_reloaded.
Qed.

Lemma pass_never_loses_a_record_witness :
  is_Some
    (Planner.s3
       (snd (Planner.build_one (sample_config false "")
               (sample_world "GCC" "12.2.0" sample_missing (fun _ => 1) (fun _ => Ret tt))
               (Planner.initial {[ "zlib-1.2.12.eb" := sample_record "success" ]})))
     !! "zlib-1.2.12.eb").
Proof. apply pass_never_loses_a_record. vm_compute. eauto. Defined.

Lemma no_second_attempt_in_a_run_witness :
  let c := sample_config false "" in
  let w := sample_world "GCC" "12.2.0" sample_missing (fun _ => 1) (fun _ => Ret tt) in
  fst (Planner.build_one c w (snd (Planner.build_one c w (Planner.initial ∅))))
  = Planner.Ignored.
Proof.
  intros c w.
  exact (proj1 (no_second_attempt_in_a_run c w w (Planner.initial ∅) eq_refl eq_refl)).
Defined.

Lemma pass_changes_only_its_records_witness :
  let c := sample_config false "" in
  let w := sample_world "GCC" "12.2.0" sample_missing (fun _ => 1) (fun _ => Ret tt) in
  let st := Planner.initial {[ "zlib-1.2.12.eb" := sample_record "success" ]} in
  Planner.s3 (snd (Planner.build_one c w st)) !! "zlib-1.2.12.eb"
  = Some (sample_record "success").
Proof.
  intros c w st.
  rewrite (pass_changes_only_its_records c w st "zlib-1.2.12.eb").
  - vm_compute. reflexivity.
  - vm_compute. intros [H|[H|[]]]; discriminate H.
Defined.

Lemma rejected_easyconfig_is_recorded_witness :
  let w := sample_world "intel" "2022a" sample_missing (fun _ => 0) (fun _ => Ret tt) in
  let st' := snd (Planner.build_one (sample_config false "") w (Planner.initial ∅)) in
  let w2 := sample_world "GCC" "12.2.0" sample_missing (fun _ => 0) (fun _ => Ret tt) in
  let st2 := snd (Planner.build_one (sample_config false "chem,lib") w2 (Planner.initial ∅)) in
  Planner.reason <$> Planner.s3 st' !! "SAMtools-1.17-GCC-12.2.0.eb"
  = Some "toolchain not supported: intel"
  /\ Planner.invoked st' = []
  /\ Planner.reason <$> Planner.s3 st2 !! "SAMtools-1.17-GCC-12.2.0.eb"
     = Some "module class not included via --include option"
  /\ Planner.invoked st2 = [].
Proof.
  intros w st' w2 st2.
  destruct (rejected_easyconfig_is_recorded (sample_config false "") w (Planner.initial ∅)
              {| Planner.pkg_name := "SAMtools"; Planner.pkg_version := "1.17";
                 Planner.tc_name := "intel"; Planner.tc_version := "2022a";
                 Planner.moduleclass := "bio" |}
              "toolchain not supported: intel") as (_ & E2 & E3 & _).
  - left. vm_compute. reflexivity.
  - reflexivity.
  - left. vm_compute. reflexivity.
  - destruct (rejected_easyconfig_is_recorded (sample_config false "chem,lib") w2
                (Planner.initial ∅)
                {| Planner.pkg_name := "SAMtools"; Planner.pkg_version := "1.17";
                   Planner.tc_name := "GCC"; Planner.tc_version := "12.2.0";
                   Planner.moduleclass := "bio" |}
                "module class not included via --include option") as (_ & F2 & F3 & _).
    + left. vm_compute. reflexivity.
    + reflexivity.
    + right. split; vm_compute; reflexivity.
    + subst st' st2. split; [exact (f_equal (fmap Planner.reason) E2)|].
      split; [exact E3|]. split; [exact (f_equal (fmap Planner.reason) F2) | exact F3].
Defined.

Lemma failed_dependency_blocks_the_build_witness :
  let c := sample_config false "bio,chem" in
  let w := sample_world "GCC" "12.2.0" sample_missing (fun _ => 0) (fun _ => Ret tt) in
  let st := Planner.initial {[ "ncurses-6.3-GCCcore-12.2.0.eb" := sample_record "error" ]} in
  fst (Planner.build_one c w st) = Planner.Skipped
  /\ Planner.invoked (snd (Planner.build_one c w st)) = [].
Proof.
  intros c w st.
  destruct (failed_dependency_blocks_the_build c w st
              {| Planner.pkg_name := "SAMtools"; Planner.pkg_version := "1.17";
                 Planner.tc_name := "GCC"; Planner.tc_version := "12.2.0";
                 Planner.moduleclass := "bio" |}
              "ncurses-6.3-GCCcore-12.2.0.eb" (sample_record "error"))
    as (E1 & _ & E3 & _).
  - left. vm_compute. reflexivity.
  - reflexivity.
  - vm_compute. reflexivity.
  - reflexivity.
  - left. reflexivity.
  - vm_compute. reflexivity.
  - reflexivity.
  - split; [exact E1 | rewrite E3; reflexivity].
Defined.

Lemma abandoned_pass_stores_nothing_witness :
  let c := sample_config false "" in
  let w := sample_world "foss" "2022.05" sample_missing (fun _ => 0) (fun _ => Ret tt) in
  let st := Planner.initial {[ "zlib-1.2.12.eb" := sample_record "success" ]} in
  fst (Planner.build_one c w st) = Planner.Abandoned TypeError
  /\ Planner.s3 (snd (Planner.build_one c w st)) = Planner.s3 st.
Proof.
  intros c w st.
  assert (fst (Planner.build_one c w st) = Planner.Abandoned TypeError) as H
    by (vm_compute; reflexivity).
  split; [exact H|].
  refine (proj1 (abandoned_pass_stores_nothing c w st TypeError H _)).
  intros cmd E. discriminate E.
Defined.

Lemma failed_query_still_builds_witness :
  let c := sample_config false "bio" in
  let w := sample_world "GCC" "12.2.0" Planner.MissingError (fun _ => 1)
             (fun _ => Raise FileNotFoundError) in
  Planner.invoked (snd (Planner.build_one c w (Planner.initial ∅)))
  = [Planner.target_command w]
  /\ fst (Planner.build_one c w (Planner.initial ∅)) = Planner.Abandoned FileNotFoundError.
Proof.
  intros c w.
  destruct (failed_query_still_builds c w (Planner.initial ∅)
              {| Planner.pkg_name := "SAMtools"; Planner.pkg_version := "1.17";
                 Planner.tc_name := "GCC"; Planner.tc_version := "12.2.0";
                 Planner.moduleclass := "bio" |}) as (E1 & _ & E3).
  - left. vm_compute. reflexivity.
  - reflexivity.
  - vm_compute. reflexivity.
  - vm_compute. reflexivity.
  - reflexivity.
  - vm_compute. reflexivity.
  - rewrite E1, E3. split; reflexivity.
Defined.

Lemma missing_dependencies_are_built_first_witness :
  let c := sample_config false "bio,chem" in
  let w := sample_world "GCC" "12.2.0" sample_missing (fun _ => 0) (fun _ => Ret tt) in
  let st' := snd (Planner.build_one c w (Planner.initial ∅)) in
  Planner.invoked st'
  = [Planner.target_command w;
     Planner.dependency_command "ncurses-6.3-GCCcore-12.2.0.eb"]
  /\ Planner.bldcnt st' = 2.
Proof.
  intros c w st'.
  destruct (missing_dependencies_are_built_first c w (Planner.initial ∅)
              {| Planner.pkg_name := "SAMtools"; Planner.pkg_version := "1.17";
                 Planner.tc_name := "GCC"; Planner.tc_version := "12.2.0";
                 Planner.moduleclass := "bio" |}
              [("ncurses/6.3-GCCcore-12.2.0", "ncurses-6.3-GCCcore-12.2.0.eb");
               ("SAMtools/1.17-GCC-12.2.0", "SAMtools-1.17-GCC-12.2.0.eb")])
    as (_ & E2 & _ & _ & _ & E6).
  - left. vm_compute. reflexivity.
  - reflexivity.
  - vm_compute. reflexivity.
  - reflexivity.
  - reflexivity.
  - discriminate.
  - intros ebf r _ Hr. vm_compute in Hr. discriminate Hr.
  - repeat constructor.
  - repeat constructor.
  - reflexivity.
  - subst st'. split; [rewrite E2 | rewrite E6]; reflexivity.
Defined.

Lemma old_toolchain_among_missing_blocks_the_build_witness :
  let c := sample_config false "bio,chem" in
  let l := [("GCCcore/10.3.0", "GCCcore-10.3.0.eb");
            ("SAMtools/1.17-GCC-12.2.0", "SAMtools-1.17-GCC-12.2.0.eb")] in
  let w := sample_world "GCC" "12.2.0" (Planner.Missing l) (fun _ => 0) (fun _ => Ret tt) in
  let st' := snd (Planner.build_one c w (Planner.initial ∅)) in
  Planner.reason <$> Planner.s3 st' !! "SAMtools-1.17-GCC-12.2.0.eb"
  = Some "dependency requires too old toolchain"
  /\ Planner.invoked st' = [].
Proof.
  intros c l w st'.
  destruct (old_toolchain_among_missing_blocks_the_build c w (Planner.initial ∅)
              {| Planner.pkg_name := "SAMtools"; Planner.pkg_version := "1.17";
                 Planner.tc_name := "GCC"; Planner.tc_version := "12.2.0";
                 Planner.moduleclass := "bio" |} l "GCCcore/10.3.0")
    as (_ & E2 & E3 & _).
  - left. vm_compute. reflexivity.
  - reflexivity.
  - vm_compute. reflexivity.
  - reflexivity.
  - reflexivity.
  - intros ebf r _ Hr. vm_compute in Hr. discriminate Hr.
  - intros m [<-|[<-|[]]]; eexists; vm_compute; reflexivity.
  - left. reflexivity.
  - vm_compute. reflexivity.
  - subst st'. split; [exact (f_equal (fmap Planner.reason) E2) | exact E3].
Defined.

(** X30. A failed build whose log cannot be copied leaves no record: when
    the easyconfig passes the checks, has no dependency to build, [eb]
    returns a non-zero code for it and the copy of its log raises, the pass
    is abandoned on that exception after [eb] ran; the failure is counted
    and the easyconfig is on the list of failed ones, but nothing is
    written to the store, where a failed build whose log was copied is
    stored with status error. The return code stays in [statdict] only. *)
Theorem failed_build_without_log_is_not_recorded (c : Planner.config)
    (w : Planner.world) (st : Planner.state) (p : Planner.package) (e : exn) :
  attempted c w st ->
  Planner.read_easyconfig w = Ret p ->
  Version.toolchain_policy (Planner.min_toolchains c) (Planner.pkg_name p)
    (Planner.pkg_version p) (Planner.tc_name p) (Planner.tc_version p)
  = Ret Version.Eligible ->
  Planner.class_filter c (Planner.moduleclass p) = None ->
  Planner.missing_empty (Planner.themissing w) = false ->
  dependencies w = [] ->
  (forall ebf r, In ebf (Planner.missing_values (Planner.themissing w)) ->
                 Planner.s3 st !! ebf = Some r -> Planner.status r <> "error") ->
  Forall (fun m => Planner.too_old c m = Ret false)
    (Planner.missing_keys (Planner.themissing w)) ->
  Planner.eb_run w (Planner.target_command w) <> 0 ->
  Planner.copy_last_log w (Planner.target_command w) = Raise e ->
  let st' := snd (Planner.build_one c w st) in
  fst (Planner.build_one c w st) = Planner.Abandoned e
  /\ Planner.s3 st' = Planner.s3 st
  /\ Planner.invoked st' = Planner.target_command w :: Planner.invoked st
  /\ Planner.errcnt st' = Planner.errcnt st + 1
  /\ Planner.errpkg st' = (Planner.errpkg st ++ [Planner.ebfile w])%list
  /\ Planner.ebskipped st' = Planner.ebskipped st
  /\ Planner.deref st' (Planner.ebfile w)
     = Some (Planner.set_buildtime (Planner.eb_time w (Planner.target_command w))
               (Planner.set_returncode (Planner.eb_run w (Planner.target_command w))
                  (record_before w st))).
Proof.
  intros Ha Hread Hpol Hcls Hmiss Hdeps Herr Hold Hrc Hlog st'. subst st'.
  rewrite (build_one_attempted c w st Ha).
  unfold Planner.plan_and_build. cbv zeta. fold (reloaded w st).
  rewrite Hread, Hpol, Hcls, Hmiss.
  rewrite errors_in_missing_none by exact Herr.
  rewrite (doskip_none_old c _ false Hold).
  fold (dependencies w). rewrite Hdeps. cbn [Planner.build_dependencies].
  rewrite build_target_unfold.
  apply Z.eqb_neq in Hrc. rewrite Hrc, Hlog. cbn [negb fst snd].
  pose proof (reloaded_tally w st) as R. unfold tally in R.
  injection R as R1 R2 R3 R4 R5 R6.
  split; [reflexivity|].
  cbn [Planner.s3 Planner.invoked Planner.errcnt Planner.errpkg Planner.ebskipped
       Planner.with_counts].
  split; [|split; [|split; [|split; [|split]]]].
  - unfold tried_target. cbv zeta.
    rewrite !(proj1 (update_fields _ _ _)). apply reloaded_fields.
  - destruct (tally_fields _ _ _ _ _ _ _ (tried_target_tally w
               (Planner.with_counts (Planner.ebcnt (reloaded w st))
                  (Planner.ebskipped (reloaded w st) - 1) (Planner.bldcnt (reloaded w st))
                  (Planner.errcnt (reloaded w st)) (Planner.errpkg (reloaded w st))
                  (reloaded w st)))) as (_ & _ & _ & _ & _ & ->).
    cbn [Planner.invoked Planner.with_counts]. now rewrite R6.
  - now rewrite R4.
  - now rewrite R5.
  - rewrite R2. lia.
  - rewrite deref_counts. unfold tried_target. cbv zeta.
    rewrite !update_deref, deref_invoked, deref_counts, reloaded_deref.
    reflexivity.
Qed.

Lemma failed_build_without_log_is_not_recorded_witness :
  let c := sample_config false "bio" in
  let w := sample_world "GCC" "12.2.0"
             (Planner.Missing [("SAMtools/1.17-GCC-12.2.0", "SAMtools-1.17-GCC-12.2.0.eb")])
             (fun _ => 1) (fun _ => Raise FileNotFoundError) in
  let st' := snd (Planner.build_one c w (Planner.initial ∅)) in
  fst (Planner.build_one c w (Planner.initial ∅)) = Planner.Abandoned FileNotFoundError
  /\ Planner.s3 st' = ∅
  /\ Planner.errcnt st' = 1
  /\ Planner.errpkg st' = ["SAMtools-1.17-GCC-12.2.0.eb"].
Proof.
  intros c w st'.
  destruct (failed_build_without_log_is_not_recorded c w (Planner.initial ∅)
              {| Planner.pkg_name := "SAMtools"; Planner.pkg_version := "1.17";
                 Planner.tc_name := "GCC"; Planner.tc_version := "12.2.0";
                 Planner.moduleclass := "bio" |} FileNotFoundError)
    as (E1 & E2 & _ & E4 & E5 & _).
  - left. vm_compute. reflexivity.
  - reflexivity.
  - vm_compute. reflexivity.
  - vm_compute. reflexivity.
  - reflexivity.
  - reflexivity.
  - intros ebf r _ Hr. vm_compute in Hr. discriminate Hr.
  - repeat constructor.
  - discriminate.
  - reflexivity.
  - subst st'. split; [exact E1|]. split; [rewrite E2; reflexivity|].
    split; [rewrite E4; reflexivity | rewrite E5; reflexivity].
Defined.

Lemma tuple_lt_irrefl (a : list Version.part) : Version.tuple_lt a a = Ret false.
Proof.
  induction a as [|x a IH]; simpl; [reflexivity|]. now rewrite part_eq_refl.
Qed.

(** X12. A toolchain exactly at its configured minimum is accepted, whatever
    the version string is (also [system] or [2022a], where no number is
    compared), and the comparison does not raise: an easyconfig whose
    toolchain version is the minimum of its toolchain, and which is not
    itself a toolchain of the table below its minimum, is eligible. *)
Theorem toolchain_at_minimum_is_eligible (mt : gmap string string)
    (name version tc_name tc_version : string) :
  mt !! name = None \/ mt !! name = Some version ->
  mt !! tc_name = Some tc_version ->
  Version.toolchain_policy mt name version tc_name tc_version = Ret Version.Eligible.
Proof.
  intros Hname Htc. unfold Version.toolchain_policy, Version.older.
  rewrite Htc, tuple_lt_irrefl.
  destruct Hname as [-> | ->]; [reflexivity|]. now rewrite tuple_lt_irrefl.
Qed.

Lemma toolchain_at_minimum_is_eligible_witness :
  Version.toolchain_policy Version.default_min_toolchains "zlib" "1.2.12" "foss" "2022a"
  = Ret Version.Eligible
  /\ Version.toolchain_policy Version.default_min_toolchains "GCC" "11.0" "system" "system"
     = Ret Version.Eligible.
Proof.
  split; apply toolchain_at_minimum_is_eligible; vm_compute; auto.
Defined.

Lemma sversion_numbers (version_str : string) :
  Str.dotted_digits version_str = true ->
  Version.sversion version_str = map Version.PInt (numbers version_str).
Proof.
  unfold Str.dotted_digits, Version.sversion, numbers.
  induction (Str.split "." version_str) as [|p ps IH]; simpl; [reflexivity|].
  intros H. apply andb_true_iff in H as [Hp Hps]. now rewrite Hp, IH.
Qed.

(** X13. On version strings made of numbers and dots the comparison used by
    the toolchain checks never raises and is the order of the docstring of
    [sversion]: number by number, a proper prefix first; so 9.5 is older
    than 11.0, which it is not as a string. *)
Theorem numeric_versions_compare_by_number (v m : string) :
  Str.dotted_digits v = true ->
  Str.dotted_digits m = true ->
  Version.older v m = Ret (Version.ints_lt (numbers v) (numbers m)).
Proof.
  intros Hv Hm. unfold Version.older.
  rewrite (sversion_numbers v Hv), (sversion_numbers m Hm). apply tuple_lt_ints.
Qed.

Lemma numeric_versions_compare_by_number_witness :
  Version.older "9.5" "11.0" = Ret true /\ String.ltb "9.5" "11.0" = false.
Proof.
  split; [|reflexivity].
  rewrite (numeric_versions_compare_by_number "9.5" "11.0"); reflexivity.
Defined.

Lemma scan_skips {V : Type} `{VersionOps V}
    (d : list (Catalog.version_tuple (V := V) * string))
    (before : list string) (f : string) (after : list string) :
  Catalog.candidate f = None ->
  Catalog.scan d (before ++ f :: after)%list = Catalog.scan d (before ++ after)%list.
Proof.
  intros Hf. revert d. induction before as [|g before IH]; intros d; simpl.
  - now rewrite Hf.
  - destruct (Catalog.candidate g) as [[sv tv]|]; [|apply IH].
    destruct (Catalog.parse_tuple sv tv) as [t|e]; simpl; [apply IH | reflexivity].
Qed.

(** X14. A file of the folder whose name does not end in [.eb], or that has
    no version the pattern finds, has no influence on the choice of the
    newest easyconfig, wherever it stands in the listing: the result, also
    an exception, is the one for the listing without it. *)
Theorem other_files_do_not_matter {V : Type} `{VersionOps V}
    (before : list string) (f : string) (after : list string) :
  Str.endswith ".eb" f = false \/ Catalog.extract f = None ->
  Catalog._get_latest_easyconfig (V := V) (before ++ f :: after)%list
  = Catalog._get_latest_easyconfig (V := V) (before ++ after)%list.
Proof.
  intros Hf. unfold Catalog._get_latest_easyconfig.
  rewrite (scan_skips [] before f after); [reflexivity|].
  unfold Catalog.candidate. destruct Hf as [-> | Hx]; [reflexivity|].
  now destruct (negb _).
Qed.

Lemma other_files_do_not_matter_witness :
  Catalog._get_latest_easyconfig (V := list Z)
    ["zlib-1.2.11.eb"; "zlib-1.2.12_fix-build.patch"; "zlib-1.2.12.eb"]
  = Ret (Some "zlib-1.2.12.eb").
Proof.
  rewrite (other_files_do_not_matter ["zlib-1.2.11.eb"] "zlib-1.2.12_fix-build.patch"
             ["zlib-1.2.12.eb"]).
  - vm_compute. reflexivity.
  - left. vm_compute. reflexivity.
Defined.

Lemma market_sound (price_ondemand price_spot : Q) (ondemand : bool) (az : string) :
  sound_request price_ondemand ondemand az
    (Fleet.market price_ondemand price_spot ondemand az).
Proof.
  unfold Fleet.market, sound_request, Fleet.Qlt_bool.
  destruct (Qle_bool (price_spot * (105 # 100)) price_ondemand) eqn:Hle; simpl;
    [|reflexivity].
  destruct ondemand; simpl; [reflexivity|].
  split; [reflexivity|]. split; [|reflexivity]. now apply Qle_bool_iff.
Qed.

Lemma launch_loop_sound (create_instances : nat -> Fleet.request -> Fleet.response)
    (price_ondemand : Q) (ondemand : bool) (az : string) (n i : nat) (price_spot : Q)
    (sent : list Fleet.request) :
  Forall (sound_request price_ondemand ondemand az) sent ->
  Forall (sound_request price_ondemand ondemand az)
    (fst (Fleet.launch_loop create_instances price_ondemand ondemand az
            n i price_spot sent)).
Proof.
  revert i price_spot sent.
  induction n as [|n IH]; intros i price_spot sent Hs; simpl; [exact Hs|].
  assert (Forall (sound_request price_ondemand ondemand az)
            (Fleet.market price_ondemand price_spot ondemand az :: sent)) as Hs'
    by (constructor; [apply market_sound | exact Hs]).
  destruct (create_instances i _) as [inst|code msg|]; simpl; try exact Hs'.
  destruct (String.eqb code "AccessDenied"); [exact Hs'|].
  destruct (String.eqb code "SpotMaxPriceTooLow").
  - destruct (Fleet._extract_last_float msg) as [p|]; simpl; [now apply IH | exact Hs'].
  - destruct (String.eqb code "OptInRequired"); [exact Hs'|].
    destruct (String.eqb code "InsufficientInstanceCapacity"); exact Hs'.
Qed.

(** X15. Whatever the provisioning API answers, every request of the launch
    is either an on-demand request, with no market options and no
    placement, or a one-time spot request in the chosen zone whose maximum
    price is at most the on-demand price; with [--on-demand] no spot
    request is ever made, also not on the retry. *)
Theorem spot_bid_never_above_on_demand
    (create_instances : nat -> Fleet.request -> Fleet.response)
    (price_ondemand : Q) (ondemand : bool) (az : string) (price_spot : Q) :
  Forall (sound_request price_ondemand ondemand az)
    (fst (Fleet._ec2_launch_instance create_instances price_ondemand ondemand az
            price_spot)).
Proof.
  unfold Fleet._ec2_launch_instance.
  pose proof (launch_loop_sound create_instances price_ondemand ondemand az 2 0
                price_spot [] (List.Forall_nil _)) as H.
  destruct (Fleet.launch_loop create_instances price_ondemand ondemand az 2 0
              price_spot []) as [sent r].
  simpl in *. apply Forall_rev. exact H.
Qed.

(** X16. When both requests are rejected with [SpotMaxPriceTooLow] and each
    message names a price, the loop ends without an instance: two requests
    were made, the second from the price of the first message, and the
    first use of [instance] after the loop raises [UnboundLocalError]. *)
Theorem second_price_rejection_leaves_no_instance
    (create_instances : nat -> Fleet.request -> Fleet.response)
    (price_ondemand : Q) (ondemand : bool) (az : string) (price_spot : Q)
    (errmsg errmsg' : string) (suggested suggested' : Q) :
  create_instances 0%nat (Fleet.market price_ondemand price_spot ondemand az)
  = Fleet.ClientError "SpotMaxPriceTooLow" errmsg ->
  Fleet._extract_last_float errmsg = Some suggested ->
  create_instances 1%nat (Fleet.market price_ondemand suggested ondemand az)
  = Fleet.ClientError "SpotMaxPriceTooLow" errmsg' ->
  Fleet._extract_last_float errmsg' = Some suggested' ->
  Fleet._ec2_launch_instance create_instances price_ondemand ondemand az price_spot
  = ([Fleet.market price_ondemand price_spot ondemand az;
      Fleet.market price_ondemand suggested ondemand az],
     Raise UnboundLocalError).
Proof.
  intros H0 Hf0 H1 Hf1. unfold Fleet._ec2_launch_instance, Fleet.launch_loop.
  rewrite H0. cbn [String.eqb Ascii.eqb Bool.eqb]. rewrite Hf0, H1.
  cbn [String.eqb Ascii.eqb Bool.eqb]. rewrite Hf1. reflexivity.
Qed.

Lemma second_price_rejection_leaves_no_instance_witness :
  snd (Fleet._ec2_launch_instance
         (fun i _ => match i with
                     | O => Fleet.ClientError "SpotMaxPriceTooLow" "... 0.62 is too low ..."
                     | _ => Fleet.ClientError "SpotMaxPriceTooLow" "... 0.70 is too low ..."
                     end)
         (1 # 1) false "us-west-2a" (1 # 2))
  = Raise UnboundLocalError.
Proof.
  rewrite (second_price_rejection_leaves_no_instance _ (1 # 1) false "us-west-2a" (1 # 2)
             "... 0.62 is too low ..." "... 0.70 is too low ..." (62 # 100) (70 # 100));
    [reflexivity | reflexivity | vm_compute; reflexivity | reflexivity
    | vm_compute; reflexivity].
Defined.

(** X17. When a request is rejected with [SpotMaxPriceTooLow] and the
    message holds no decimal number, [_extract_last_float] returns [None]
    and the formatting of the new price raises [TypeError] inside the
    handler: no second request is made and the launch does not end with
    one of its exit codes. *)
Theorem price_rejection_without_number_raises
    (create_instances : nat -> Fleet.request -> Fleet.response)
    (price_ondemand : Q) (ondemand : bool) (az : string) (price_spot : Q)
    (errmsg : string) :
  create_instances 0%nat (Fleet.market price_ondemand price_spot ondemand az)
  = Fleet.ClientError "SpotMaxPriceTooLow" errmsg ->
  Fleet._extract_last_float errmsg = None ->
  Fleet._ec2_launch_instance create_instances price_ondemand ondemand az price_spot
  = ([Fleet.market price_ondemand price_spot ondemand az], Raise TypeError).
Proof.
  intros H0 Hf0. unfold Fleet._ec2_launch_instance, Fleet.launch_loop.
  rewrite H0. cbn [String.eqb Ascii.eqb Bool.eqb]. rewrite Hf0. reflexivity.
Qed.

Lemma price_rejection_without_number_raises_witness :
  snd (Fleet._ec2_launch_instance
         (fun _ _ => Fleet.ClientError "SpotMaxPriceTooLow" "Your bid is too low")
         (1 # 1) false "us-west-2a" (1 # 2))
  = Raise TypeError.
Proof.
  rewrite (price_rejection_without_number_raises _ (1 # 1) false "us-west-2a" (1 # 2)
             "Your bid is too low"); [reflexivity | reflexivity | vm_compute; reflexivity].
Defined.

Lemma forallb_append (q : ascii -> bool) (a b : string) :
  Str.forallb q (a ++ b) = Str.forallb q a && Str.forallb q b.
Proof.
  induction a as [|c a IH]; [reflexivity|].
  rewrite append_cons. simpl. now rewrite IH, andb_assoc.
Qed.

Lemma forallb_rev_acc (q : ascii -> bool) (acc s : string) :
  Str.forallb q (Str.rev_acc acc s) = Str.forallb q acc && Str.forallb q s.
Proof.
  revert acc. induction s as [|c s IH]; intros acc; simpl.
  - now rewrite andb_true_r.
  - rewrite IH. simpl. destruct (q c), (Str.forallb q acc); reflexivity.
Qed.

Lemma forallb_lstrip (q : ascii -> bool) (s : string) :
  (forall c, Str.is_space c = true -> q c = true) ->
  Str.forallb q (Str.lstrip s) = Str.forallb q s.
Proof.
  intros Hq. induction s as [|c s IH]; [reflexivity|]. simpl.
  destruct (Str.is_space c) eqn:Hc; [|reflexivity].
  now rewrite (Hq c Hc), IH.
Qed.

(** [strip] removes blanks only. *)
Lemma forallb_strip (q : ascii -> bool) (s : string) :
  (forall c, Str.is_space c = true -> q c = true) ->
  Str.forallb q (Str.strip s) = Str.forallb q s.
Proof.
  intros Hq. unfold Str.strip, Str.rev.
  rewrite forallb_rev_acc, (forallb_lstrip q _ Hq), forallb_rev_acc,
    (forallb_lstrip q _ Hq).
  reflexivity.
Qed.

(** The last line of a file that ends with the line of an active sample,
    whatever the file held before. *)
Lemma readlines_active (file : string) :
  exists ls p,
    Monitor.readlines (file ++ Monitor.idle_line false)
    = (ls ++ [(p ++ Monitor.idle_line false)%string])%list.
Proof.
  induction file as [|c file (ls & p & IH)].
  - exists [], EmptyString. reflexivity.
  - rewrite append_cons. cbn [Monitor.readlines]. rewrite IH.
    destruct (Ascii.eqb c "010").
    + exists (String c EmptyString :: ls), p. reflexivity.
    + destruct ls as [|l ls]; simpl.
      * exists [], (String c p). reflexivity.
      * exists (String c l :: ls), p. reflexivity.
Qed.

(** An active sample ends the run of idle samples, whatever the state
    file held. *)
Lemma save_count_active (file : string) :
  Monitor.save_count false file = (file ++ Monitor.idle_line false, 0).
Proof.
  unfold Monitor.save_count. f_equal.
  destruct (readlines_active file) as (ls & p & ->).
  rewrite rev_app_distr. cbn [List.rev app Monitor.count_idle].
  destruct (String.eqb_spec (Str.strip (p ++ Monitor.idle_line false)) "1") as [He|];
    [|reflexivity].
  exfalso.
  assert (Str.forallb blank_or_one (Str.strip (p ++ Monitor.idle_line false)) = true) as H
    by now rewrite He.
  rewrite forallb_strip in H by (intros c Hc; unfold blank_or_one; now rewrite Hc).
  rewrite forallb_append in H. apply andb_true_iff in H as [_ H].
  vm_compute in H. discriminate H.
Qed.

(** X18. A busy machine is never taken for idle and never terminates
    itself: when the disk check or the network check of a run finds
    activity, the run appends an active sample to the state file, whatever
    the file held before (also a file that was edited or cut short), and
    returns [False] for every threshold of at least one sample; then
    [monitor_ec2] terminates nothing and sends no termination mail unless
    the instance status check has failed. *)
Theorem busy_machine_is_never_terminated (interval : positive) (min_idle_cnt : Z)
    (s : Monitor.sample) (file public_ip instance_id : string) (report_window : bool) :
  Monitor.disk_active interval s || Monitor.net_active interval s = true ->
  1 <= min_idle_cnt ->
  Monitor._monitor_is_idle interval min_idle_cnt s file
  = (file ++ Monitor.idle_line false, false)
  /\ (Monitor.disk_active 60 s || Monitor.net_active 60 s = true ->
      let e := Monitor.monitor_ec2 public_ip instance_id s false report_window file in
      Monitor.terminated e = []
      /\ Monitor.file_after e = file ++ Monitor.idle_line false
      /\ Monitor.mails e
         = if report_window then ["AWS-EB AWS cost report (" ++ instance_id ++ ")"] else []).
Proof.
  assert (forall i m, 1 <= m ->
            Monitor.disk_active i s || Monitor.net_active i s = true ->
            Monitor._monitor_is_idle i m s file = (file ++ Monitor.idle_line false, false))
    as Hidle.
  { intros i m Hm Hact. unfold Monitor._monitor_is_idle, Monitor._monitor_save_idle_state.
    rewrite save_count_active.
    assert ((m <=? 0) = false) as -> by (apply Z.leb_gt; lia).
    destruct (Monitor.disk_active i s); [reflexivity|].
    simpl in Hact. now rewrite Hact. }
  intros Hact Hmin. split; [now apply Hidle|].
  intros Hact60 e. subst e. unfold Monitor.monitor_ec2.
  assert (1 <= 72) as H72 by lia.
  rewrite (Hidle 60%positive 72 H72 Hact60). cbn [orb].
  destruct report_window; simpl; auto.
Qed.

Lemma busy_machine_is_never_terminated_witness :
  let s := {| Monitor.users_logged_in := false;
              Monitor.cpu_percent := 95 # 1;
              Monitor.io_start_write_bytes := 0; Monitor.io_end_write_bytes := 0;
              Monitor.net_start_bytes_sent := 0; Monitor.net_end_bytes_sent := 6000000;
              Monitor.net_start_bytes_recv := 0; Monitor.net_end_bytes_recv := 0;
              Monitor.procs_io := []; Monitor.procs_cpu := [] |} in
  Monitor._monitor_is_idle 60 72 s "1
1
garbage" = ("1
1
garbage0
", false).
Proof.
  intros s.
  refine (proj1 (busy_machine_is_never_terminated 60 72 s _ "" "" false _ _));
    [vm_compute; reflexivity | lia].
Defined.

Lemma matches_plus_chr (p : ascii -> bool) (s : string) :
  Regex.matches (Regex.Plus (Regex.Chr p)) s ->
  s <> EmptyString /\ Str.forallb p s = true.
Proof.
  unfold Regex.Plus. intros H. inversion H as [|r1 r2 s1 s2 H1 H2| | | | |]; subst.
  inversion H1 as [q c Hc| | | | | |]; subst. apply matches_star_chr in H2.
  change (String c EmptyString ++ s2) with (String c s2). split; [discriminate|].
  cbn [Str.forallb]. now rewrite Hc, H2.
Qed.

Lemma matches_lit (c : ascii) (s : string) :
  Regex.matches (Regex.lit c) s -> s = String c EmptyString.
Proof.
  intros H. inversion H as [p x Hx| | | | | |]; subst.
  apply Ascii.eqb_eq in Hx. now subst.
Qed.

Lemma match_at_sound (r : Regex.re) (s : string) (c : Regex.captures) (rest : string) :
  Regex.match_at r s = Some (c, rest) -> Forall (Regex.capture_of r) c.
Proof.
  unfold Regex.match_at. intros E.
  apply exec_sound in E as (s1 & rest' & new & _ & _ & [= <- _] & Hc).
  now rewrite app_nil_r.
Qed.

(** What a line that matches gives: a module name and an easyconfig
    name without blanks, the latter ending in [.eb]. *)
Lemma parse_line_sound (line module easyconfig : string) :
  MissingModules.parse_line line = Some (module, easyconfig) ->
  (module <> EmptyString /\ Str.forallb MissingModules.non_space module = true)
  /\ exists stem, easyconfig = stem ++ ".eb" /\ stem <> EmptyString
                  /\ Str.forallb MissingModules.non_space easyconfig = true.
Proof.
  unfold MissingModules.parse_line.
  destruct (Regex.match_at MissingModules.pattern line) as [[c rest]|] eqn:Hm; [|discriminate].
  destruct (Regex.group 1 c) as [g1|] eqn:H1; [|discriminate].
  destruct (Regex.group 2 c) as [g2|] eqn:H2; [|discriminate].
  intros [= -> ->].
  apply match_at_sound in Hm. rewrite List.Forall_forall in Hm.
  apply group_in in H1, H2. split.
  - destruct (Hm _ H1) as (r' & Hin & Hr). simpl in Hin.
    destruct Hin as [[= <-]|[[=]|[]]]. now apply matches_plus_chr.
  - destruct (Hm _ H2) as (r' & Hin & Hr). simpl in Hin.
    destruct Hin as [[=]|[[= <-]|[]]]. simpl in Hr.
    inversion Hr as [|r1 r2 a b Ha Hb| | | | |]; subst.
    inversion Hb as [|r1 r2 b1 b' Hb1 Hb'| | | | |]; subst.
    inversion Hb' as [|r1 r2 b2 b3 Hb2 Hb3| | | | |]; subst.
    apply matches_lit in Hb1, Hb2, Hb3. subst.
    apply matches_plus_chr in Ha as [Hne Hns].
    exists a. split; [reflexivity|]. split; [exact Hne|].
    rewrite forallb_append, Hns. reflexivity.
Qed.

Lemma exec_star_chr {R : Type} (p : ascii -> bool) (s : string) (caps : Regex.captures)
    (k : string -> Regex.captures -> option R) :
  Regex.exec (Regex.Star (Regex.Chr p)) s caps k
  = longest_first p (fun s' => k s' caps) s.
Proof.
  induction s as [|c s IH].
  - reflexivity.
  - cbn [longest_first]. rewrite <- IH. cbn [Regex.exec String.length].
    destruct (p c); [|reflexivity].
    assert ((String.length s <? S (String.length s))%nat = true) as ->
      by (apply Nat.ltb_lt; lia).
    reflexivity.
Qed.

Lemma exec_seq {R : Type} (r1 r2 : Regex.re) (s : string) (caps : Regex.captures)
    (k : string -> Regex.captures -> option R) :
  Regex.exec (Regex.Seq r1 r2) s caps k
  = Regex.exec r1 s caps (fun s1 c1 => Regex.exec r2 s1 c1 k).
Proof. reflexivity. Qed.

Lemma exec_grp {R : Type} (n : nat) (r : Regex.re) (s : string) (caps : Regex.captures)
    (k : string -> Regex.captures -> option R) :
  Regex.exec (Regex.Grp n r) s caps k
  = Regex.exec r s caps (fun s1 c1 => k s1 ((n, Regex.consumed s s1) :: c1)).
Proof. reflexivity. Qed.

Lemma exec_chr {R : Type} (p : ascii -> bool) (c : ascii) (s : string)
    (caps : Regex.captures) (k : string -> Regex.captures -> option R) :
  Regex.exec (Regex.Chr p) (String c s) caps k = if p c then k s caps else None.
Proof. reflexivity. Qed.

Lemma exec_chr_nil {R : Type} (p : ascii -> bool) (caps : Regex.captures)
    (k : string -> Regex.captures -> option R) :
  Regex.exec (Regex.Chr p) EmptyString caps k = None.
Proof. reflexivity. Qed.

(** A run of [p] in front changes nothing when the match succeeds
    behind it. *)
Lemma longest_first_run {R : Type} (p : ascii -> bool) (k : string -> option R)
    (a s : string) (x : R) :
  Str.forallb p a = true ->
  longest_first p k s = Some x ->
  longest_first p k (a ++ s) = Some x.
Proof.
  intros Ha Hs. induction a as [|c a IH]; [exact Hs|].
  simpl in Ha. apply andb_true_iff in Ha as [Hc Ha].
  rewrite append_cons. cbn [longest_first]. now rewrite Hc, (IH Ha).
Qed.

(** At the end of the run there is one choice. *)
Lemma longest_first_end {R : Type} (p : ascii -> bool) (k : string -> option R)
    (tail : string) :
  tail = EmptyString \/ (exists c t, tail = String c t /\ p c = false) ->
  longest_first p k tail = k tail.
Proof.
  intros [-> | (c & t & -> & Hc)]; [reflexivity|]. cbn [longest_first]. now rewrite Hc.
Qed.

Lemma parse_line_complete (module stem tail : string) :
  module <> EmptyString -> Str.forallb MissingModules.non_space module = true ->
  stem <> EmptyString -> Str.forallb MissingModules.non_space stem = true ->
  tail = EmptyString \/ (exists c t, tail = String c t /\ Str.is_space c = true) ->
  MissingModules.parse_line ("* " ++ module ++ " (" ++ stem ++ ".eb)" ++ tail)
  = Some (module, stem ++ ".eb").
Proof.
  intros Hm Hmns Hs Hsns Htail.
  assert (tail = EmptyString
          \/ exists c t, tail = String c t /\ MissingModules.non_space c = false) as Htail'.
  { destruct Htail as [-> | (c & t & -> & Hc)]; [now left|]. right. exists c, t.
    split; [reflexivity|]. unfold MissingModules.non_space. now rewrite Hc. }
  assert (forall {R : Type} caps (k : string -> Regex.captures -> option R),
            Regex.exec (Regex.lit ".") tail caps k = None) as Hdot.
  { intros R caps k. destruct Htail as [-> | (c & t & -> & Hc)]; [reflexivity|].
    unfold Regex.lit. rewrite exec_chr.
    destruct (Ascii.eqb_spec "." c) as [<-|]; [|reflexivity]. vm_compute in Hc. discriminate Hc. }
  destruct module as [|c m']; [contradiction|].
  destruct stem as [|d stem']; [contradiction|].
  cbn [Str.forallb] in Hmns, Hsns.
  apply andb_true_iff in Hmns as [Hc Hm']. apply andb_true_iff in Hsns as [Hd Hs'].
  unfold MissingModules.parse_line, Regex.match_at, MissingModules.pattern.
  change ("* " ++ String c m' ++ " (" ++ String d stem' ++ ".eb)" ++ tail)
    with (String "*" (String " " (String c (m' ++ String " " (String "("
            (String d (stem' ++ String "." (String "e" (String "b"
               (String ")" tail)))))))))).
  assert (MissingModules.non_space " " = false) as Nsp by reflexivity.
  assert (MissingModules.non_space "." = true) as Ndot by reflexivity.
  assert (MissingModules.non_space "e" = true) as Ne by reflexivity.
  assert (MissingModules.non_space "b" = true) as Nb by reflexivity.
  assert (MissingModules.non_space ")" = true) as Npar by reflexivity.
  set (W := String "." (String "e" (String "b" (String ")" tail)))).
  set (Z := String d (stem' ++ W)).
  set (Y := String " " (String "(" Z)).
  set (X := String c (m' ++ Y)).
  unfold Regex.lit at 1 2.
  rewrite exec_seq, exec_chr. cbn [Ascii.eqb Bool.eqb].
  rewrite exec_seq, exec_chr. cbn [Ascii.eqb Bool.eqb].
  rewrite exec_seq, exec_grp. unfold Regex.Plus at 1.
  unfold X at 1. rewrite exec_seq, exec_chr, Hc, exec_star_chr.
  match goal with
  | |- context [longest_first ?p ?k (m' ++ Y)] =>
      assert (longest_first p k (m' ++ Y)
              = Some ([(2%nat, Regex.consumed Z (String ")" tail));
                       (1%nat, Regex.consumed X Y)], tail)) as ->
  end.
  { apply (longest_first_run _ _ m' Y _ Hm').
    unfold Y at 1. cbn [longest_first]. rewrite Nsp. fold Y.
    unfold Y at 1. unfold Regex.lit at 1 2.
    rewrite exec_seq, exec_chr. cbn [Ascii.eqb Bool.eqb].
    rewrite exec_seq, exec_chr. cbn [Ascii.eqb Bool.eqb].
    rewrite exec_seq, exec_grp, exec_seq. unfold Regex.Plus at 1.
    unfold Z at 1. rewrite exec_seq, exec_chr, Hd, exec_star_chr.
    apply (longest_first_run _ _ stem' W _ Hs').
    unfold W at 1. cbn [longest_first]. rewrite Ndot, Ne, Nb, Npar.
    rewrite (longest_first_end _ _ tail Htail').
    rewrite exec_seq, Hdot.
    unfold Regex.lit.
    rewrite !exec_seq, !exec_chr. cbn [Ascii.eqb Bool.eqb].
    reflexivity. }
  cbn [Regex.group Nat.eqb].
  assert (Z = (String d stem' ++ ".eb") ++ String ")" tail) as ->
    by (unfold Z, W; now rewrite append_assoc).
  change X with (String c m' ++ Y).
  now rewrite !consumed_prefix.
Qed.

Lemma parse_line_other (line : string) :
  Str.startswith "* " line = false -> MissingModules.parse_line line = None.
Proof.
  intros H. unfold MissingModules.parse_line, Regex.match_at, MissingModules.pattern.
  unfold Regex.lit at 1 2. rewrite exec_seq.
  destruct line as [|a line]; [reflexivity|]. rewrite exec_chr.
  cbn [Str.startswith] in H.
  destruct (Ascii.eqb "*" a); [|reflexivity]. rewrite exec_seq.
  destruct line as [|b line]; [reflexivity|]. rewrite exec_chr.
  cbn [Str.startswith andb] in H.
  destruct (Ascii.eqb " " b); [|reflexivity]. discriminate H.
Qed.

Lemma linebreak_is_space (c : ascii) :
  MissingModules.is_linebreak c = true -> Str.is_space c = true.
Proof.
  unfold MissingModules.is_linebreak, Str.is_space. intros H.
  apply orb_true_iff in H as [H|H]; apply andb_true_iff in H as [H1 H2];
    apply N.leb_le in H1, H2.
  - apply orb_true_iff. left. apply orb_true_iff. right.
    apply andb_true_iff. split; apply N.leb_le; lia.
  - apply orb_true_iff. right.
    apply andb_true_iff. split; apply N.leb_le; lia.
Qed.

Lemma splitlines_line (line rest : string) :
  Str.forallb (fun c => negb (MissingModules.is_linebreak c)) line = true ->
  MissingModules.splitlines (line ++ String "010" rest)
  = line :: MissingModules.splitlines rest.
Proof.
  induction line as [|c line IH]; intros H.
  - change (EmptyString ++ String "010" rest) with (String "010" rest).
    cbn [MissingModules.splitlines].
    change (MissingModules.is_linebreak "010") with true. cbv iota.
    destruct rest as [|c' rest']; [reflexivity|].
    change (Ascii.eqb "010" "013") with false. reflexivity.
  - cbn [Str.forallb] in H. apply andb_true_iff in H as [Hc Hl].
    rewrite append_cons. cbn [MissingModules.splitlines].
    apply negb_true_iff in Hc. rewrite Hc, (IH Hl). reflexivity.
Qed.

Lemma splitlines_unlines (lines : list string) :
  Forall (fun l => Str.forallb (fun c => negb (MissingModules.is_linebreak c)) l = true)
    lines ->
  MissingModules.splitlines (unlines lines) = lines.
Proof.
  induction 1 as [|l lines Hl _ IH]; [reflexivity|].
  cbn [unlines fold_right]. fold (unlines lines). now rewrite (splitlines_line l _ Hl), IH.
Qed.

Lemma dict_set_new (d : list (string * string)) (k v : string) :
  ~ In k (map fst d) -> MissingModules.dict_set d k v = (d ++ [(k, v)])%list.
Proof.
  induction d as [|[k' v'] d IH]; intros Hk; simpl; [reflexivity|].
  destruct (String.eqb_spec k' k) as [->|_].
  - exfalso. apply Hk. now left.
  - rewrite IH; [reflexivity|]. intros Hin. apply Hk. now right.
Qed.

Lemma line_of_plain (e : string * string) :
  plain_names e ->
  Str.forallb (fun c => negb (MissingModules.is_linebreak c)) (line_of (fst e) (snd e))
  = true
  /\ MissingModules.parse_line (line_of (fst e) (snd e)) = Some (fst e, snd e ++ ".eb").
Proof.
  intros [[Hm Hmns] [Hs Hsns]]. split.
  - assert (forall t, Str.forallb MissingModules.non_space t = true ->
                      Str.forallb (fun c => negb (MissingModules.is_linebreak c)) t = true)
      as Hns.
    { induction t as [|c t IH]; [reflexivity|]. cbn [Str.forallb]. intros H.
      apply andb_true_iff in H as [Hc Ht]. rewrite (IH Ht), andb_true_r.
      unfold MissingModules.non_space in Hc.
      destruct (MissingModules.is_linebreak c) eqn:Hb; [|reflexivity].
      now rewrite (linebreak_is_space c Hb) in Hc. }
    unfold line_of. rewrite !forallb_append, (Hns _ Hmns), (Hns _ Hsns). reflexivity.
  - pose proof (parse_line_complete (fst e) (snd e) EmptyString Hm Hmns Hs Hsns
                  (or_introl eq_refl)) as H.
    unfold line_of. exact H.
Qed.

Lemma dict_set_entries (d : list (string * string)) (k v : string) (x : string * string) :
  In x (MissingModules.dict_set d k v) -> x = (k, v) \/ In x d.
Proof.
  induction d as [|[k' v'] d IH]; simpl.
  - intros [<-|[]]. now left.
  - destruct (String.eqb_spec k' k) as [->|_]; simpl.
    + intros [<-|H]; auto.
    + intros [<-|H]; auto. destruct (IH H); auto.
Qed.

Lemma dict_set_keys (d : list (string * string)) (k v : string) (x : string) :
  In x (map fst (MissingModules.dict_set d k v)) -> x = k \/ In x (map fst d).
Proof.
  intros H. apply in_map_iff in H as ([k0 v0] & <- & H).
  apply dict_set_entries in H as [[= -> ->]|H]; [now left|].
  right. apply in_map_iff. now exists (k0, v0).
Qed.

Lemma dict_set_NoDup (d : list (string * string)) (k v : string) :
  List.NoDup (map fst d) -> List.NoDup (map fst (MissingModules.dict_set d k v)).
Proof.
  induction d as [|[k' v'] d IH]; simpl; intros H.
  - constructor; [intros [] | constructor].
  - inversion H as [|? ? Hk' Hd]; subst.
    destruct (String.eqb_spec k' k) as [->|Hne]; simpl.
    + now constructor.
    + constructor; [|now apply IH].
      intros Hin. apply dict_set_keys in Hin as [->|Hin]; auto.
Qed.

Lemma collect_sound (lines : list string) (acc : list (string * string)) :
  List.NoDup (map fst acc) -> Forall well_formed acc ->
  let d := fold_left (fun modules line =>
                        match MissingModules.parse_line line with
                        | Some (module, easyconfig) =>
                            MissingModules.dict_set modules module easyconfig
                        | None => modules
                        end) lines acc in
  List.NoDup (map fst d) /\ Forall well_formed d.
Proof.
  revert acc. induction lines as [|line lines IH]; intros acc Hnd Hwf; simpl; [auto|].
  apply IH.
  - destruct (MissingModules.parse_line line) as [[m e]|]; [|exact Hnd].
    now apply dict_set_NoDup.
  - destruct (MissingModules.parse_line line) as [[m e]|] eqn:Hp; [|exact Hwf].
    apply List.Forall_forall. intros x Hx.
    apply dict_set_entries in Hx as [->|Hx].
    + exact (parse_line_sound line m e Hp).
    + rewrite List.Forall_forall in Hwf. now apply Hwf.
Qed.

(** X19. Whatever [eb --missing-modules] prints, the dictionary read from
    it has no module twice, and each of its entries is a module name and
    an easyconfig name that are not empty and hold no blank, the
    easyconfig name ending in [.eb] after at least one character. When the
    command fails the result is the dictionary with the one key [error],
    which is no such entry. *)
Theorem missing_modules_are_well_formed (output : option string) :
  match MissingModules._eb_missing_modules output with
  | Planner.Missing l => List.NoDup (map fst l) /\ Forall well_formed l
  | Planner.MissingError => output = None
  end.
Proof.
  destruct output as [text|]; [|reflexivity].
  apply (collect_sound (MissingModules.splitlines text) []); constructor.
Qed.

Lemma collect_entries (entries acc : list (string * string)) :
  List.NoDup (map fst acc ++ map fst entries) ->
  Forall plain_names entries ->
  fold_left (fun modules line =>
               match MissingModules.parse_line line with
               | Some (module, easyconfig) =>
                   MissingModules.dict_set modules module easyconfig
               | None => modules
               end) (map (fun e => line_of (fst e) (snd e)) entries) acc
  = (acc ++ map (fun e => (fst e, (snd e ++ ".eb")%string)) entries)%list.
Proof.
  revert acc. induction entries as [|e entries IH]; intros acc Hnd Hpl; simpl.
  - now rewrite app_nil_r.
  - inversion Hpl as [|? ? He Hes]; subst.
    rewrite (proj2 (line_of_plain e He)).
    rewrite dict_set_new.
    + rewrite IH; [now rewrite <- app_assoc| |exact Hes].
      rewrite map_app, <- app_assoc. exact Hnd.
    + intros Hin. apply NoDup_remove_2 in Hnd. apply Hnd.
      apply in_or_app. now left.
Qed.

Lemma collect_preamble (preamble lines : list string) (acc : list (string * string)) :
  Forall plain_line preamble ->
  fold_left (fun modules line =>
               match MissingModules.parse_line line with
               | Some (module, easyconfig) =>
                   MissingModules.dict_set modules module easyconfig
               | None => modules
               end) (preamble ++ lines) acc
  = fold_left (fun modules line =>
                 match MissingModules.parse_line line with
                 | Some (module, easyconfig) =>
                     MissingModules.dict_set modules module easyconfig
                 | None => modules
                 end) lines acc.
Proof.
  induction 1 as [|l preamble [_ Hl] _ IH]; [reflexivity|].
  simpl. now rewrite (parse_line_other l Hl).
Qed.

(** X20. The list that [eb --missing-modules] prints is read back as it
    was printed: for a text of lines that are no entries, followed by one
    line [* module (stem.eb)] for each of a list of distinct module names,
    names and stems without blanks, the result is the dictionary of these
    modules with their easyconfigs, in the order printed. *)
Theorem printed_modules_are_read_back (preamble : list string)
    (entries : list (string * string)) :
  Forall plain_line preamble ->
  Forall plain_names entries ->
  List.NoDup (map fst entries) ->
  MissingModules._eb_missing_modules (Some (print_missing preamble entries))
  = Planner.Missing (map (fun e => (fst e, snd e ++ ".eb")) entries).
Proof.
  intros Hpre Hent Hnd. unfold MissingModules._eb_missing_modules, print_missing.
  rewrite splitlines_unlines.
  - unfold MissingModules.collect. rewrite (collect_preamble _ _ _ Hpre).
    now rewrite (collect_entries entries [] Hnd Hent).
  - apply Forall_app. split.
    + eapply List.Forall_impl; [|exact Hpre]. now intros l [Hl _].
    + apply Forall_map. eapply List.Forall_impl; [|exact Hent].
      intros e He. exact (proj1 (line_of_plain e He)).
Qed.

Lemma printed_modules_are_read_back_witness :
  MissingModules._eb_missing_modules
    (Some "
2 out of 5 required modules missing:

* ncurses/6.3-GCCcore-12.2.0 (ncurses-6.3-GCCcore-12.2.0.eb)
* SAMtools/1.17-GCC-12.2.0 (SAMtools-1.17-GCC-12.2.0.eb)
")
  = Planner.Missing
      [("ncurses/6.3-GCCcore-12.2.0", "ncurses-6.3-GCCcore-12.2.0.eb");
       ("SAMtools/1.17-GCC-12.2.0", "SAMtools-1.17-GCC-12.2.0.eb")].
Proof.
  apply (printed_modules_are_read_back
           [""; "2 out of 5 required modules missing:"; ""]
           [("ncurses/6.3-GCCcore-12.2.0", "ncurses-6.3-GCCcore-12.2.0");
            ("SAMtools/1.17-GCC-12.2.0", "SAMtools-1.17-GCC-12.2.0")]).
  - repeat constructor.
  - repeat constructor; discriminate.
  - repeat constructor; simpl; intuition discriminate.
Defined.

Lemma get_found {A : Type} (d : list (string * A)) (k : string) (default v : A) :
  Instances.get d k default = v -> v = default \/ In (k, v) d.
Proof.
  induction d as [|[k' v'] d IH]; simpl; [intros <-; now left|].
  destruct (String.eqb_spec k' k) as [->|_].
  - intros <-. right. now left.
  - intros H. destruct (IH H); auto.
Qed.

(** X21. No instance family stands under two CPU types: for every CPU type
    and every family that [get_ec2_instance_families_from_cputype] lists
    for it, [get_ec2_cputype_from_instance_family] gives that CPU type
    back. *)
Theorem instance_family_names_its_cpu_type (cpu_type ifamily : string) :
  In ifamily (Instances.get_ec2_instance_families_from_cputype cpu_type) ->
  Instances.get_ec2_cputype_from_instance_family ifamily = cpu_type.
Proof.
  unfold Instances.get_ec2_instance_families_from_cputype. intros Hin.
  destruct (get_found Instances.cpu_types cpu_type []
              (Instances.get Instances.cpu_types cpu_type []) eq_refl) as [He|Ht].
  - rewrite He in Hin. destruct Hin.
  - assert (List.forallb
              (fun e => List.forallb
                          (fun f => String.eqb
                                      (Instances.get_ec2_cputype_from_instance_family f)
                                      (fst e)) (snd e))
              Instances.cpu_types = true) as Hall by (vm_compute; reflexivity).
    rewrite forallb_forall in Hall. specialize (Hall _ Ht). simpl in Hall.
    rewrite forallb_forall in Hall. now apply String.eqb_eq, Hall.
Qed.

Lemma instance_family_names_its_cpu_type_witness :
  Instances.get_ec2_cputype_from_instance_family "g5" = "epyc-gen-2".
Proof.
  apply instance_family_names_its_cpu_type. vm_compute. auto 10.
Defined.

(** X22. The launch goes on with a CPU type and an instance family that
    belong together: whenever [subcmd_launch] gets past its checks of
    [--cpu-type] and [--gpu-type], the family is one of the families of the
    CPU type it goes on with; with a GPU type it is the family of that GPU
    type and the CPU type is the one of that family, whatever [--cpu-type]
    said; and a GPU type of the table is never refused for want of a CPU
    type. *)
Theorem launch_family_belongs_to_cpu_type (cputype gputype : string) :
  match Instances.launch_types cputype gputype with
  | Some (cputype', fam) =>
      In fam (Instances.get_ec2_instance_families_from_cputype cputype')
      /\ (gputype <> EmptyString ->
          fam = Instances.get_ec2_instance_families_from_gputype gputype
          /\ cputype' = Instances.get_ec2_cputype_from_instance_family fam)
      /\ (gputype = EmptyString -> cputype' = cputype)
  | None =>
      (cputype = EmptyString /\ gputype = EmptyString)
      \/ (cputype <> EmptyString
          /\ Instances.get_ec2_instance_families_from_cputype cputype = [])
      \/ (gputype <> EmptyString
          /\ Instances.get_ec2_instance_families_from_gputype gputype = EmptyString)
  end.
Proof.
  assert (forall g fam,
            Instances.get_ec2_instance_families_from_gputype g = fam ->
            fam <> EmptyString ->
            Instances.get_ec2_cputype_from_instance_family fam <> EmptyString
            /\ In fam (Instances.get_ec2_instance_families_from_cputype
                         (Instances.get_ec2_cputype_from_instance_family fam))) as Hgpu.
  { intros g fam Hg Hne.
    destruct (get_found Instances.gpu_types g "" fam Hg) as [->|Ht]; [contradiction|].
    assert (List.forallb
              (fun e =>
                 negb (String.eqb (Instances.get_ec2_cputype_from_instance_family (snd e)) "")
                 && Str.mem (snd e)
                      (Instances.get_ec2_instance_families_from_cputype
                         (Instances.get_ec2_cputype_from_instance_family (snd e))))
              Instances.gpu_types = true) as Hall by (vm_compute; reflexivity).
    rewrite forallb_forall in Hall. specialize (Hall _ Ht). simpl in Hall.
    apply andb_true_iff in Hall as [H1 H2]. split.
    - apply negb_true_iff, String.eqb_neq in H1. exact H1.
    - now apply mem_In. }
  unfold Instances.launch_types.
  destruct cputype as [|a ct].
  - destruct gputype as [|b g]; [now left|].
    destruct (Instances.get_ec2_instance_families_from_gputype (String b g))
      as [|x fam] eqn:Hg; [right; right; split; [discriminate | reflexivity]|].
    destruct (Hgpu _ _ Hg) as [Hne Hin]; [discriminate|].
    destruct (Instances.get_ec2_cputype_from_instance_family (String x fam)) as [|y ct']
      eqn:Hct; [contradiction|].
    split; [exact Hin|]. split; [|discriminate].
    intros _. split; [reflexivity | now rewrite Hct].
  - destruct (Instances.get_ec2_instance_families_from_cputype (String a ct))
      as [|fam0 fams] eqn:Hc; [right; left; split; [discriminate | reflexivity]|].
    destruct gputype as [|b g].
    + split; [rewrite Hc; now left|]. split; [contradiction | reflexivity].
    + destruct (Instances.get_ec2_instance_families_from_gputype (String b g))
        as [|x fam] eqn:Hg; [right; right; split; [discriminate | reflexivity]|].
      destruct (Hgpu _ _ Hg) as [Hne Hin]; [discriminate|].
      destruct (Instances.get_ec2_cputype_from_instance_family (String x fam)) as [|y ct']
        eqn:Hct; [contradiction|].
      split; [exact Hin|]. split; [|discriminate].
      intros _. split; [reflexivity | now rewrite Hct].
Qed.

Section InstallFacts.
Variable run : nat -> string -> string -> bool.
Variables (os_type pm : string) (skip : list string).

Local Abbreviation ok := (OsPackages.allowed_for pm skip).

Lemma mem_skip (x : string) : Str.mem x skip = false -> ~ In x skip.
Proof.
  unfold Str.mem. intros H Hin.
  assert (existsb (String.eqb x) skip = true) as E.
  { apply existsb_exists. exists x. split; [exact Hin | apply String.eqb_refl]. }
  congruence.
Qed.

Lemma suffixed_facts (t : list string) (n : nat) :
  Forall (ok t) (fst (OsPackages.suffixed run os_type pm skip n t))
  /\ OsPackages.installed (fst (OsPackages.suffixed run os_type pm skip n t))
     = (if snd (OsPackages.suffixed run os_type pm skip n t) then 1 else 0)%nat.
Proof.
  revert n. induction t as [|x t IH]; intros n; simpl; [split; [constructor | reflexivity]|].
  assert (forall l, Forall (ok t) l -> Forall (ok (x :: t)) l) as Hmono.
  { intros l. apply List.Forall_impl. intros a (H1 & H2 & H3). repeat split; auto.
    now right. }
  destruct (Str.mem x skip) eqn:Hs.
  { destruct (IH n) as [H1 H2]. split; [now apply Hmono | exact H2]. }
  destruct (OsPackages.has_os_suffix os_type x).
  - destruct (run n pm x).
    + split; [|reflexivity]. constructor; [|constructor].
      repeat split; simpl; [now apply mem_skip | now left].
    + destruct (IH (S n)) as [H1 H2].
      destruct (OsPackages.suffixed run os_type pm skip (S n) t) as [calls inst].
      simpl in *. split; [|exact H2]. constructor; [|now apply Hmono].
      repeat split; simpl; [now apply mem_skip | now left].
  - destruct (IH n) as [H1 H2]. split; [now apply Hmono | exact H2].
Qed.

Lemma any_of_facts (t : list string) (n : nat) :
  Forall (ok t) (OsPackages.any_of run pm skip n t)
  /\ (OsPackages.installed (OsPackages.any_of run pm skip n t) <= 1)%nat.
Proof.
  revert n. induction t as [|x t IH]; intros n; simpl.
  { split; [constructor | cbn; lia]. }
  assert (forall l, Forall (ok t) l -> Forall (ok (x :: t)) l) as Hmono.
  { intros l. apply List.Forall_impl. intros a (H1 & H2 & H3). repeat split; auto.
    now right. }
  destruct (Str.mem x skip) eqn:Hs.
  { destruct (IH n) as [H1 H2]. split; [now apply Hmono | exact H2]. }
  destruct (run n pm x).
  - split; [|cbn; lia]. constructor; [|constructor].
    repeat split; simpl; [now apply mem_skip | now left].
  - destruct (IH (S n)) as [H1 H2]. split; [|exact H2].
    constructor; [|now apply Hmono].
    repeat split; simpl; [now apply mem_skip | now left].
Qed.

Lemma installed_app (a b : list OsPackages.attempt) :
  OsPackages.installed (a ++ b) = (OsPackages.installed a + OsPackages.installed b)%nat.
Proof. unfold OsPackages.installed. now rewrite List.filter_app, length_app. Qed.

Lemma install_tuple_facts (t : list string) (n : nat) :
  Forall (ok t) (OsPackages.install_tuple run os_type pm skip n t)
  /\ (OsPackages.installed (OsPackages.install_tuple run os_type pm skip n t) <= 1)%nat.
Proof.
  unfold OsPackages.install_tuple.
  destruct (suffixed_facts t n) as [H1 H2].
  destruct (OsPackages.suffixed run os_type pm skip n t) as [calls inst]. simpl in *.
  destruct inst.
  - split; [exact H1 | lia].
  - destruct (any_of_facts t (n + length calls)) as [H3 H4].
    split; [now apply Forall_app|]. rewrite installed_app. lia.
Qed.

Lemma install_all_facts (pkg_list : list (list string)) (n : nat) :
  Forall (OsPackages.allowed pm pkg_list skip)
    (OsPackages.install_all run os_type pm skip n pkg_list)
  /\ (OsPackages.installed (OsPackages.install_all run os_type pm skip n pkg_list)
      <= length pkg_list)%nat.
Proof.
  revert n. induction pkg_list as [|t rest IH]; intros n; simpl;
    [split; [constructor | cbn; lia]|].
  destruct (install_tuple_facts t n) as [H1 H2].
  destruct (IH (n + length (OsPackages.install_tuple run os_type pm skip n t))%nat)
    as [H3 H4].
  split.
  - apply Forall_app. split.
    + eapply List.Forall_impl; [|exact H1]. intros a (Ha & Hb & Hc).
      repeat split; auto. exists t. split; [now left | exact Hc].
    + eapply List.Forall_impl; [|exact H3]. intros a (Ha & Hb & (t' & Ht' & Hc)).
      repeat split; auto. exists t'. split; [now right | exact Hc].
  - rewrite installed_app. lia.
Qed.

End InstallFacts.

(** X23. Whatever the package manager answers, [install_os_packages]
    installs at most one package for each entry of [pkg_list]: the
    alternatives of an entry are tried until the first install that
    succeeds. Every command it runs uses the one package manager of the
    OS type ([apt] or [dnf]), for a package that is an alternative of some
    entry and is not in [package_skip_set]; on an OS type that is neither
    Debian-like nor Red-Hat-like it runs nothing. *)
Theorem one_install_per_entry (run : nat -> string -> string -> bool)
    (os_type : option string) (pkg_list : list (list string))
    (package_skip_set : list string) :
  let calls := OsPackages.install_os_packages run os_type pkg_list package_skip_set in
  (OsPackages.installed calls <= length pkg_list)%nat
  /\ match OsPackages.package_manager os_type with
     | Some pm =>
         (pm = "apt" \/ pm = "dnf")
         /\ Forall (OsPackages.allowed pm pkg_list package_skip_set) calls
     | None => calls = []
     end.
Proof.
  intros calls. subst calls. unfold OsPackages.install_os_packages.
  destruct os_type as [t|]; [|split; [cbn; lia | reflexivity]].
  destruct (OsPackages.package_manager (Some t)) as [pm|] eqn:Hpm;
    [|split; [cbn; lia | reflexivity]].
  destruct (install_all_facts run t pm package_skip_set pkg_list 0) as [H1 H2].
  split; [exact H2|]. split; [|exact H1].
  unfold OsPackages.package_manager in Hpm.
  destruct (Str.mem t ["debian"; "ubuntu"]); [injection Hpm as <-; now left|].
  destruct (Str.mem t ["fedora"; "centos"; "redhat"; "rhel"]); [|discriminate].
  injection Hpm as <-. now right.
Qed.

Lemma read_easyconfig_raises (parsed : option Easyconfig.ec_dict) :
  let toolchain := default ∅ (Easyconfig.ec_toolchain (default Easyconfig.empty parsed)) in
  toolchain !! "name" = None
  \/ (exists n, toolchain !! "name" = Some n /\ n <> "system"
                /\ toolchain !! "version" = None) ->
  Easyconfig._read_easyconfig parsed = Raise KeyError.
Proof.
  intros toolchain H. unfold Easyconfig._read_easyconfig. cbv zeta. fold toolchain.
  unfold Easyconfig.item.
  destruct H as [-> | (n & -> & Hn & Hv)]; [reflexivity|]. cbn [py_bind].
  apply String.eqb_neq in Hn. rewrite Hn, Hv. reflexivity.
Qed.

(** X24. An easyconfig that cannot be read is tried and forgotten: when the
    parser raises, [_read_easyconfig] goes on with an empty dictionary and
    raises [KeyError] at the name of the toolchain, as it does for every
    easyconfig without a toolchain name, or with a toolchain other than
    [system] that has no version; the pass is then abandoned, nothing is
    written to the store for the easyconfig and [eb] is called for nothing,
    so every later run reads the easyconfig again. *)
Theorem unreadable_easyconfig_is_not_recorded (c : Planner.config) (w : Planner.world)
    (st : Planner.state) (parsed : option Easyconfig.ec_dict) :
  attempted c w st ->
  Easyconfig.read_by w parsed ->
  let toolchain := default ∅ (Easyconfig.ec_toolchain (default Easyconfig.empty parsed)) in
  parsed = None
  \/ toolchain !! "name" = None
  \/ (exists n, toolchain !! "name" = Some n /\ n <> "system"
                /\ toolchain !! "version" = None) ->
  let st' := snd (Planner.build_one c w st) in
  Easyconfig._read_easyconfig parsed = Raise KeyError
  /\ fst (Planner.build_one c w st) = Planner.Abandoned KeyError
  /\ Planner.s3 st' = Planner.s3 st
  /\ Planner.invoked st' = Planner.invoked st.
Proof.
  intros Ha Hread toolchain Hbad st'. subst st'.
  assert (Easyconfig._read_easyconfig parsed = Raise KeyError) as Hr.
  { apply read_easyconfig_raises. fold toolchain.
    destruct Hbad as [-> | [H | H]]; auto. }
  unfold Easyconfig.read_by in Hread. rewrite Hr in Hread.
  split; [exact Hr|].
  rewrite (build_one_attempted c w st Ha).
  unfold Planner.plan_and_build. cbv zeta. fold (reloaded w st). rewrite Hread.
  cbn [fst snd]. split; [reflexivity|]. split; apply reloaded_fields.
Qed.

Lemma unreadable_easyconfig_is_not_recorded_witness :
  let c := {| Planner.min_toolchains := Version.default_min_toolchains;
              Planner.checkskipped := false;
              Planner.include := ""; Planner.exclude := "" |} in
  let w := {| Planner.ebfile := "broken-1.0.eb";
              Planner.ebpath := "/opt/eb/easyconfigs/b/broken/broken-1.0.eb";
              Planner.now := "2024-05-02T10:00:00+00:00";
              Planner.read_easyconfig := Raise KeyError;
              Planner.themissing := Planner.Missing [];
              Planner.themissing2 := Planner.Missing [];
              Planner.eb_run := fun _ => 0;
              Planner.eb_time := fun _ => 60;
              Planner.now_after := fun _ => "2024-05-02T10:01:00+00:00";
              Planner.copy_last_log := fun _ => Ret tt;
              Planner.new_tars := false |} in
  fst (Planner.build_one c w (Planner.initial ∅)) = Planner.Abandoned KeyError
  /\ Planner.s3 (snd (Planner.build_one c w (Planner.initial ∅))) = ∅.
Proof.
  intros c w.
  destruct (unreadable_easyconfig_is_not_recorded c w (Planner.initial ∅) None)
    as (_ & E2 & E3 & _).
  - left. vm_compute. reflexivity.
  - reflexivity.
  - left. reflexivity.
  - split; [exact E2 | rewrite E3; reflexivity].
Defined.

Lemma remove_filter (x : string) (dirs : list string) :
  List.NoDup dirs ->
  Walker.remove x dirs = List.filter (fun d => negb (String.eqb d x)) dirs.
Proof.
  induction 1 as [|y dirs Hy Hnd IH]; simpl; [reflexivity|].
  destruct (String.eqb_spec y x) as [->|Hne]; simpl.
  - symmetry. apply forallb_filter_id. apply forallb_forall. intros d Hd.
    apply negb_true_iff, String.eqb_neq. intros ->. contradiction.
  - now rewrite IH.
Qed.

Lemma filter_NoDup_str (f : string -> bool) (l : list string) :
  List.NoDup l -> List.NoDup (List.filter f l).
Proof.
  induction 1 as [|y l Hy Hnd IH]; simpl; [constructor|].
  destruct (f y); [|exact IH]. constructor; [|exact IH].
  intros Hin. apply filter_In in Hin as [Hin _]. contradiction.
Qed.

Lemma prune_filter (skipdirs dirs : list string) :
  List.NoDup dirs ->
  Walker.prune skipdirs dirs = List.filter (fun d => negb (Str.mem d skipdirs)) dirs.
Proof.
  unfold Walker.prune. revert dirs.
  induction skipdirs as [|s skipdirs IH]; intros dirs Hnd; simpl.
  - symmetry. apply forallb_filter_id. now apply forallb_forall.
  - assert ((if Str.mem s dirs then Walker.remove s dirs else dirs)
            = List.filter (fun d => negb (String.eqb d s)) dirs) as ->.
    { destruct (Str.mem s dirs) eqn:Hm; [now apply remove_filter|].
      symmetry. apply forallb_filter_id. apply forallb_forall. intros d Hd.
      apply negb_true_iff, String.eqb_neq. intros ->.
      apply mem_In in Hd. congruence. }
    rewrite IH by now apply filter_NoDup_str.
    clear. induction dirs as [|d dirs IH]; simpl; [reflexivity|].
    unfold Str.mem at 2. cbn [existsb]. fold (Str.mem d skipdirs).
    destruct (String.eqb d s); simpl; [exact IH|].
    destruct (Str.mem d skipdirs); simpl; now rewrite IH.
Qed.

(** X25. [_walker] never enters a directory named in [skipdirs], at any
    depth, and leaves out nothing else: for a tree whose directories hold
    distinct names it yields what the walk yields that drops every
    subdirectory with such a name, in the same order, and the names left in
    [dirs] are those not in [skipdirs]. *)
Theorem walker_skips_named_directories (skipdirs top : list string) (t : Walker.tree) :
  Walker.distinct_names t ->
  Walker._walker skipdirs top t = Walker.walk_without skipdirs top t.
Proof.
  revert top. induction t as [name subdirs files IH] using Walker.tree_induction.
  intros top [Hnd Hsub]. cbn [Walker._walker Walker.walk_without].
  rewrite (prune_filter skipdirs _ Hnd). f_equal.
  assert (forall sub, In sub subdirs ->
            Str.mem (Walker.dirname sub)
              (List.filter (fun d => negb (Str.mem d skipdirs)) (map Walker.dirname subdirs))
            = negb (Str.mem (Walker.dirname sub) skipdirs)) as Hmem.
  { intros sub Hin.
    destruct (Str.mem (Walker.dirname sub) skipdirs) eqn:Hs; simpl.
    - destruct (Str.mem _ (List.filter _ _)) eqn:Hm; [|reflexivity].
      apply mem_In, filter_In in Hm as [_ Hm]. now rewrite Hs in Hm.
    - apply mem_In, filter_In. split; [now apply in_map | now rewrite Hs]. }
  clear Hnd. revert Hmem.
  generalize (List.filter (fun d => negb (Str.mem d skipdirs)) (map Walker.dirname subdirs)).
  intros dirs Hmem.
  induction IH as [|sub subdirs Hsubeq _ IHl]; [reflexivity|].
  destruct Hsub as [Hd Hrest].
  rewrite (Hmem sub (or_introl eq_refl)), (IHl Hrest) by (intros s Hs; apply Hmem; now right).
  destruct (negb _); [now rewrite (Hsubeq _ Hd) | reflexivity].
Qed.

Lemma walker_skips_named_directories_witness :
  let t := Walker.Dir "easyconfigs"
             [Walker.Dir "z" [Walker.Dir "zlib" [] ["zlib-1.2.12.eb"];
                              Walker.Dir "__archive__" [Walker.Dir "old" [] []] []] [];
              Walker.Dir ".snapshot" [Walker.Dir "z" [] []] []] [] in
  map (fun y => fst (fst y)) (Walker._walker [".snapshot"; "__archive__"] ["easyconfigs"] t)
  = [["easyconfigs"]; ["easyconfigs"; "z"]; ["easyconfigs"; "z"; "zlib"]].
Proof.
  intros t. rewrite (walker_skips_named_directories _ _ t).
  - vm_compute. reflexivity.
  - vm_compute. repeat split; repeat constructor; simpl; intuition discriminate.
Defined.

Lemma rfind_from_append (c : ascii) (s1 s2 : string) (j stop best : Z) :
  VersionString.rfind_from c (s1 ++ s2) j stop best
  = VersionString.rfind_from c s2 (j + Z.of_nat (String.length s1)) stop
      (VersionString.rfind_from c s1 j stop best).
Proof.
  revert j best. induction s1 as [|x s1 IH]; intros j best.
  - cbn. now rewrite Z.add_0_r.
  - rewrite append_cons. cbn [VersionString.rfind_from String.length].
    rewrite IH. f_equal. lia.
Qed.

Lemma rfind_from_beyond (c : ascii) (s : string) (j stop best : Z) :
  stop <= j -> VersionString.rfind_from c s j stop best = best.
Proof.
  revert j best. induction s as [|x s IH]; intros j best Hj; [reflexivity|].
  cbn [VersionString.rfind_from].
  destruct (Z.ltb_spec j stop) as [H|_]; [lia|]. cbn [andb]. apply IH. lia.
Qed.

Lemma rfind_from_absent (s : string) (j stop best : Z) :
  VersionString.no_slash s = true ->
  VersionString.rfind_from "/" s j stop best = best.
Proof.
  revert j best. induction s as [|x s IH]; intros j best H; [reflexivity|].
  cbn in H. apply andb_true_iff in H as [Hx Hs]. apply negb_true_iff in Hx.
  cbn [VersionString.rfind_from]. rewrite Hx, andb_false_r. now apply IH.
Qed.

(** The last slash before the number is the one that ends [a]. *)
Lemma rfind_last_slash (a p rest : string) :
  VersionString.no_slash p = true ->
  a = "" \/ (exists a', a = a' ++ "/") ->
  VersionString.rfind "/" (a ++ p ++ rest) (Z.of_nat (String.length a + String.length p))
  = if String.eqb a "" then -1 else Z.of_nat (String.length a) - 1.
Proof.
  intros Hp [->|[a' ->]]; unfold VersionString.rfind.
  - cbn [String.length Nat.add String.eqb]. change ("" ++ p ++ rest) with (p ++ rest).
    rewrite rfind_from_append, (rfind_from_absent p) by exact Hp.
    apply rfind_from_beyond. lia.
  - assert (String.eqb (a' ++ "/") "" = false) as ->.
    { apply String.eqb_neq. destruct a'; discriminate. }
    rewrite !append_assoc, rfind_from_append.
    change ("/" ++ p ++ rest) with (String "/" (p ++ rest)).
    cbn [VersionString.rfind_from]. rewrite Ascii.eqb_refl, andb_true_r.
    rewrite !length_append. cbn [String.length].
    destruct (Z.ltb_spec (0 + Z.of_nat (String.length a'))
                (Z.of_nat (String.length a' + 1 + String.length p))) as [_|H]; [|lia].
    rewrite rfind_from_append, (rfind_from_absent p) by exact Hp.
    rewrite rfind_from_beyond by lia. lia.
Qed.

Lemma substring_skip (a s : string) (m : nat) :
  substring (String.length a) m (a ++ s) = substring 0 m s.
Proof. induction a as [|c a IH]; [reflexivity|]. rewrite append_cons. exact IH. Qed.

Lemma slice_middle (a m b : string) :
  VersionString.slice (a ++ m ++ b) (Z.of_nat (String.length a))
    (Z.of_nat (String.length a + String.length m)) = m.
Proof.
  unfold VersionString.slice. rewrite Nat2Z.id.
  replace (Z.to_nat (Z.of_nat (String.length a + String.length m) - Z.of_nat (String.length a)))
    with (String.length m) by lia.
  rewrite substring_skip. apply substring_prefix.
Qed.

Lemma loop_plain (t pre rest : string) (i : Z) (st : VersionString.scan) :
  VersionString.plain pre = true ->
  VersionString.numeric_found st = false ->
  VersionString.loop t i (pre ++ rest) st
  = VersionString.loop t (i + Z.of_nat (String.length pre)) rest st.
Proof.
  revert i. induction pre as [|x pre IH]; intros i Hp Hf.
  - cbn. now rewrite Z.add_0_r.
  - cbn in Hp. apply andb_true_iff in Hp as [Hx Hp]. apply negb_true_iff in Hx.
    rewrite append_cons. cbn [VersionString.loop String.length]. rewrite Hx, Hf.
    rewrite IH by assumption. f_equal. lia.
Qed.

Lemma loop_number (t r b : string) (i l k : Z) :
  Str.forallb VersionString.is_numeric r = true ->
  VersionString.stops b = true ->
  VersionString.loop t i (r ++ b)
    {| VersionString.numeric_found := true; VersionString.last_numeric_index := l;
       VersionString.last_slash_before_numeric := k |}
  = {| VersionString.numeric_found := true;
       VersionString.last_numeric_index :=
         if String.eqb r "" then l else i + Z.of_nat (String.length r) - 1;
       VersionString.last_slash_before_numeric := k |}.
Proof.
  revert i l. induction r as [|x r IH]; intros i l Hr Hb.
  - change ("" ++ b) with b. destruct b as [|c b]; [reflexivity|].
    cbn in Hb. apply negb_true_iff in Hb. cbn. now rewrite Hb.
  - cbn in Hr. apply andb_true_iff in Hr as [Hx Hr].
    rewrite append_cons. cbn [VersionString.loop]. rewrite Hx.
    cbn [VersionString.numeric_found VersionString.last_slash_before_numeric negb].
    rewrite IH by assumption. cbn [String.eqb String.length]. f_equal.
    destruct (String.eqb r "") eqn:E; [apply String.eqb_eq in E; subst; cbn; lia | lia].
Qed.

(** A string starts with its longest run of digits and dots. *)
Lemma span_numeric (t : string) :
  exists r b, t = r ++ b /\ Str.forallb VersionString.is_numeric r = true
              /\ VersionString.stops b = true.
Proof.
  induction t as [|x t (r & b & -> & Hr & Hb)].
  - now exists "", "".
  - destruct (VersionString.is_numeric x) eqn:Hx.
    + exists (String x r), b. rewrite append_cons. cbn. now rewrite Hx.
    + exists "", (String x (r ++ b)). cbn. now rewrite Hx.
Qed.

(** A string is cut at its last slash. *)
Lemma split_last_slash (pre : string) :
  exists a p, pre = a ++ p /\ (a = "" \/ exists a', a = a' ++ "/")
              /\ VersionString.no_slash p = true.
Proof.
  induction pre as [|x pre (a & p & -> & Ha & Hp)].
  - now exists "", ""; auto.
  - destruct Ha as [->|[a' ->]].
    + change ("" ++ p) with p. destruct (Ascii.eqb x "/") eqn:Hx.
      * apply Ascii.eqb_eq in Hx. subst x. exists "/", p.
        split; [reflexivity|]. split; [right; now exists ""|exact Hp].
      * exists "", (String x p). split; [reflexivity|]. split; [now left|].
        cbn. now rewrite Hx.
    + exists (String x (a' ++ "/")), p. split; [now rewrite append_cons|].
      split; [right; exists (String x a'); now rewrite append_cons|exact Hp].
Qed.

(** A string without a digit or dot, or the text before its first
    number, the number and what follows. *)
Lemma split_first_number (t : string) :
  VersionString.plain t = true
  \/ exists pre r b, t = pre ++ r ++ b /\ VersionString.plain pre = true
                     /\ r <> "" /\ Str.forallb VersionString.is_numeric r = true
                     /\ VersionString.stops b = true.
Proof.
  induction t as [|x t IH]; [now left|].
  destruct (VersionString.is_numeric x) eqn:Hx.
  - right. destruct (span_numeric t) as (r & b & -> & Hr & Hb).
    exists "", (String x r), b. change ("" ++ String x r ++ b) with (String x r ++ b).
    rewrite append_cons. split; [reflexivity|]. split; [reflexivity|].
    split; [discriminate|]. split; [cbn; now rewrite Hx | exact Hb].
  - destruct IH as [Hp|(pre & r & b & -> & Hp & Hne & Hr & Hb)].
    + left. cbn. now rewrite Hx.
    + right. exists (String x pre), r, b. rewrite append_cons.
      split; [reflexivity|]. split; [cbn; now rewrite Hx|]. auto.
Qed.

Lemma loop_none (t rest : string) (i : Z) (st : VersionString.scan) :
  VersionString.plain rest = true ->
  VersionString.numeric_found st = false ->
  VersionString.loop t i rest st = st.
Proof.
  intros Hp Hf. rewrite <- (append_nil_r rest), loop_plain by assumption. reflexivity.
Qed.

(** What the loop leaves for a string with a number. *)
Lemma loop_first_number (t a p r b : string) :
  t = a ++ p ++ r ++ b ->
  a = "" \/ (exists a', a = a' ++ "/") ->
  VersionString.plain (a ++ p) = true ->
  VersionString.no_slash p = true ->
  r <> "" ->
  Str.forallb VersionString.is_numeric r = true ->
  VersionString.stops b = true ->
  VersionString.loop t 0 t
    {| VersionString.numeric_found := false; VersionString.last_numeric_index := -1;
       VersionString.last_slash_before_numeric := -1 |}
  = {| VersionString.numeric_found := true;
       VersionString.last_numeric_index :=
         Z.of_nat (String.length a + String.length (p ++ r)) - 1;
       VersionString.last_slash_before_numeric :=
         if String.eqb a "" then -1 else Z.of_nat (String.length a) - 1 |}.
Proof.
  intros Ht Ha Hp Hnp Hne Hr Hb.
  destruct r as [|c r]; [contradiction|]. cbn in Hr. apply andb_true_iff in Hr as [Hc Hr].
  rewrite Ht at 2. rewrite <- append_assoc, loop_plain by (exact Hp || reflexivity).
  rewrite append_cons. cbn [VersionString.loop]. rewrite Hc.
  cbn [VersionString.numeric_found negb]. rewrite loop_number by assumption.
  rewrite !length_append, Z.add_0_l. cbn [String.length].
  rewrite Ht, (rfind_last_slash a p _ Hnp Ha). f_equal.
  destruct (String.eqb r "") eqn:E; [apply String.eqb_eq in E; subst; cbn; lia | lia].
Qed.

(** X26. [parse_version_string] gives the first number of the string with
    the text before it back to the last slash: after [-9-EC2-Base-] has
    been replaced by [-], a string without a digit or dot gives the empty
    string; any other string is [a ++ p ++ r ++ b], where [r] is its first
    run of digits and dots (followed by the end or another character), [p]
    the text before it that holds no slash, and [a] is empty or ends with
    the last slash before the number, and the result is [p ++ r]. *)
Theorem version_string_is_first_number_with_its_prefix (s : string) :
  let t := VersionString.replace "-9-EC2-Base-" "-" s in
  if VersionString.plain t then VersionString.parse_version_string s = ""
  else exists a p r b,
      t = a ++ p ++ r ++ b
      /\ VersionString.parse_version_string s = p ++ r
      /\ (a = "" \/ exists a', a = a' ++ "/")
      /\ VersionString.plain (a ++ p) = true
      /\ VersionString.no_slash p = true
      /\ r <> ""
      /\ Str.forallb VersionString.is_numeric r = true
      /\ VersionString.stops b = true.
Proof.
  intros t. unfold VersionString.parse_version_string. fold t. cbv zeta.
  destruct (VersionString.plain t) eqn:Hplain.
  - rewrite loop_none by (exact Hplain || reflexivity). reflexivity.
  - destruct (split_first_number t) as [Hp|(pre & r & b & Ht & Hp & Hne & Hr & Hb)];
      [congruence|].
    destruct (split_last_slash pre) as (a & p & -> & Ha & Hnp).
    exists a, p, r, b. rewrite append_assoc in Ht.
    split; [exact Ht|]. split; [|auto 10].
    rewrite (loop_first_number t a p r b) by assumption.
    cbn [VersionString.numeric_found VersionString.last_numeric_index
         VersionString.last_slash_before_numeric].
    assert ((if negb ((if String.eqb a "" then -1 else Z.of_nat (String.length a) - 1) =? -1)
             then (if String.eqb a "" then -1 else Z.of_nat (String.length a) - 1) + 1
             else 0) = Z.of_nat (String.length a)) as ->.
    { destruct (String.eqb a "") eqn:E.
      - apply String.eqb_eq in E. now subst.
      - destruct (Z.eqb_spec (Z.of_nat (String.length a) - 1) (-1)) as [H|H]; cbn [negb]; lia. }
    rewrite Z.sub_add, Ht, <- (append_assoc p). apply slice_middle.
Qed.

Lemma below_false (price lowest : Q) :
  Spot.below price (Some lowest) = false -> (lowest <= price)%Q.
Proof.
  unfold Spot.below, Fleet.Qlt_bool. intros H. apply negb_false_iff in H.
  now apply Qle_bool_iff.
Qed.

Lemma below_true (price lowest : Q) :
  Spot.below price (Some lowest) = true -> (price < lowest)%Q.
Proof.
  unfold Spot.below, Fleet.Qlt_bool. intros H. apply negb_true_iff in H.
  apply Qnot_le_lt. intros Hle. apply Qle_bool_iff in Hle. congruence.
Qed.

Lemma zone_step_lowest (seen : list Spot.zone) (r : option Q * option string)
    (az : Spot.zone) :
  Spot.lowest_of seen r -> Spot.lowest_of (seen ++ [az])%list (Spot.zone_step r az).
Proof.
  destruct az as [name [price|]]; unfold Spot.zone_step; cbn [fst snd].
  - destruct r as [[p|] [n|]]; cbn [fst]; try contradiction.
    + destruct (Spot.below price (Some p)) eqn:Hb.
      * intros (before & after & -> & Hbefore & Hafter). apply below_true in Hb.
        exists (before ++ (n, Some p) :: after)%list, []. split; [reflexivity|].
        split; [|constructor]. apply Forall_app. split.
        -- eapply List.Forall_impl; [|exact Hbefore]. intros az H q Hq.
           eapply Qlt_trans; [exact Hb | now apply H].
        -- constructor.
           ++ intros q Hq. cbn in Hq. injection Hq as <-. exact Hb.
           ++ eapply List.Forall_impl; [|exact Hafter]. intros az H q Hq.
              eapply Qlt_le_trans; [exact Hb | now apply H].
      * intros (before & after & -> & Hbefore & Hafter). apply below_false in Hb.
        exists before, (after ++ [(name, Some price)])%list.
        split; [now rewrite <- app_assoc|]. split; [exact Hbefore|].
        apply Forall_app. split; [exact Hafter|]. constructor; [|constructor].
        intros q Hq. cbn in Hq. injection Hq as <-. exact Hb.
    + intros Hnone. cbn [Spot.below]. exists seen, []. split; [reflexivity|].
      split; [|constructor]. eapply List.Forall_impl; [|exact Hnone].
      intros az H q Hq. congruence.
  - destruct r as [[p|] [n|]]; try contradiction.
    + intros (before & after & -> & Hbefore & Hafter).
      exists before, (after ++ [(name, None)])%list.
      split; [now rewrite <- app_assoc|]. split; [exact Hbefore|].
      apply Forall_app. split; [exact Hafter|]. constructor; [|constructor].
      intros q Hq. discriminate.
    + intros Hnone. apply Forall_app. split; [exact Hnone|]. now constructor.
Qed.

Lemma zones_lowest (zones seen : list Spot.zone) (r : option Q * option string) :
  Spot.lowest_of seen r ->
  Spot.lowest_of (seen ++ zones)%list (fold_left Spot.zone_step zones r).
Proof.
  revert seen r. induction zones as [|az zones IH]; intros seen r H.
  - now rewrite app_nil_r.
  - cbn [fold_left]. replace (seen ++ az :: zones)%list with ((seen ++ [az]) ++ zones)%list
      by now rewrite <- app_assoc.
    apply IH. now apply zone_step_lowest.
Qed.

Lemma regions_lowest (regions : list (list Spot.zone)) (seen : list Spot.zone)
    (r : option Q * option string) :
  Spot.lowest_of seen r ->
  Spot.lowest_of (seen ++ concat regions)%list
    (fold_left (fun lowest region => fold_left Spot.zone_step region lowest) regions r).
Proof.
  revert seen r. induction regions as [|region regions IH]; intros seen r H.
  - cbn. now rewrite app_nil_r.
  - cbn [fold_left concat]. rewrite app_assoc. apply IH. now apply zones_lowest.
Qed.

(** X27. [_ec2_current_spot_price] returns the lowest spot price of all
    availability zones of the regions and the first zone that has it; it
    returns an infinite price and no zone exactly when no zone has a spot
    price history. *)
Theorem cheapest_zone_is_chosen (regions : list (list Spot.zone)) :
  match Spot._ec2_current_spot_price regions with
  | (Some p, Some name) => Spot.first_lowest (concat regions) p name
  | (None, None) => Spot.no_price (concat regions)
  | _ => False
  end.
Proof.
  unfold Spot._ec2_current_spot_price.
  apply (regions_lowest regions [] (None, None)). constructor.
Qed.

(** *** Prices compared as strings *)

Lemma scale_cons (c : ascii) (s : string) : Spot.scale (String c s) = 10 * Spot.scale s.
Proof.
  unfold Spot.scale. cbn [String.length]. rewrite Nat2Z.inj_succ. apply Z.pow_succ_r. lia.
Qed.

Lemma scale_pos (s : string) : 0 < Spot.scale s.
Proof. unfold Spot.scale. apply Z.pow_pos_nonneg; lia. Qed.

Lemma int_acc_scale (acc : Z) (s : string) :
  Str.int_acc acc s = acc * Spot.scale s + Str.int s.
Proof.
  unfold Str.int. revert acc. induction s as [|c s IH]; intros acc.
  - cbn. unfold Spot.scale. cbn. lia.
  - cbn [Str.int_acc]. rewrite IH, (IH (10 * 0 + Str.digit_val c)), scale_cons. lia.
Qed.

Lemma int_cons (c : ascii) (s : string) :
  Str.int (String c s) = Str.digit_val c * Spot.scale s + Str.int s.
Proof.
  unfold Str.int at 1. cbn [Str.int_acc]. rewrite int_acc_scale. lia.
Qed.

Lemma int_append (a b : string) :
  Str.int (a ++ b) = Str.int a * Spot.scale b + Str.int b.
Proof.
  induction a as [|c a IH].
  - change ("" ++ b) with b. cbn. lia.
  - rewrite append_cons, !int_cons, IH.
    unfold Spot.scale. rewrite length_append, Nat2Z.inj_add, Z.pow_add_r by lia. lia.
Qed.

Lemma digit_val_range (c : ascii) : Str.is_digit c = true -> 0 <= Str.digit_val c <= 9.
Proof.
  unfold Str.is_digit, Str.digit_val. intros H. apply andb_true_iff in H as [H1 H2].
  apply N.leb_le in H1, H2. lia.
Qed.

Lemma int_range (s : string) :
  Str.forallb Str.is_digit s = true -> 0 <= Str.int s < Spot.scale s.
Proof.
  induction s as [|c s IH]; intros H.
  - cbn. unfold Spot.scale. cbn. lia.
  - cbn in H. apply andb_true_iff in H as [Hc Hs]. apply digit_val_range in Hc.
    rewrite int_cons, scale_cons. specialize (IH Hs). nia.
Qed.

Lemma digit_compare (x y : ascii) :
  match Ascii.compare x y with
  | Lt => Str.digit_val x < Str.digit_val y
  | Eq => x = y
  | Gt => Str.digit_val y < Str.digit_val x
  end.
Proof.
  destruct (Ascii.compare x y) eqn:E.
  - now apply Ascii.compare_eq_iff.
  - unfold Ascii.compare in E. apply (proj1 (N.compare_lt_iff _ _)) in E. unfold Str.digit_val. lia.
  - unfold Ascii.compare in E. apply (proj1 (N.compare_gt_iff _ _)) in E. unfold Str.digit_val. lia.
Qed.

Lemma same_digit_step (d a b c e : Z) :
  a * c <= b * e -> (d * e + a) * (10 * c) <= (d * c + b) * (10 * e).
Proof. intros. nia. Qed.

Lemma lower_digit_step (x y a b c e : Z) :
  x < y -> 0 <= a < e -> 0 <= b < c ->
  (x * e + a) * (10 * c) <= (y * c + b) * (10 * e).
Proof.
  intros Hxy Ha Hb.
  assert (0 <= e * c) as Hec by (apply Z.mul_nonneg_nonneg; lia).
  assert ((x + 1) * (e * c) <= y * (e * c)) by (apply Z.mul_le_mono_nonneg_r; lia).
  assert (a * c <= e * c) by (apply Z.mul_le_mono_nonneg_r; lia).
  assert (0 <= b * e) by (apply Z.mul_nonneg_nonneg; lia).
  lia.
Qed.

Lemma lower_number_step (x y a b s : Z) :
  x < y -> 0 <= a < s -> 0 <= b < s -> x * s + a < y * s + b.
Proof.
  intros Hxy Ha Hb.
  assert ((x + 1) * s <= y * s) by (apply Z.mul_le_mono_nonneg_r; lia).
  lia.
Qed.

Lemma lower_number_price (i1 i2 f1 f2 s1 s2 : Z) :
  i1 < i2 -> 0 <= f1 < s1 -> 0 <= f2 < s2 ->
  (i1 * s1 + f1) * s2 <= (i2 * s2 + f2) * s1.
Proof.
  intros Hi H1 H2.
  assert (0 <= s1 * s2) by (apply Z.mul_nonneg_nonneg; lia).
  assert ((i1 + 1) * (s1 * s2) <= i2 * (s1 * s2)) by (apply Z.mul_le_mono_nonneg_r; lia).
  assert (f1 * s2 <= s1 * s2) by (apply Z.mul_le_mono_nonneg_r; lia).
  assert (0 <= f2 * s1) by (apply Z.mul_nonneg_nonneg; lia).
  lia.
Qed.

Lemma same_number_price (i f1 f2 s1 s2 : Z) :
  f1 * s2 <= f2 * s1 -> (i * s1 + f1) * s2 <= (i * s2 + f2) * s1.
Proof. intros. nia. Qed.

(** Digits after the point: the string order is the order of the
    fractions. *)
Lemma fraction_order (f1 f2 : string) :
  Str.forallb Str.is_digit f1 = true -> Str.forallb Str.is_digit f2 = true ->
  String.compare f1 f2 = Lt ->
  Str.int f1 * Spot.scale f2 <= Str.int f2 * Spot.scale f1.
Proof.
  revert f2. induction f1 as [|x f1 IH]; intros [|y f2] H1 H2 Hc; try discriminate.
  - pose proof (int_range _ H2). change (Spot.scale "") with 1.
    change (Str.int "") with 0. lia.
  - cbn in H1, H2. apply andb_true_iff in H1 as [Hx H1], H2 as [Hy H2].
    cbn [String.compare] in Hc. pose proof (digit_compare x y) as Hxy.
    pose proof (int_range _ H1). pose proof (int_range _ H2).
    pose proof (scale_pos f1). pose proof (scale_pos f2).
    pose proof (digit_val_range _ Hx). pose proof (digit_val_range _ Hy).
    rewrite !int_cons, !scale_cons.
    destruct (Ascii.compare x y); [|clear IH Hc|discriminate].
    + subst y. apply same_digit_step. now apply IH.
    + apply lower_digit_step; assumption.
Qed.

(** Digits before the point, as many in both strings: the string order
    is the order of the numbers, and the rest decides for equal ones. *)
Lemma integer_order (i1 i2 r1 r2 : string) :
  Str.forallb Str.is_digit i1 = true -> Str.forallb Str.is_digit i2 = true ->
  String.length i1 = String.length i2 ->
  String.compare (i1 ++ r1) (i2 ++ r2) = Lt ->
  Str.int i1 < Str.int i2 \/ (i1 = i2 /\ String.compare r1 r2 = Lt).
Proof.
  revert i2. induction i1 as [|x i1 IH]; intros [|y i2] H1 H2 Hl Hc; try discriminate.
  - right. split; [reflexivity | exact Hc].
  - cbn in H1, H2. apply andb_true_iff in H1 as [Hx H1], H2 as [Hy H2].
    rewrite !append_cons in Hc. cbn [String.compare] in Hc.
    pose proof (digit_compare x y) as Hxy. injection Hl as Hl.
    pose proof (int_range _ H1). pose proof (int_range _ H2).
    assert (Spot.scale i1 = Spot.scale i2) as Hs by (unfold Spot.scale; now rewrite Hl).
    rewrite !int_cons.
    destruct (Ascii.compare x y); [|clear IH Hc|discriminate].
    + subst y. destruct (IH i2 H1 H2 Hl Hc) as [Hlt|[-> Hr]]; [left; lia | right; auto].
    + left. rewrite Hs in *. apply lower_number_step; assumption.
Qed.

Lemma split_one (sep : ascii) (s a : string) : Str.split sep s = [a] -> s = a.
Proof.
  revert a. induction s as [|c s IH]; intros a H.
  - cbn in H. now injection H.
  - cbn in H. pose proof (split_nonempty sep s) as Hne.
    destruct (Ascii.eqb c sep); [destruct (Str.split sep s); [contradiction|discriminate]|].
    destruct (Str.split sep s) as [|p ps] eqn:E; [contradiction|].
    injection H as <- ->. now rewrite (IH p eq_refl).
Qed.

Lemma split_two (sep : ascii) (s a b : string) :
  Str.split sep s = [a; b] -> s = a ++ String sep b.
Proof.
  revert a. induction s as [|c s IH]; intros a H; [discriminate|].
  cbn in H. pose proof (split_nonempty sep s) as Hne.
  destruct (Ascii.eqb_spec c sep) as [->|_].
  - injection H as <- H. now rewrite (split_one _ _ _ H).
  - destruct (Str.split sep s) as [|p ps] eqn:E; [contradiction|].
    injection H as <- ->. now rewrite (IH p eq_refl), append_cons.
Qed.

Lemma isdigit_forallb (s : string) :
  Str.isdigit s = true -> Str.forallb Str.is_digit s = true.
Proof. destruct s; [discriminate | auto]. Qed.

Lemma decimal_parts (n : nat) (s : string) :
  Spot.decimal n s = true ->
  exists i f, Str.split "." s = [i; f] /\ s = i ++ String "." f
              /\ Str.forallb Str.is_digit i = true /\ String.length i = n
              /\ Str.forallb Str.is_digit f = true.
Proof.
  unfold Spot.decimal. intros H.
  destruct (Str.split "." s) as [|i [|f [|]]] eqn:E; try discriminate.
  apply andb_true_iff in H as [H Hf]. apply andb_true_iff in H as [Hi Hn].
  exists i, f. split; [reflexivity|]. split; [now apply split_two|].
  split; [now apply isdigit_forallb|]. split; [now apply Nat.eqb_eq|].
  now apply isdigit_forallb.
Qed.

(** For prices with as many digits before the point, a price that is
    below as a string is not above as a number. *)
Lemma price_order (n : nat) (s1 s2 : string) :
  Spot.decimal n s1 = true -> Spot.decimal n s2 = true ->
  String.compare s1 s2 = Lt ->
  (Fleet.float_of s1 <= Fleet.float_of s2)%Q.
Proof.
  intros H1 H2 Hc.
  destruct (decimal_parts n s1 H1) as (i1 & f1 & E1 & -> & Hi1 & Hn1 & Hf1).
  destruct (decimal_parts n s2 H2) as (i2 & f2 & E2 & -> & Hi2 & Hn2 & Hf2).
  unfold Fleet.float_of. rewrite E1, E2. unfold Qle. cbn [Qnum Qden].
  fold (Spot.scale f1). fold (Spot.scale f2).
  pose proof (scale_pos f1). pose proof (scale_pos f2).
  rewrite !Z2Pos.id by assumption. rewrite !int_append.
  pose proof (int_range _ Hf1). pose proof (int_range _ Hf2).
  destruct (integer_order i1 i2 _ _ Hi1 Hi2 (eq_trans Hn1 (eq_sym Hn2)) Hc)
    as [Hlt|[-> Hr]].
  - apply lower_number_price; assumption.
  - cbn [String.compare] in Hr. change (Ascii.compare "." ".") with Eq in Hr.
    apply same_number_price. now apply fraction_order.
Qed.

Lemma price_order_ltb (n : nat) (s1 s2 : string) :
  Spot.decimal n s1 = true -> Spot.decimal n s2 = true ->
  if String.ltb s1 s2 then (Fleet.float_of s1 <= Fleet.float_of s2)%Q
  else (Fleet.float_of s2 <= Fleet.float_of s1)%Q.
Proof.
  intros H1 H2. unfold String.ltb.
  destruct (String.compare s1 s2) eqn:E.
  - apply String.compare_eq_iff in E. subst. apply Qle_refl.
  - now apply (price_order n).
  - apply (price_order n); try assumption.
    rewrite String.compare_antisym, E. reflexivity.
Qed.

Lemma min_from_lowest (n : nat) (cur : Spot.spot_price) (l : list Spot.spot_price) :
  Spot.decimal n (Spot.SpotPrice cur) = true ->
  List.Forall (fun h => Spot.decimal n (Spot.SpotPrice h) = true) l ->
  let m := Spot.min_from cur l in
  In m (cur :: l)
  /\ List.Forall (fun h => (Fleet.float_of (Spot.SpotPrice m)
                            <= Fleet.float_of (Spot.SpotPrice h))%Q) (cur :: l).
Proof.
  revert cur. induction l as [|x l IH]; intros cur Hcur Hl; cbn [Spot.min_from].
  - split; [now left|]. constructor; [apply Qle_refl | constructor].
  - inversion Hl as [|? ? Hx Hl']; subst.
    pose proof (price_order_ltb n _ _ Hx Hcur) as Ho.
    destruct (String.ltb (Spot.SpotPrice x) (Spot.SpotPrice cur)).
    + destruct (IH x Hx Hl') as [Hin Hall]. split.
      * right. exact Hin.
      * inversion Hall as [|? ? Hmx Hml]; subst.
        constructor; [eapply Qle_trans; [exact Hmx | exact Ho]|].
        constructor; assumption.
    + destruct (IH cur Hcur Hl') as [Hin Hall]. split.
      * destruct Hin as [<-|Hin]; [now left | right; now right].
      * inversion Hall as [|? ? Hmc Hml]; subst.
        constructor; [exact Hmc|].
        constructor; [eapply Qle_trans; [exact Hmc | exact Ho] | exact Hml].
Qed.

Lemma min_from_In (cur : Spot.spot_price) (l : list Spot.spot_price) :
  In (Spot.min_from cur l) (cur :: l).
Proof.
  revert cur. induction l as [|x l IH]; intros cur; cbn [Spot.min_from]; [now left|].
  destruct (String.ltb _ _).
  - right. apply IH.
  - destruct (IH cur) as [<-|Hin]; [now left | right; now right].
Qed.

(** X28. The instance type of the launch is the one with the lowest spot
    price, as long as all prices have as many digits before the point:
    [_ec2_get_cheapest_spot_instance] takes the minimum of the price
    history by the price strings, and for decimal prices with [n] digits
    before the point the entry that is lowest as a string is lowest as a
    number. It then returns the instance type, zone and price of that
    entry. *)
Theorem cheapest_instance_has_lowest_price
    (float : string -> py Q) (pages : option (list Spot.instance_type_info))
    (describe_spot_price_history : list string -> option (list Spot.spot_price))
    (cpu_type : string) (vcpus memory_gb : Z) (n : nat)
    (history : list Spot.spot_price) :
  let filtered_instances :=
    Spot._ec2_describe_instance_families pages cpu_type vcpus memory_gb in
  (forall s, Spot.decimal n s = true -> float s = Ret (Fleet.float_of s)) ->
  In cpu_type (map fst Instances.cpu_types) ->
  filtered_instances <> [] ->
  describe_spot_price_history (map Spot.InstanceType filtered_instances) = Some history ->
  history <> [] ->
  List.Forall (fun h => Spot.decimal n (Spot.SpotPrice h) = true) history ->
  exists cheapest,
    In cheapest history
    /\ Spot._ec2_get_cheapest_spot_instance float pages describe_spot_price_history
         cpu_type vcpus memory_gb
       = (Some (Spot.spot_InstanceType cheapest), Some (Spot.spot_AvailabilityZone cheapest),
          Some (Fleet.float_of (Spot.SpotPrice cheapest)))
    /\ List.Forall (fun h => (Fleet.float_of (Spot.SpotPrice cheapest)
                              <= Fleet.float_of (Spot.SpotPrice h))%Q) history.
Proof.
  intros filtered Hfloat Hcpu Hfilt Hdesc Hhist Hdec.
  unfold Spot._ec2_get_cheapest_spot_instance. cbv zeta. fold filtered.
  rewrite (proj2 (mem_In _ _) Hcpu). cbn [negb].
  destruct filtered as [|f0 fs] eqn:Ef; [contradiction|]. rewrite Hdesc.
  destruct history as [|x l]; [contradiction|].
  inversion Hdec as [|? ? Hx Hl]; subst.
  destruct (min_from_lowest n x l Hx Hl) as [Hin Hall].
  exists (Spot.min_from x l). split; [exact Hin|]. split; [|exact Hall].
  cbn [Spot.min_by_price py_bind].
  rewrite Hfloat by (rewrite List.Forall_forall in Hdec; now apply Hdec).
  reflexivity.
Qed.

Lemma cheapest_instance_has_lowest_price_witness :
  let float := fun s => if Spot.decimal 1 s then Ret (Fleet.float_of s) else Raise ValueError in
  let pages :=
    Some [{| Spot.InstanceType := "c7a.large"; Spot.DefaultVCpus := 2; Spot.SizeInMiB := 4096 |};
          {| Spot.InstanceType := "c7a.xlarge"; Spot.DefaultVCpus := 4; Spot.SizeInMiB := 8192 |};
          {| Spot.InstanceType := "m7a.xlarge"; Spot.DefaultVCpus := 4; Spot.SizeInMiB := 16384 |}] in
  let history :=
    [{| Spot.spot_InstanceType := "m7a.xlarge"; Spot.spot_AvailabilityZone := "us-west-2a";
        Spot.SpotPrice := "0.094300" |};
     {| Spot.spot_InstanceType := "c7a.xlarge"; Spot.spot_AvailabilityZone := "us-west-2b";
        Spot.SpotPrice := "0.071200" |}] in
  exists cheapest,
    In cheapest history
    /\ Spot._ec2_get_cheapest_spot_instance float pages (fun _ => Some history)
         "epyc-gen-4" 4 8
       = (Some (Spot.spot_InstanceType cheapest), Some (Spot.spot_AvailabilityZone cheapest),
          Some (Fleet.float_of (Spot.SpotPrice cheapest)))
    /\ List.Forall (fun h => (Fleet.float_of (Spot.SpotPrice cheapest)
                              <= Fleet.float_of (Spot.SpotPrice h))%Q) history.
Proof.
  intros float pages history.
  apply (cheapest_instance_has_lowest_price float pages (fun _ => Some history)
           "epyc-gen-4" 4 8 1 history).
  - intros s Hs. unfold float. now rewrite Hs.
  - vm_compute. auto 10.
  - vm_compute. discriminate.
  - reflexivity.
  - discriminate.
  - repeat constructor.
Defined.

(** X29. An instance type returned by [_ec2_get_cheapest_spot_instance]
    meets the request: when the price history names only instance types
    that were asked for, the instance type returned with a zone and a
    price is one of [describe_instance_types] with at least [vcpus] vCPUs
    and [memory_gb] GB of memory whose name starts with an instance
    family of the CPU type. Without a zone and price the first value is
    one of the two messages, or [None]. *)
Theorem cheapest_instance_meets_the_request
    (float : string -> py Q) (pages : option (list Spot.instance_type_info))
    (describe_spot_price_history : list string -> option (list Spot.spot_price))
    (cpu_type : string) (vcpus memory_gb : Z) :
  (forall ids history, describe_spot_price_history ids = Some history ->
     List.Forall (fun h => In (Spot.spot_InstanceType h) ids) history) ->
  match Spot._ec2_get_cheapest_spot_instance float pages describe_spot_price_history
          cpu_type vcpus memory_gb with
  | (Some instance_type, Some az, Some price) =>
      exists types info,
        pages = Some types /\ In info types
        /\ Spot.InstanceType info = instance_type
        /\ vcpus <= Spot.DefaultVCpus info
        /\ memory_gb * 1024 <= Spot.SizeInMiB info
        /\ Spot.startswith_any (Instances.get_ec2_instance_families_from_cputype cpu_type)
             instance_type = true
  | (Some message, None, None) =>
      message = "Invalid CPU type." \/ message = "No instances match the criteria."
  | (None, None, None) => True
  | _ => False
  end.
Proof.
  intros Hhonest. unfold Spot._ec2_get_cheapest_spot_instance. cbv zeta.
  destruct (negb _); [now left|].
  destruct (Spot._ec2_describe_instance_families pages cpu_type vcpus memory_gb)
    as [|f0 fs] eqn:Ef; [now right|]. rewrite <- Ef.
  destruct (describe_spot_price_history _) as [history|] eqn:Hd; [|exact I].
  specialize (Hhonest _ _ Hd).
  destruct history as [|x l]; [exact I|]. cbn [Spot.min_by_price py_bind].
  destruct (float _); [|exact I].
  rewrite List.Forall_forall in Hhonest. specialize (Hhonest _ (min_from_In x l)).
  apply in_map_iff in Hhonest as (info & Hinfo & Hin).
  unfold Spot._ec2_describe_instance_families in Hin. cbv zeta in Hin.
  destruct pages as [types|]; [|destruct Hin].
  apply filter_In in Hin as [Hin Hok].
  apply andb_true_iff in Hok as [Hok Hmem]. apply andb_true_iff in Hok as [Hfam Hcpu].
  exists types, info. rewrite Hinfo in Hfam.
  split; [reflexivity|]. split; [exact Hin|]. split; [exact Hinfo|].
  split; [now apply Z.leb_le|]. split; [now apply Z.leb_le|]. exact Hfam.
Qed.

Lemma cheapest_instance_meets_the_request_witness :
  let float := fun s => if Spot.decimal 1 s then Ret (Fleet.float_of s) else Raise ValueError in
  let pages :=
    Some [{| Spot.InstanceType := "c7a.large"; Spot.DefaultVCpus := 2; Spot.SizeInMiB := 4096 |};
          {| Spot.InstanceType := "c7a.xlarge"; Spot.DefaultVCpus := 4; Spot.SizeInMiB := 8192 |};
          {| Spot.InstanceType := "m7a.xlarge"; Spot.DefaultVCpus := 4; Spot.SizeInMiB := 16384 |}] in
  let describe := fun ids : list string =>
    Some (map (fun i => {| Spot.spot_InstanceType := i; Spot.spot_AvailabilityZone := "us-west-2b";
                           Spot.SpotPrice := "0.071200" |}) ids) in
  match Spot._ec2_get_cheapest_spot_instance float pages describe "epyc-gen-4" 4 8 with
  | (Some instance_type, Some az, Some price) =>
      exists types info,
        pages = Some types /\ In info types
        /\ Spot.InstanceType info = instance_type
        /\ 4 <= Spot.DefaultVCpus info
        /\ 8 * 1024 <= Spot.SizeInMiB info
        /\ Spot.startswith_any (Instances.get_ec2_instance_families_from_cputype "epyc-gen-4")
             instance_type = true
  | (Some message, None, None) =>
      message = "Invalid CPU type." \/ message = "No instances match the criteria."
  | (None, None, None) => True
  | _ => False
  end.
Proof.
  intros float pages describe.
  apply (cheapest_instance_meets_the_request float pages describe "epyc-gen-4" 4 8).
  intros ids history H. injection H as <-.
  apply List.Forall_forall. intros h Hh. apply in_map_iff in Hh as (i & <- & Hi). exact Hi.
Defined.
